(** * ERP integration and aggregation service (src/lib/analise-service.ts)

    A shallow embedding of the token manager ([obterToken]), the request
    executor ([fazerRequisicaoAutenticada]), the entity mapper
    ([mapearEntidades]) and the orchestrator ([buscarDadosAnalise]), and of
    what the two AI routes and the orders table do around them (the summary
    of the chat, the user of a request, the cleaning of a model answer, the
    date of an order), with the properties of the service proved about them.

    Layout: the JavaScript values the service handles, with the objects it
    builds (own properties in the order of the engine, and a prototype) and
    the printing of numbers; the date formatter and the entity mapper; the
    data of the orchestrator; the world, the state and the monad of a
    sequential run; the token manager and the request executor; the
    orchestrator; the token manager under interleaved callers; what the
    properties are stated with, and examples; the routes and the table; then
    the lemmas and the theorems. *)

From Stdlib Require Import ZArith List String Ascii Bool Lia.
From Stdlib Require Import Floats.PrimFloat.
From stdpp Require Import gmap strings pretty.

Set Warnings "-register-all".
Open Scope string_scope.
Open Scope Z_scope.
Open Scope list_scope.

(* ===================================================================== *)
(** ** JavaScript values *)
(* ===================================================================== *)

(** What [any] ranges over in this service: the values of a parsed JSON
    response, plus [undefined].  Numbers are the integer ones, [JNum n] being
    the Number value for [n] (the nearest double); the service only tests
    them for truthiness and prints them.  An object of a response is its own
    properties, which the service reads by name only; its prototype is
    [Object.prototype]. *)
Inductive JsValue : Type :=
| JUndefined
| JNull
| JBool (b : bool)
| JNum (n : Z)
| JStr (s : string)
| JArr (xs : list JsValue)
| JObj (props : list (string * JsValue)).

(** Own properties, as [Object.keys] lists them. *)
Definition Propriedades : Type := list (string * JsValue).

(** The prototype of an object that the service builds: [Object.prototype],
    [null], or an object or an array of a response (whose own prototype is
    [Object.prototype] or [Array.prototype]). *)
Inductive Prototipo : Type :=
| ProtoObject
| ProtoNull
| ProtoObjeto (props : Propriedades)
| ProtoArray (xs : list JsValue).

(** A plain object under construction ([cleanObject]) and a mapped record:
    its own properties and its prototype. *)
Record Registro : Type := mkRegistro {
  proprias : Propriedades;
  prototipo : Prototipo
}.

(** The error objects the code inspects: [erro.code], [erro.response?.status]
    and [erro.message]. *)
Record Erro : Type := mkErro {
  code : option string;
  response : option Z;
  message : string
}.

(** [new Error(msg)] and the engine's [TypeError]: no [code], no [response]. *)
Definition newError (msg : string) : Erro :=
  {| code := None; response := None; message := msg |}.

(** The three ways an evaluation ends.  [SemCombustivel] is the exhausted
    recursion budget of the two retrying functions; it is shown unreachable. *)
Inductive Resultado (A : Type) : Type :=
| Retorna (a : A)
| Lanca (e : Erro)
| SemCombustivel.
Arguments Retorna {A} a.
Arguments Lanca {A} e.
Arguments SemCombustivel {A}.

Module Js.

(** ToBoolean. *)
Definition truthy (v : JsValue) : bool :=
  match v with
  | JUndefined | JNull => false
  | JBool b => b
  | JNum n => negb (n =? 0)
  | JStr s => negb (String.eqb s "")
  | JArr _ | JObj _ => true
  end.

Definition nullish (v : JsValue) : bool :=
  match v with JUndefined | JNull => true | _ => false end.

(** [{}] *)
Definition objetoVazio : Registro :=
  {| proprias := []; prototipo := ProtoObject |}.

(** An object literal with the own properties [props]. *)
Definition objeto (props : Propriedades) : Registro :=
  {| proprias := props; prototipo := ProtoObject |}.

(** Own-property lookup in a plain object. *)
Fixpoint lookup (k : string) (o : Propriedades) : option JsValue :=
  match o with
  | [] => None
  | (k', v) :: o' => if String.eqb k k' then Some v else lookup k o'
  end.

Definition hasOwn (k : string) (o : Propriedades) : bool :=
  match lookup k o with Some _ => true | None => false end.

(** [v[k]] for a [v] that is neither [undefined] nor [null].  The keys this
    service reads (entity, metadata, fields, field, name, f0, f1, ..., $,
    responseBody, entities, bearerToken, token, CODLEAD, VLRNOTA, VLRDESDOB,
    VLRBAIXA) are not built-in properties of arrays, strings, numbers,
    booleans, [Array.prototype] or [Object.prototype], so in a value of a
    response only an object's own properties answer. *)
Definition getOwn (v : JsValue) (k : string) : JsValue :=
  match v with
  | JObj o => match lookup k o with Some x => x | None => JUndefined end
  | _ => JUndefined
  end.

Definition typeName (v : JsValue) : string :=
  match v with JNull => "null" | _ => "undefined" end.

(** [v.k]: a [TypeError] on [undefined] and [null]. *)
Definition getProp (v : JsValue) (k : string) : Resultado JsValue :=
  if nullish v
  then Lanca (newError ("Cannot read properties of " +:+ typeName v
                          +:+ " (reading '" +:+ k +:+ "')"))
  else Retorna (getOwn v k).

(** [v?.k]. *)
Definition getOpt (v : JsValue) (k : string) : JsValue :=
  if nullish v then JUndefined else getOwn v k.

(** [r.k] on a record, for the same keys: an own property, or else an own
    property of the object that an assignment to [__proto__] made the
    prototype of the record. *)
Definition getRegistro (r : Registro) (k : string) : JsValue :=
  match lookup k (proprias r) with
  | Some x => x
  | None =>
      match prototipo r with
      | ProtoObjeto o => getOwn (JObj o) k
      | _ => JUndefined
      end
  end.

Definition ehDigito (c : ascii) : bool :=
  (48 <=? nat_of_ascii c)%nat && (nat_of_ascii c <=? 57)%nat.

Fixpoint lerDigitos (s : string) (acc : N) : option N :=
  match s with
  | EmptyString => Some acc
  | String c rest =>
      if ehDigito c
      then lerDigitos rest (10 * acc + N.of_nat (nat_of_ascii c - 48))%N
      else None
  end.

(** The array index that the property key [k] is, if it is one: the
    canonical decimal text of an integer from 0 to 2^32 - 2. *)
Definition indiceDe (k : string) : option N :=
  match k with
  | EmptyString => None
  | _ =>
      match lerDigitos k 0 with
      | Some i =>
          if (i <? 4294967295)%N && String.eqb (pretty i) k then Some i
          else None
      | None => None
      end
  end.

Fixpoint replace (k : string) (v : JsValue) (o : Propriedades)
  : Propriedades :=
  match o with
  | [] => []
  | (k', v') :: o' =>
      if String.eqb k k' then (k', v) :: o' else (k', v') :: replace k v o'
  end.

(** A new property whose key is the array index [i]: array indices are
    listed first, in ascending order. *)
Fixpoint inserirIndice (i : N) (k : string) (v : JsValue) (o : Propriedades)
  : Propriedades :=
  match o with
  | [] => [(k, v)]
  | (k', v') :: o' =>
      match indiceDe k' with
      | Some j =>
          if (j <? i)%N then (k', v') :: inserirIndice i k v o'
          else (k, v) :: o
      | None => (k, v) :: o
      end
  end.

(** Writing the own data property [k]: an existing key keeps its place; a
    new key that is an array index goes among the indices, any other new key
    goes last. *)
Definition definir (o : Propriedades) (k : string) (v : JsValue)
  : Propriedades :=
  if hasOwn k o then replace k v o
  else
    match indiceDe k with
    | Some i => inserirIndice i k v o
    | None => o ++ [(k, v)]
    end.

(** Whether an assignment to [__proto__] on [r] finds the accessor of
    [Object.prototype]: [r] has no own property of that name, and up its
    prototype chain no object has one before [Object.prototype] is reached. *)
Definition alcancaSetter (r : Registro) : bool :=
  negb (hasOwn "__proto__" (proprias r))
  && match prototipo r with
     | ProtoObject => true
     | ProtoNull => false
     | ProtoObjeto o => negb (hasOwn "__proto__" o)
     | ProtoArray _ => true
     end.

(** The setter of [Object.prototype.__proto__]: an object or [null] becomes
    the prototype, any other value is ignored. *)
Definition protoSetter (r : Registro) (v : JsValue) : Registro :=
  match v with
  | JObj o => {| proprias := proprias r; prototipo := ProtoObjeto o |}
  | JArr xs => {| proprias := proprias r; prototipo := ProtoArray xs |}
  | JNull => {| proprias := proprias r; prototipo := ProtoNull |}
  | _ => r
  end.

(** [r[k] = v] on a record.  Every property of [Object.prototype],
    [Array.prototype] and of the objects of a response is a writable data
    property, except the accessor [__proto__] of [Object.prototype]: so the
    assignment writes an own property of [r], unless [k] is [__proto__] and
    the accessor is reached, which runs the setter. *)
Definition setProp (r : Registro) (k : string) (v : JsValue) : Registro :=
  if String.eqb k "__proto__" && alcancaSetter r then protoSetter r v
  else {| proprias := definir (proprias r) k v; prototipo := prototipo r |}.

(** The Number value for the positive integer [m]: the nearest double, ties
    to even; [None] is [Infinity]. *)
Definition numberOf (m : Z) : option Z :=
  let e := Z.log2 m in
  if e <? 53 then Some m
  else
    let sh := e - 52 in
    let q := Z.shiftr m sh in
    let r := m - Z.shiftl q sh in
    let half := Z.shiftl 1 (sh - 1) in
    let q' := if half <? r then q + 1
              else if r <? half then q
              else if Z.even q then q else q + 1 in
    let x := Z.shiftl q' sh in
    if Z.shiftl 1 1024 <=? x then None else Some x.

Definition ehNumero (v x : Z) : bool :=
  match numberOf v with
  | Some y => y =? x
  | None => false
  end.

(** The decimal of fewest significant digits whose Number value is [x]:
    multiples of the power of ten [p] are tried from the largest power down;
    of two that do, the closer to [x] is taken, the even one if they are as
    close. *)
Fixpoint maisCurto (x : Z) (p : Z) (fuel : nat) : Z :=
  match fuel with
  | O => x
  | S fuel' =>
      let lo := (x / p) * p in
      let hi := lo + p in
      let okLo := ehNumero lo x in
      let okHi := ehNumero hi x in
      if okLo && okHi then
        if x - lo <? hi - x then lo
        else if hi - x <? x - lo then hi
        else if Z.even (x / p) then lo else hi
      else if okLo then lo
      else if okHi then hi
      else maisCurto x (p / 10) fuel'
  end.

Fixpoint semZerosFinais (rev : list ascii) : list ascii :=
  match rev with
  | "0"%char :: rest => semZerosFinais rest
  | _ => rev
  end.

(** The exponent form of the significant digits [s], the decimal exponent
    being [e]: [d.ddde+N] ([de+N] for a single digit). *)
Definition exponencial (s : list ascii) (e : Z) : string :=
  match s with
  | [] => ""
  | [d] => String d ("e+" +:+ pretty e)
  | d :: rest =>
      String d ("." +:+ string_of_list_ascii rest +:+ "e+" +:+ pretty e)
  end.

(** The notation of the decimal digits [ds] of a positive integer: all the
    digits up to 21 of them, the exponent form of the digits without their
    trailing zeros beyond. *)
Definition notacao (ds : string) : string :=
  let n' := String.length ds in
  if (n' <=? 21)%nat then ds
  else
    match List.rev (semZerosFinais (List.rev (list_ascii_of_string ds))) with
    | [] => ds
    | s => exponencial s (Z.of_nat n' - 1)
    end.

(** Number::toString of a positive integer-valued Number [x]: the notation
    of the shortest decimal whose Number value is [x]. *)
Definition textoDoNumero (x : Z) : string :=
  let n := String.length (pretty x) in
  notacao (pretty (maisCurto x (10 ^ (Z.of_nat n - 1)) n)).

(** ToString of the Number value for the integer [n].  Below 2^53 every
    integer is a Number and prints in full. *)
Definition numberToString (n : Z) : string :=
  if Z.abs n <? 2 ^ 53 then pretty n
  else
    (if n <? 0 then "-" else "")
    +:+ match numberOf (Z.abs n) with
        | Some x => textoDoNumero x
        | None => "Infinity"
        end.

Fixpoint joinWith (sep : string) (parts : list string) : string :=
  match parts with
  | [] => ""
  | [p] => p
  | p :: rest => p +:+ sep +:+ joinWith sep rest
  end.

Fixpoint sequence {A : Type} (rs : list (Resultado A)) : Resultado (list A) :=
  match rs with
  | [] => Retorna []
  | r :: rs' =>
      match r with
      | Retorna a =>
          match sequence rs' with
          | Retorna l => Retorna (a :: l)
          | Lanca e => Lanca e
          | SemCombustivel => SemCombustivel
          end
      | Lanca e => Lanca e
      | SemCombustivel => SemCombustivel
      end
  end.

(** ToString, as a template literal, a property key and [Array.join] apply
    it.  An array prints its elements joined by commas, [undefined] and
    [null] elements as the empty string; an object prints as
    [[object Object]] unless an own [toString] property (never callable in
    parsed JSON) hides the inherited method, which is a [TypeError]. *)
Fixpoint toString (v : JsValue) : Resultado string :=
  match v with
  | JUndefined => Retorna "undefined"
  | JNull => Retorna "null"
  | JBool true => Retorna "true"
  | JBool false => Retorna "false"
  | JNum n => Retorna (numberToString n)
  | JStr s => Retorna s
  | JArr xs =>
      match sequence (List.map (fun x => if nullish x then Retorna ""
                                         else toString x) xs) with
      | Retorna parts => Retorna (joinWith "," parts)
      | Lanca e => Lanca e
      | SemCombustivel => SemCombustivel
      end
  | JObj o =>
      if hasOwn "toString" o
      then Lanca (newError "Cannot convert object to primitive value")
      else Retorna "[object Object]"
  end.

(** [xs.join(sep)] over values. *)
Definition join (sep : string) (xs : list JsValue) : Resultado string :=
  match sequence (List.map (fun x => if nullish x then Retorna ""
                                     else toString x) xs) with
  | Retorna parts => Retorna (joinWith sep parts)
  | Lanca e => Lanca e
  | SemCombustivel => SemCombustivel
  end.

(** [s.split(sep)] for a one-character separator. *)
Fixpoint split (sep : ascii) (s : string) : list string :=
  match s with
  | EmptyString => [""]
  | String c rest =>
      if Ascii.eqb c sep then "" :: split sep rest
      else match split sep rest with
           | [] => [String c ""]
           | p :: ps => String c p :: ps
           end
  end.

(** A destructured or indexed array element that is a string, spliced into
    a template literal: a missing element prints as [undefined]. *)
Definition nthText (parts : list string) (i : nat) : string :=
  nth i parts "undefined".

End Js.

(** Sequencing of evaluations that may throw. *)
Definition bindR {A B : Type} (r : Resultado A) (k : A -> Resultado B)
  : Resultado B :=
  match r with
  | Retorna a => k a
  | Lanca e => Lanca e
  | SemCombustivel => SemCombustivel
  end.

Notation "x <~ e ;; k" := (bindR e (fun x => k))
  (at level 100, e at next level, right associativity).

(** [arr.map(cb)]: the callback runs on the elements in order and the first
    exception ends the call; anything but an array has no callable [map]. *)
Definition arrayMap {A : Type} (arr : JsValue) (what : string)
    (cb : JsValue -> Resultado A) : Resultado (list A) :=
  match arr with
  | JArr xs => Js.sequence (List.map cb xs)
  | JUndefined | JNull =>
      Lanca (newError ("Cannot read properties of " +:+ Js.typeName arr
                         +:+ " (reading 'map')"))
  | _ => Lanca (newError (what +:+ ".map is not a function"))
  end.

(* ===================================================================== *)
(** ** formatarDataParaSankhya and mapearEntidades *)
(* ===================================================================== *)

(** [const [ano, mes, dia] = dataISO.split('-'); return `${dia}/${mes}/${ano}`] *)
Definition formatarDataParaSankhya (dataISO : string) : string :=
  let parts := Js.split "-"%char dataISO in
  let ano := Js.nthText parts 0 in
  let mes := Js.nthText parts 1 in
  let dia := Js.nthText parts 2 in
  dia +:+ "/" +:+ mes +:+ "/" +:+ ano.

(** [`f${i}`] *)
Definition fieldKeyOf (i : nat) : string := "f" +:+ pretty i.

(** The [for] loop of [mapearEntidades] from index [i] on, [fieldNames] being
    the names from [i] on. *)
Fixpoint forFields (rawEntity : JsValue) (fieldNames : list JsValue) (i : nat)
    (cleanObject : Registro) : Resultado Registro :=
  match fieldNames with
  | [] => Retorna cleanObject
  | fieldName :: rest =>
      let fieldKey := fieldKeyOf i in
      slot <~ Js.getProp rawEntity fieldKey ;;
      if Js.truthy slot then
        value <~ Js.getProp slot "$" ;;
        key <~ Js.toString fieldName ;;
        forFields rawEntity rest (S i) (Js.setProp cleanObject key value)
      else forFields rawEntity rest (S i) cleanObject
  end.

(** [Array.isArray(entities.entity) ? entities.entity : [entities.entity]] *)
Definition entityArrayOf (entity : JsValue) : list JsValue :=
  match entity with
  | JArr xs => xs
  | _ => [entity]
  end.

Definition mapearEntidades (entities : JsValue) : Resultado (list Registro) :=
  if negb (Js.truthy entities) || negb (Js.truthy (Js.getOwn entities "entity"))
  then Retorna []
  else
    metadata <~ Js.getProp entities "metadata" ;;
    fields <~ Js.getProp metadata "fields" ;;
    field <~ Js.getProp fields "field" ;;
    fieldNames <~ arrayMap field "entities.metadata.fields.field"
                    (fun f => Js.getProp f "name") ;;
    let entityArray := entityArrayOf (Js.getOwn entities "entity") in
    Js.sequence
      (List.map (fun rawEntity =>
                   forFields rawEntity fieldNames 0 Js.objetoVazio)
                entityArray).

(* ===================================================================== *)
(** ** The data of the orchestrator *)
(* ===================================================================== *)

Record FiltroAnalise : Type := mkFiltro {
  dataInicio : string;  (* YYYY-MM-DD *)
  dataFim : string      (* YYYY-MM-DD *)
}.

Record DadosAnalise : Type := mkDados {
  leads : list Registro;
  produtosLeads : list Registro;
  estagiosFunis : list Registro;
  funis : list Registro;
  atividades : list Registro;
  pedidos : list Registro;
  produtos : list Registro;
  clientes : list Registro;
  financeiro : list Registro;
  filtro : FiltroAnalise;
  timestamp : string
}.

(** The metric fields that the object returned after a fetch carries on top
    of the [DadosAnalise] fields. *)
Record Metricas : Type := mkMetricas {
  totalLeads : nat;
  totalAtividades : nat;
  totalPedidos : nat;
  totalProdutos : nat;
  totalClientes : nat;
  totalFinanceiro : Z;
  valorTotalPedidos : float;
  valorTotalFinanceiro : Z;
  valorRecebido : Z;
  valorPendente : Z
}.

(** What [buscarDadosAnalise] resolves to: a JavaScript object that has the
    [DadosAnalise] fields and either has the metric fields or lacks them. *)
Record Retorno : Type := mkRetorno {
  dados : DadosAnalise;
  metricas : option Metricas
}.

(** The [dataSet] of a request body.  [offsetPage: null] and
    [disableRowsLimit: true] are the same in every payload and left out. *)
Record Payload : Type := mkPayload {
  rootEntity : string;
  includePresentationFields : string;
  fieldsetList : string;
  criteria : string;
  ordering : option string
}.

(* ===================================================================== *)
(** ** The world and the state of a sequential run *)
(* ===================================================================== *)

(** What leaves the process. *)
Inductive Evento : Type :=
| EvLogin                                               (* POST ENDPOINT_LOGIN *)
| EvConsulta (url : string) (authorization : string) (p : Payload)
| EvEspera (ms : Z).                                    (* setTimeout *)

(** The environment: the answer to the n-th login request (an axios error
    or [resposta.data]), the answer to the n-th query request, the n-th
    reading of the clock, and the number that the engine's [parseFloat]
    reads from a text. *)
Record Mundo : Type := mkMundo {
  login_at : nat -> Erro + JsValue;
  consulta_at : nat -> string -> string -> Payload -> Erro + JsValue;
  relogio : nat -> string;
  parseFloat : string -> float
}.

(** The cache collaborator [redisCacheService].  Its module,
    ./redis-cache-service, is not among the sources; the two operations
    follow the interface of the spec (section 6).  The store maps a key to a
    value and its time to live in seconds; an entry is live while it is in
    the store. *)
Module redisCacheService.

(** Modelled from the spec: [get(key)] of the missing ./redis-cache-service,
    which gives the value stored under [key], or nothing. *)
Definition get (key : string) (c : gmap string (DadosAnalise * Z))
  : option DadosAnalise := fst <$> (c !! key).

(** Modelled from the spec: [set(key, value, ttlSeconds)] of the missing
    ./redis-cache-service, which stores [value] under [key]. *)
Definition set (key : string) (value : DadosAnalise) (ttlSeconds : Z)
    (c : gmap string (DadosAnalise * Z)) : gmap string (DadosAnalise * Z) :=
  <[key := (value, ttlSeconds)]> c.

End redisCacheService.

(** Module-level state ([cachedToken]; [tokenPromise] is null whenever a
    sequential run enters [obterToken], see [Module SingleFlight] for the
    interleaved runs), the cache, and the bookkeeping of the environment. *)
Record Estado : Type := mkEstado {
  cachedToken : JsValue;                     (* string | null *)
  cache : gmap string (DadosAnalise * Z);
  nLogin : nat;
  nConsulta : nat;
  nRelogio : nat;
  log : list Evento
}.

Definition M (A : Type) : Type := Estado -> Resultado A * Estado.

Definition ret {A : Type} (a : A) : M A := fun s => (Retorna a, s).

Definition throw {A : Type} (e : Erro) : M A := fun s => (Lanca e, s).

Definition bindM {A B : Type} (m : M A) (k : A -> M B) : M B :=
  fun s =>
    match m s with
    | (Retorna a, s') => k a s'
    | (Lanca e, s') => (Lanca e, s')
    | (SemCombustivel, s') => (SemCombustivel, s')
    end.

Notation "x <- e ;; k" := (bindM e (fun x => k))
  (at level 100, e at next level, right associativity).

(** [try { m } catch (erro) { handler(erro) }]: the state at the throw is
    kept. *)
Definition tryCatch {A : Type} (m : M A) (handler : Erro -> M A) : M A :=
  fun s =>
    match m s with
    | (Lanca e, s') => handler e s'
    | r => r
    end.

Definition liftR {A : Type} (r : Resultado A) : M A := fun s => (r, s).

Definition comToken (v : JsValue) (s : Estado) : Estado :=
  {| cachedToken := v; cache := cache s; nLogin := nLogin s;
     nConsulta := nConsulta s; nRelogio := nRelogio s; log := log s |}.

(** [cachedToken = v] *)
Definition setCachedToken (v : JsValue) : M unit :=
  fun s => (Retorna tt, comToken v s).

Definition emit (e : Evento) (s : Estado) : Estado :=
  {| cachedToken := cachedToken s; cache := cache s; nLogin := nLogin s;
     nConsulta := nConsulta s; nRelogio := nRelogio s;
     log := log s ++ [e] |}.

(** [await new Promise(resolve => setTimeout(resolve, ms))] *)
Definition sleep (ms : Z) : M unit :=
  fun s => (Retorna tt, emit (EvEspera ms) s).

Definition ofAnswer (r : Erro + JsValue) : Resultado JsValue :=
  match r with
  | inl e => Lanca e
  | inr data => Retorna data
  end.

(** The state once a login request, or a query request, has gone out. *)
Definition aposLogin (s : Estado) : Estado :=
  {| cachedToken := cachedToken s; cache := cache s; nLogin := S (nLogin s);
     nConsulta := nConsulta s; nRelogio := nRelogio s;
     log := log s ++ [EvLogin] |}.

Definition aposConsulta (url authorization : string) (data : Payload)
    (s : Estado) : Estado :=
  {| cachedToken := cachedToken s; cache := cache s; nLogin := nLogin s;
     nConsulta := S (nConsulta s); nRelogio := nRelogio s;
     log := log s ++ [EvConsulta url authorization data] |}.

Section Servico.

Variable w : Mundo.

(** [(await axios.post(ENDPOINT_LOGIN, {}, ...)).data] *)
Definition axiosPostLogin : M JsValue :=
  fun s => (ofAnswer (login_at w (nLogin s)), aposLogin s).

(** [(await axios(config)).data] *)
Definition axiosRequest (url authorization : string) (data : Payload)
  : M JsValue :=
  fun s =>
    (ofAnswer (consulta_at w (nConsulta s) url authorization data),
     aposConsulta url authorization data s).

(** [new Date().toISOString()] *)
Definition nowISO : M string :=
  fun s =>
    (Retorna (relogio w (nRelogio s)),
     {| cachedToken := cachedToken s; cache := cache s;
        nLogin := nLogin s; nConsulta := nConsulta s;
        nRelogio := S (nRelogio s); log := log s |}).

Definition cacheGet (key : string) : M (option DadosAnalise) :=
  fun s => (Retorna (redisCacheService.get key (cache s)), s).

Definition cacheSet (key : string) (value : DadosAnalise) (ttl : Z)
  : M unit :=
  fun s =>
    (Retorna tt,
     {| cachedToken := cachedToken s;
        cache := redisCacheService.set key value ttl (cache s);
        nLogin := nLogin s; nConsulta := nConsulta s;
        nRelogio := nRelogio s; log := log s |}).

End Servico.

(* ===================================================================== *)
(** ** obterToken and fazerRequisicaoAutenticada *)
(* ===================================================================== *)

Definition URL_CONSULTA_SERVICO : string :=
  "https://api.sandbox.sankhya.com.br/gateway/v1/mge/service.sbr?serviceName=CRUDServiceProvider.loadRecords&outputType=json".

Definition isCode (c : string) (erro : Erro) : bool :=
  match code erro with
  | Some c' => String.eqb c' c
  | None => false
  end.

(** [erro.response?.status] compared by [test]; false without a response. *)
Definition statusIs (test : Z -> bool) (erro : Erro) : bool :=
  match response erro with
  | Some st => test st
  | None => false
  end.

Module ObterToken.
Definition MAX_RETRIES : nat := 3.
Definition RETRY_DELAY : Z := 2000.

(** [erro.code === 'ECONNABORTED' || erro.response?.status === 500] *)
Definition retryable (erro : Erro) : bool :=
  isCode "ECONNABORTED" erro || statusIs (fun st => st =? 500) erro.

Definition errorMsg (erro : Erro) : string :=
  if isCode "ECONNABORTED" erro then "Timeout ao conectar com Sankhya"
  else message erro.

Definition falha (erro : Erro) : Erro :=
  newError ("Falha na autenticação Sankhya: " +:+ errorMsg erro).

(** [const token = resposta.data.bearerToken || resposta.data.token;
    if (!token) throw new Error(...)] *)
Definition tokenOf (data : JsValue) : Resultado JsValue :=
  bearer <~ Js.getProp data "bearerToken" ;;
  token <~ (if Js.truthy bearer then Retorna bearer
            else Js.getProp data "token") ;;
  if negb (Js.truthy token)
  then Lanca (newError "Token não encontrado na resposta de login.")
  else Retorna token.

(** How the [try] block ends on a login answer: with the token, or with
    the error that reaches the [catch]. *)
Definition tokenDe (ans : Erro + JsValue) : Resultado JsValue :=
  match ans with
  | inl e => Lanca e
  | inr data => tokenOf data
  end.
End ObterToken.

Module Requisicao.
Definition MAX_RETRIES : nat := 2.
Definition RETRY_DELAY : Z := 1000.

(** [erro.response && (erro.response.status === 401 ||
    erro.response.status === 403)] *)
Definition authExpired (erro : Erro) : bool :=
  statusIs (fun st => (st =? 401) || (st =? 403)) erro.

(** [erro.code === 'ECONNABORTED' || erro.response?.status >= 500] *)
Definition transient (erro : Erro) : bool :=
  isCode "ECONNABORTED" erro || statusIs (fun st => 500 <=? st) erro.

Definition sessaoExpirada : Erro :=
  newError "Sessão expirada. Tente novamente.".
End Requisicao.

Section Funcoes.

Variable w : Mundo.

(** The body of the [try] block of the acquisition: the login request, the
    token of the answer, the write to [cachedToken]. *)
Definition acquire : M JsValue :=
  data <- axiosPostLogin w ;;
  token <- liftR (ObterToken.tokenOf data) ;;
  _ <- setCachedToken token ;;
  ret token.

(** [obterToken(retryCount)] in a sequential run.  [fuel] bounds the
    recursion; [obterToken] below supplies enough of it. *)
Fixpoint obterToken_rec (fuel : nat) (retryCount : nat) : M JsValue :=
  fun s =>
    if Js.truthy (cachedToken s) then (Retorna (cachedToken s), s)
    else
      match fuel with
      | O => (SemCombustivel, s)
      | S fuel' =>
          tryCatch acquire
            (fun erro =>
               if ObterToken.retryable erro
                  && (retryCount <? ObterToken.MAX_RETRIES)%nat
               then
                 _ <- sleep (ObterToken.RETRY_DELAY
                             * Z.of_nat (retryCount + 1)) ;;
                 obterToken_rec fuel' (retryCount + 1)
               else
                 _ <- setCachedToken JNull ;;
                 throw (ObterToken.falha erro))
            s
      end.

Definition obterToken (retryCount : nat) : M JsValue :=
  obterToken_rec (S (ObterToken.MAX_RETRIES - retryCount)) retryCount.

(** The [try] block of [fazerRequisicaoAutenticada]. *)
Definition attempt (fullUrl : string) (data : Payload) : M JsValue :=
  token <- obterToken 0 ;;
  tokenText <- liftR (Js.toString token) ;;
  axiosRequest w fullUrl ("Bearer " +:+ tokenText) data.

Fixpoint fazerRequisicaoAutenticada_rec (fuel : nat) (fullUrl : string)
    (data : Payload) (retryCount : nat) : M JsValue :=
  match fuel with
  | O => fun s => (SemCombustivel, s)
  | S fuel' =>
      tryCatch (attempt fullUrl data)
        (fun erro =>
           if Requisicao.authExpired erro then
             _ <- setCachedToken JNull ;;
             if (retryCount <? 1)%nat then
               _ <- sleep 500 ;;
               fazerRequisicaoAutenticada_rec fuel' fullUrl data
                 (retryCount + 1)
             else throw Requisicao.sessaoExpirada
           else if Requisicao.transient erro
                   && (retryCount <? Requisicao.MAX_RETRIES)%nat then
             _ <- sleep (Requisicao.RETRY_DELAY
                         * Z.of_nat (retryCount + 1)) ;;
             fazerRequisicaoAutenticada_rec fuel' fullUrl data
               (retryCount + 1)
           else throw erro)
  end.

Definition fazerRequisicaoAutenticada (fullUrl : string) (data : Payload)
    (retryCount : nat) : M JsValue :=
  fazerRequisicaoAutenticada_rec (S (Requisicao.MAX_RETRIES - retryCount))
    fullUrl data retryCount.

End Funcoes.

(* ===================================================================== *)
(** ** buscarDadosAnalise *)
(* ===================================================================== *)

Definition mkDataSet (root presentation fields crit : string)
    (ord : option string) : Payload :=
  {| rootEntity := root; includePresentationFields := presentation;
     fieldsetList := fields; criteria := crit; ordering := ord |}.

(** [let criteriaLeads = ...; if (!isAdmin) criteriaLeads += ...] *)
Definition criteriaLeads (dataInicioSankhya dataFimSankhya : string)
    (userId : Z) (isAdmin : bool) : string :=
  let base := "DATA_CRIACAO BETWEEN '" +:+ dataInicioSankhya +:+ "' AND '"
              +:+ dataFimSankhya +:+ "' AND ATIVO = 'S'" in
  if negb isAdmin
  then base +:+ " AND CODUSUARIO = " +:+ Js.numberToString userId
  else base.

Definition leadsPayload (criteriaLeads : string) : Payload :=
  mkDataSet "AD_LEADS" "S"
    "CODLEAD, NOME, DESCRICAO, VALOR, CODESTAGIO, DATA_VENCIMENTO, TIPO_TAG, COR_TAG, CODPARC, CODFUNIL, CODUSUARIO, ATIVO, DATA_CRIACAO, DATA_ATUALIZACAO, STATUS_LEAD, MOTIVO_PERDA, DATA_CONCLUSAO"
    criteriaLeads None.

Definition atividadesPayload (dataInicioSankhya dataFimSankhya : string)
  : Payload :=
  mkDataSet "AD_ADLEADSATIVIDADES" "S"
    "CODATIVIDADE, CODLEAD, TIPO, DESCRICAO, DATA_HORA, DATA_INICIO, DATA_FIM, CODUSUARIO, DADOS_COMPLEMENTARES, COR, ORDEM, ATIVO, STATUS"
    ("ATIVO = 'S' AND (DATA_HORA BETWEEN '" +:+ dataInicioSankhya +:+ "' AND '"
       +:+ dataFimSankhya +:+ "' OR DATA_HORA IS NULL)")
    None.

Definition funisPayload : Payload :=
  mkDataSet "AD_FUNIS" "S"
    "CODFUNIL, NOME, DESCRICAO, COR, ATIVO, DATA_CRIACAO, DATA_ATUALIZACAO"
    "ATIVO = 'S'" None.

Definition estagiosPayload : Payload :=
  mkDataSet "AD_FUNISESTAGIOS" "S"
    "CODESTAGIO, CODFUNIL, NOME, ORDEM, COR, ATIVO"
    "ATIVO = 'S'" None.

Definition pedidosPayload (dataInicioSankhya dataFimSankhya : string)
  : Payload :=
  mkDataSet "CabecalhoNota" "S"
    "NUNOTA, CODPARC, CODVEND, VLRNOTA, DTNEG"
    ("TIPMOV = 'P' AND DTNEG BETWEEN TO_DATE('" +:+ dataInicioSankhya
       +:+ "', 'DD/MM/YYYY') AND TO_DATE('" +:+ dataFimSankhya
       +:+ "', 'DD/MM/YYYY')")
    (Some "DTNEG DESC, NUNOTA DESC").

Definition produtosPayload : Payload :=
  mkDataSet "Produto" "N" "CODPROD, DESCRPROD, ATIVO" "ATIVO = 'S'" None.

Definition clientesPayload : Payload :=
  mkDataSet "Parceiro" "N" "CODPARC, NOMEPARC, CGC_CPF, CLIENTE, ATIVO"
    "CLIENTE = 'S' AND ATIVO = 'S'" None.

Definition produtosLeadsPayload (codLeadsStr : string) : Payload :=
  mkDataSet "AD_ADLEADSPRODUTOS" "S"
    "CODITEM, CODLEAD, CODPROD, DESCRPROD, QUANTIDADE, VLRUNIT, VLRTOTAL, ATIVO, DATA_INCLUSAO"
    ("CODLEAD IN (" +:+ codLeadsStr +:+ ") AND ATIVO = 'S'") None.

(** [res?.responseBody?.entities] *)
Definition entitiesOf (res : JsValue) : JsValue :=
  Js.getOpt (Js.getOpt res "responseBody") "entities".

(** [res?.responseBody?.entities ? mapearEntidades(res.responseBody.entities) : []] *)
Definition mapearResposta (res : JsValue) : Resultado (list Registro) :=
  if Js.truthy (entitiesOf res) then mapearEntidades (entitiesOf res)
  else Retorna [].

(** [leads.map(l => l.CODLEAD).join(',')] *)
Definition codLeadsStrOf (leads : list Registro) : Resultado string :=
  Js.join "," (List.map (fun l => Js.getRegistro l "CODLEAD") leads).

(** [cacheKey] *)
Definition cacheKeyOf (filtro : FiltroAnalise) (userId : Z) : string :=
  "analise:" +:+ Js.numberToString userId +:+ ":" +:+ dataInicio filtro
  +:+ ":"
  +:+ dataFim filtro.

(** [x || 0] on numbers: [NaN] and the zeros are falsy. *)
Definition orZero (x : float) : float :=
  if PrimFloat.is_nan x || PrimFloat.is_zero x then PrimFloat.zero else x.

Section Orquestrador.

Variable w : Mundo.

(** [m.catch(err => { console.error(...); return null; })] *)
Definition catchNull (m : M JsValue) : M JsValue :=
  tryCatch m (fun _ => ret JNull).

(** [parseFloat(v)]: ToString of the argument, which throws on an object
    that cannot be converted to a primitive value, then the number that the
    engine reads from the text. *)
Definition parseFloatDe (v : JsValue) : Resultado float :=
  text <~ Js.toString v ;;
  Retorna (parseFloat w text).

(** [lista.reduce((sum, x) => sum + (parseFloat(x.campo) || 0), sum0)]: the
    records are visited in order and the first exception ends the call. *)
Fixpoint reduceSoma (campo : string) (lista : list Registro) (sum : float)
  : Resultado float :=
  match lista with
  | [] => Retorna sum
  | x :: rest =>
      valor <~ parseFloatDe (Js.getRegistro x campo) ;;
      reduceSoma campo rest (PrimFloat.add sum (orZero valor))
  end.

(** [pedidos.reduce((sum, p) => sum + (parseFloat(p.VLRNOTA) || 0), 0)] *)
Definition somaVlrNota (pedidos : list Registro) : Resultado float :=
  reduceSoma "VLRNOTA" pedidos PrimFloat.zero.

(** The object of the final [return]: the fields of [resultado], an empty
    [financeiro], a new timestamp, and the metrics. *)
Definition retornoDe (resultado : DadosAnalise) (filtroArg : FiltroAnalise)
    (valorTotalPedidos : float) (agora : string) : Retorno :=
  {| dados :=
       {| leads := leads resultado;
          produtosLeads := produtosLeads resultado;
          estagiosFunis := estagiosFunis resultado;
          funis := funis resultado;
          atividades := atividades resultado;
          pedidos := pedidos resultado;
          produtos := produtos resultado;
          clientes := clientes resultado;
          financeiro := [];            (* Financeiro não é mais buscado *)
          filtro := filtroArg;
          timestamp := agora |};
     metricas :=
       Some {| totalLeads := length (leads resultado);
               totalAtividades := length (atividades resultado);
               totalPedidos := length (pedidos resultado);
               totalProdutos := length (produtos resultado);
               totalClientes := length (clientes resultado);
               totalFinanceiro := 0;          (* Não calculado *)
               valorTotalPedidos := valorTotalPedidos;
               valorTotalFinanceiro := 0;     (* Não calculado *)
               valorRecebido := 0;            (* Não calculado *)
               valorPendente := 0 |} |}.      (* Não calculado *)

(** Step 5: the lead-products query, sent only when leads were found and
    not wrapped in [.catch]. *)
Definition buscarProdutosLeads (leads : list Registro) : M (list Registro) :=
  if (0 <? length leads)%nat then
    codLeadsStr <- liftR (codLeadsStrOf leads) ;;
    produtosLeadsRes <- fazerRequisicaoAutenticada w
      URL_CONSULTA_SERVICO (produtosLeadsPayload codLeadsStr) 0 ;;
    liftR (mapearResposta produtosLeadsRes)
  else ret [].

(** From [const resultado = ...] to the [return]: the object that is cached
    for 30 minutes, and the object that is returned. *)
Definition guardarERetornar (filtro : FiltroAnalise) (cacheKey : string)
    (leads produtosLeads estagiosFunis funis atividades pedidos produtos
       clientes : list Registro) : M Retorno :=
  agora <- nowISO w ;;
  let resultado :=
    {| leads := leads; produtosLeads := produtosLeads;
       estagiosFunis := estagiosFunis; funis := funis;
       atividades := atividades; pedidos := pedidos;
       produtos := produtos; clientes := clientes;
       financeiro := []; filtro := filtro; timestamp := agora |} in
  _ <- cacheSet cacheKey resultado (30 * 60) ;;
  valorTotalPedidos <- liftR (somaVlrNota pedidos) ;;
  depois <- nowISO w ;;
  ret (retornoDe resultado filtro valorTotalPedidos depois).

(** The cache-miss path, from the date conversion to the [return]. *)
Definition buscarDaApi (filtro : FiltroAnalise) (userId : Z)
    (isAdmin : bool) (cacheKey : string) : M Retorno :=
  let dataInicioSankhya := formatarDataParaSankhya (dataInicio filtro) in
  let dataFimSankhya := formatarDataParaSankhya (dataFim filtro) in
  tryCatch
    (leadsRes <- catchNull (fazerRequisicaoAutenticada w URL_CONSULTA_SERVICO
         (leadsPayload (criteriaLeads dataInicioSankhya dataFimSankhya
                          userId isAdmin)) 0) ;;
     atividadesRes <- catchNull (fazerRequisicaoAutenticada w
         URL_CONSULTA_SERVICO
         (atividadesPayload dataInicioSankhya dataFimSankhya) 0) ;;
     funisRes <- catchNull (fazerRequisicaoAutenticada w
         URL_CONSULTA_SERVICO funisPayload 0) ;;
     estagiosRes <- catchNull (fazerRequisicaoAutenticada w
         URL_CONSULTA_SERVICO estagiosPayload 0) ;;
     pedidosRes <- catchNull (fazerRequisicaoAutenticada w
         URL_CONSULTA_SERVICO
         (pedidosPayload dataInicioSankhya dataFimSankhya) 0) ;;
     produtosRes <- catchNull (fazerRequisicaoAutenticada w
         URL_CONSULTA_SERVICO produtosPayload 0) ;;
     clientesRes <- catchNull (fazerRequisicaoAutenticada w
         URL_CONSULTA_SERVICO clientesPayload 0) ;;
     leads <- liftR (mapearResposta leadsRes) ;;
     atividades <- liftR (mapearResposta atividadesRes) ;;
     funis <- liftR (mapearResposta funisRes) ;;
     estagiosFunis <- liftR (mapearResposta estagiosRes) ;;
     pedidos <- liftR (mapearResposta pedidosRes) ;;
     produtos <- liftR (mapearResposta produtosRes) ;;
     clientes <- liftR (mapearResposta clientesRes) ;;
     produtosLeads <- buscarProdutosLeads leads ;;
     guardarERetornar filtro cacheKey leads produtosLeads estagiosFunis
       funis atividades pedidos produtos clientes)
    (fun erro => throw erro).

Definition buscarDadosAnalise (filtro : FiltroAnalise) (userId : Z)
    (isAdmin : bool) : M Retorno :=
  let cacheKey := cacheKeyOf filtro userId in
  cached <- cacheGet cacheKey ;;
  match cached with
  | Some c => ret {| dados := c; metricas := None |}
  | None => buscarDaApi filtro userId isAdmin cacheKey
  end.

End Orquestrador.

(* ===================================================================== *)
(** ** obterToken under interleaved callers *)
(* ===================================================================== *)

(** The event loop runs one task at a time until its next [await].  An
    acquisition (the async function assigned to [tokenPromise]) suspends at
    [await import('axios')], at [await axios.post(...)] and at the backoff
    [await new Promise(... setTimeout ...)]; between two suspensions its code
    runs without interruption.  A label is one thing the loop can do next. *)
Module SingleFlight.

(** What a call of [obterToken] hands back at once. *)
Inductive Entrega : Type :=
| Imediato (token : JsValue)      (* the cached token *)
| Promessa (id : nat).            (* the acquisition to await *)

Inductive Ponto : Type :=
| AguardaImport (retryCount : nat)
| AguardaLogin (retryCount : nat)   (* its login request is in flight *)
| AguardaTimer (retryCount : nat)
| Resolvida (token : JsValue)
| Rejeitada (e : Erro)
| Encadeada (to : Entrega).         (* [return obterToken(retryCount + 1)] *)

Record Sistema : Type := mkSistema {
  cachedToken : JsValue;
  tokenPromise : option nat;
  tarefas : list Ponto;             (* acquisition [id] is [tarefas !! id] *)
  logins : nat;                     (* login requests issued so far *)
  entregas : list Entrega           (* what each outside caller got *)
}.

Definition inicial : Sistema :=
  {| cachedToken := JNull; tokenPromise := None; tarefas := [];
     logins := 0; entregas := [] |}.

(** The synchronous part of [obterToken(retryCount)], up to the first
    [await] of the acquisition it may start. *)
Definition chama (retryCount : nat) (s : Sistema) : Entrega * Sistema :=
  if Js.truthy (cachedToken s) then (Imediato (cachedToken s), s)
  else
    match tokenPromise s with
    | Some p => (Promessa p, s)
    | None =>
        let id := length (tarefas s) in
        (Promessa id,
         {| cachedToken := cachedToken s;
            tokenPromise := Some id;
            tarefas := tarefas s ++ [AguardaImport retryCount];
            logins := logins s;
            entregas := entregas s |})
    end.

Definition poe (id : nat) (p : Ponto) (s : Sistema) : Sistema :=
  {| cachedToken := cachedToken s; tokenPromise := tokenPromise s;
     tarefas := <[id := p]> (tarefas s); logins := logins s;
     entregas := entregas s |}.

Definition comTokens (c : JsValue) (tp : option nat) (s : Sistema) : Sistema :=
  {| cachedToken := c; tokenPromise := tp; tarefas := tarefas s;
     logins := logins s; entregas := entregas s |}.

Inductive Rotulo : Type :=
| Chama                                     (* a caller runs [obterToken()] *)
| ImportPronto (id : nat)
| LoginResponde (id : nat) (ans : Erro + JsValue)
| TimerDispara (id : nat).

Definition passo (l : Rotulo) (s : Sistema) : option Sistema :=
  match l with
  | Chama =>
      let '(e, s1) := chama 0 s in
      Some {| cachedToken := cachedToken s1; tokenPromise := tokenPromise s1;
              tarefas := tarefas s1; logins := logins s1;
              entregas := entregas s1 ++ [e] |}
  | ImportPronto id =>
      match tarefas s !! id with
      | Some (AguardaImport rc) =>
          let s1 := poe id (AguardaLogin rc) s in
          Some {| cachedToken := cachedToken s1;
                  tokenPromise := tokenPromise s1;
                  tarefas := tarefas s1; logins := S (logins s1);
                  entregas := entregas s1 |}
      | _ => None
      end
  | LoginResponde id ans =>
      match tarefas s !! id with
      | Some (AguardaLogin rc) =>
          match ObterToken.tokenDe ans with
          | Retorna token =>
              (* cachedToken = token; finally: tokenPromise = null *)
              Some (poe id (Resolvida token) (comTokens token None s))
          | Lanca erro =>
              if ObterToken.retryable erro
                 && (rc <? ObterToken.MAX_RETRIES)%nat
              then Some (poe id (AguardaTimer rc) s)
              else
                (* cachedToken = null; tokenPromise = null; throw *)
                Some (poe id (Rejeitada (ObterToken.falha erro))
                          (comTokens JNull None s))
          | SemCombustivel => None
          end
      | _ => None
      end
  | TimerDispara id =>
      match tarefas s !! id with
      | Some (AguardaTimer rc) =>
          (* tokenPromise = null; return obterToken(retryCount + 1);
             finally: tokenPromise = null *)
          let s1 := comTokens (cachedToken s) None s in
          let '(e, s2) := chama (rc + 1) s1 in
          let s3 := comTokens (cachedToken s2) None s2 in
          Some (poe id (Encadeada e) s3)
      | _ => None
      end
  end.

Fixpoint executa (ls : list Rotulo) (s : Sistema) : option Sistema :=
  match ls with
  | [] => Some s
  | l :: ls' =>
      match passo l s with
      | Some s' => executa ls' s'
      | None => None
      end
  end.

Definition emVoo (p : Ponto) : bool :=
  match p with AguardaLogin _ => true | _ => false end.

Definition pendente (p : Ponto) : bool :=
  match p with
  | AguardaImport _ | AguardaLogin _ | AguardaTimer _ => true
  | _ => false
  end.

(** The login requests in flight, and the acquisitions not yet settled. *)
Definition loginsEmVoo (s : Sistema) : nat :=
  length (List.filter emVoo (tarefas s)).

Definition aquisicoesPendentes (s : Sistema) : nat :=
  length (List.filter pendente (tarefas s)).

(** Steps other than the end of a backoff. *)
Definition semTimer (l : Rotulo) : bool :=
  match l with TimerDispara _ => false | _ => true end.

(** Every unsettled acquisition is the one [tokenPromise] holds. *)
Definition umaSo (s : Sistema) : Prop :=
  forall id p, tarefas s !! id = Some p -> pendente p = true ->
               tokenPromise s = Some id.

End SingleFlight.

(* ===================================================================== *)
(** ** What the properties are stated with *)
(* ===================================================================== *)

(** Follows the spec's words (section 4.3): for each positional index [i],
    look up slot [f{i}]; if present, its unwrapped value goes under the i-th
    field name; if absent, the field is omitted.  Fields come in index
    order. *)
Fixpoint camposDaSpec (rawEntity : JsValue) (names : list string) (i : nat)
  : Propriedades :=
  match names with
  | [] => []
  | name :: rest =>
      match Js.getOwn rawEntity (fieldKeyOf i) with
      | JObj slot => [(name, Js.getOwn (JObj slot) "$")]
      | _ => []
      end ++ camposDaSpec rawEntity rest (S i)
  end.

(** The record of the spec: a plain object with those fields. *)
Definition registroDaSpec (rawEntity : JsValue) (names : list string)
  : Registro :=
  Js.objeto (camposDaSpec rawEntity names 0).

(** A slot of the wire format: absent, or a container object. *)
Definition slotDoFormato (v : JsValue) : bool :=
  match v with
  | JUndefined | JObj _ => true
  | _ => false
  end.

(** An entity of the wire format with [n] columns. *)
Definition entidadeDoFormato (n : nat) (rawEntity : JsValue) : Prop :=
  Js.nullish rawEntity = false /\
  forall j, (j < n)%nat ->
            slotDoFormato (Js.getOwn rawEntity (fieldKeyOf j)) = true.

(** The entity list of a collection, in the spec's words: the entities, a
    single entity being wrapped into a one-element list. *)
Definition entidadesDaSpec (entity : JsValue) : list JsValue :=
  match entity with
  | JArr rawEntities => rawEntities
  | rawEntity => [rawEntity]
  end.

(** A raw collection with entities whose metadata lists the field names
    [names]: distinct names, none of them [__proto__] and none an array
    index (a name like [7], which an object lists before its other keys). *)
Record ColecaoValida (entities : JsValue) (names : list string) : Prop := {
  cv_entity : Js.truthy (Js.getOwn entities "entity") = true;
  cv_fields :
    exists fs,
      Js.getOwn (Js.getOwn (Js.getOwn entities "metadata") "fields") "field"
        = JArr fs
      /\ Forall2 (fun f name => Js.nullish f = false
                                /\ Js.getOwn f "name" = JStr name) fs names;
  cv_nodup : NoDup names;
  cv_proto : "__proto__" ∉ names;
  cv_indices : Forall (fun name => Js.indiceDe name = None) names;
  cv_entities :
    Forall (entidadeDoFormato (length names))
           (entidadesDaSpec (Js.getOwn entities "entity"))
}.


(** [s.includes(sub)]. *)
Fixpoint contains (sub s : string) : bool :=
  String.prefix sub s
  || match s with
     | EmptyString => false
     | String _ rest => contains sub rest
     end.

(** Whether the character [c] occurs in [s]. *)
Fixpoint temChar (c : ascii) (s : string) : bool :=
  match s with
  | EmptyString => false
  | String c' rest => Ascii.eqb c c' || temChar c rest
  end.

Definition isDigit (c : ascii) : bool :=
  (48 <=? nat_of_ascii c)%nat && (nat_of_ascii c <=? 57)%nat.

(** [pattern] spells a shape: [true] a digit, [false] a hyphen. *)
Fixpoint temForma (pattern : list bool) (s : string) : bool :=
  match pattern, s with
  | [], EmptyString => true
  | d :: pattern', String c rest =>
      (if d then isDigit c else Ascii.eqb c "-") && temForma pattern' rest
  | _, _ => false
  end.

(** A filter date as the interface documents it: [YYYY-MM-DD]. *)
Definition dataISO (s : string) : bool :=
  temForma [true; true; true; true; false; true; true; false; true; true] s.

(** Outcomes and final states of a run, as a predicate transformer. *)
Definition wp {A : Type} (m : M A) (s : Estado)
    (Q : Resultado A -> Estado -> Prop) : Prop :=
  Q (m s).1 (m s).2.

(** [s'] is [s] after the events [evs]: nothing but the token, the request
    counters and the log changed. *)
Definition segue (s s' : Estado) (evs : list Evento) : Prop :=
  log s' = log s ++ evs /\ cache s' = cache s /\ nRelogio s' = nRelogio s.

Definition ehConsulta (ev : Evento) : bool :=
  match ev with EvConsulta _ _ _ => true | _ => false end.

Definition ehEspera (ms : Z) (ev : Evento) : bool :=
  match ev with EvEspera ms' => ms' =? ms | _ => false end.

Definition conta (f : Evento -> bool) (evs : list Evento) : nat :=
  length (List.filter f evs).

(** An event of acquiring a token: a login request or a backoff of at least
    [RETRY_DELAY]. *)
Definition eventoDeToken (ev : Evento) : Prop :=
  match ev with
  | EvLogin => True
  | EvEspera ms => ObterToken.RETRY_DELAY <= ms
  | EvConsulta _ _ _ => False
  end.

(** An event of a call for [data] at [url]: any query request it holds is
    that one. *)
Definition eventoDaChamada (url : string) (data : Payload) (ev : Evento)
  : Prop :=
  match ev with
  | EvConsulta url' _ data' => url' = url /\ data' = data
  | _ => True
  end.

(** The events of [j] failed logins from retry count [rc] on, each followed
    by its backoff. *)
Definition loginsComEspera (rc j : nat) : list Evento :=
  flat_map (fun i => [EvLogin;
                      EvEspera (ObterToken.RETRY_DELAY
                                * Z.of_nat (rc + i + 1))])
           (seq 0 j).

(** A timeout without a response, or a response with a 5xx status. *)
Definition falhaTransitoria (erro : Erro) : bool :=
  match response erro with
  | None => isCode "ECONNABORTED" erro
  | Some st => (500 <=? st) && (st <=? 599)
  end.

(** The seven payloads that [buscarDadosAnalise] builds from its arguments,
    in the order it sends them. *)
Definition leadsPayloadDe (f : FiltroAnalise) (userId : Z) (isAdmin : bool)
  : Payload :=
  leadsPayload (criteriaLeads (formatarDataParaSankhya (dataInicio f))
                              (formatarDataParaSankhya (dataFim f))
                              userId isAdmin).

Definition atividadesPayloadDe (f : FiltroAnalise) : Payload :=
  atividadesPayload (formatarDataParaSankhya (dataInicio f))
                    (formatarDataParaSankhya (dataFim f)).

Definition pedidosPayloadDe (f : FiltroAnalise) : Payload :=
  pedidosPayload (formatarDataParaSankhya (dataInicio f))
                 (formatarDataParaSankhya (dataFim f)).

Definition planoDeConsultas (f : FiltroAnalise) (userId : Z) (isAdmin : bool)
  : list Payload :=
  [leadsPayloadDe f userId isAdmin; atividadesPayloadDe f; funisPayload;
   estagiosPayload; pedidosPayloadDe f; produtosPayload; clientesPayload].

(** The root entities of the eight dataset queries. *)
Definition entidadesConsultadas : list string :=
  ["AD_LEADS"; "AD_ADLEADSATIVIDADES"; "AD_FUNIS"; "AD_FUNISESTAGIOS";
   "CabecalhoNota"; "Produto"; "Parceiro"; "AD_ADLEADSPRODUTOS"].

(** An event of a fetch: any query request it holds goes to the query URL
    with one of the seven payloads or with a lead-products payload. *)
Definition eventoDoPlano (f : FiltroAnalise) (userId : Z) (isAdmin : bool)
    (ev : Evento) : Prop :=
  match ev with
  | EvConsulta url _ p =>
      url = URL_CONSULTA_SERVICO
      /\ (In p (planoDeConsultas f userId isAdmin)
          \/ exists codLeadsStr, p = produtosLeadsPayload codLeadsStr)
  | _ => True
  end.

(** The state in which the fetch started at [s] sends the query number [i]
    of its plan (from 0): the earlier ones have run, each under its
    [.catch]. *)
Fixpoint estadoApos (w : Mundo) (ps : list Payload) (s : Estado) : Estado :=
  match ps with
  | [] => s
  | p :: ps' =>
      estadoApos w ps'
        (catchNull (fazerRequisicaoAutenticada w URL_CONSULTA_SERVICO p 0) s).2
  end.

Definition estadoAntes (w : Mundo) (f : FiltroAnalise) (userId : Z)
    (isAdmin : bool) (s : Estado) (i : nat) : Estado :=
  estadoApos w (take i (planoDeConsultas f userId isAdmin)) s.

(** The query number [i] of the plan fails: its call throws. *)
Definition consultaFalha (w : Mundo) (f : FiltroAnalise) (userId : Z)
    (isAdmin : bool) (s : Estado) (i : nat) : Prop :=
  exists p e,
    planoDeConsultas f userId isAdmin !! i = Some p
    /\ (fazerRequisicaoAutenticada w URL_CONSULTA_SERVICO p 0
          (estadoAntes w f userId isAdmin s i)).1 = Lanca e.

(** The dataset that the query number [i] of the plan fills. *)
Definition datasetDe (i : nat) (d : DadosAnalise) : list Registro :=
  match i with
  | 0 => leads d
  | 1 => atividades d
  | 2 => funis d
  | 3 => estagiosFunis d
  | 4 => pedidos d
  | 5 => produtos d
  | _ => clientes d
  end%nat.

(** In [d] the dataset of every failed query is empty, and so are the
    lead-products when the leads query failed. *)
Definition vaziosSeFalham (w : Mundo) (f : FiltroAnalise) (userId : Z)
    (isAdmin : bool) (s : Estado) (d : DadosAnalise) : Prop :=
  (forall i, consultaFalha w f userId isAdmin s i -> datasetDe i d = [])
  /\ (consultaFalha w f userId isAdmin s 0 -> produtosLeads d = []).

(** What the query number [i] of the plan leaves to be decoded in the run
    from [s]: the answer to its call, or [null] when the call throws. *)
Definition respostaDe (w : Mundo) (f : FiltroAnalise) (userId : Z)
    (isAdmin : bool) (s : Estado) (i : nat) : JsValue :=
  match planoDeConsultas f userId isAdmin !! i with
  | Some p =>
      match (fazerRequisicaoAutenticada w URL_CONSULTA_SERVICO p 0
               (estadoAntes w f userId isAdmin s i)).1 with
      | Retorna v => v
      | _ => JNull
      end
  | None => JNull
  end.

(** Where the exception [e] that leaves the run of the cache-miss path from
    [s] comes from, [s'] being the state it leaves:
    - decoding what one of the seven queries of this run left, with nothing
      cached;
    - the lead-products step of this run, taken because leads were decoded:
      joining their identifiers, the call itself, or decoding its answer,
      with nothing cached;
    - the order total, over the orders decoded in this run, after the
      snapshot, which holds no financial records, has been cached. *)
Definition origemDoErro (w : Mundo) (f : FiltroAnalise) (userId : Z)
    (isAdmin : bool) (key : string) (s : Estado) (e : Erro) (s' : Estado)
  : Prop :=
  (exists i, (i < 7)%nat
             /\ mapearResposta (respostaDe w f userId isAdmin s i) = Lanca e
             /\ cache s' = cache s)
  \/ (exists lLeads,
        mapearResposta (respostaDe w f userId isAdmin s 0) = Retorna lLeads
        /\ lLeads <> []
        /\ cache s' = cache s
        /\ (codLeadsStrOf lLeads = Lanca e
            \/ exists codLeadsStr,
                 codLeadsStrOf lLeads = Retorna codLeadsStr
                 /\ ((fazerRequisicaoAutenticada w URL_CONSULTA_SERVICO
                        (produtosLeadsPayload codLeadsStr) 0
                        (estadoAntes w f userId isAdmin s 7)).1 = Lanca e
                     \/ exists res,
                          (fazerRequisicaoAutenticada w URL_CONSULTA_SERVICO
                             (produtosLeadsPayload codLeadsStr) 0
                             (estadoAntes w f userId isAdmin s 7)).1
                          = Retorna res
                          /\ mapearResposta res = Lanca e)))
  \/ (exists resultado,
        mapearResposta (respostaDe w f userId isAdmin s 4)
        = Retorna (pedidos resultado)
        /\ somaVlrNota w (pedidos resultado) = Lanca e
        /\ cache s'
           = redisCacheService.set key resultado (30 * 60) (cache s)
        /\ financeiro resultado = []
        /\ filtro resultado = f).

(** What holds of every run of the cache-miss path from [s]. *)
Definition posBusca (w : Mundo) (f : FiltroAnalise) (userId : Z)
    (isAdmin : bool) (key : string) (s : Estado) (r : Resultado Retorno)
    (s' : Estado) : Prop :=
  (exists evs, log s' = log s ++ evs
               /\ Forall (eventoDoPlano f userId isAdmin) evs)
  /\ match r with
     | Retorna ret =>
         exists resultado,
           cache s' = redisCacheService.set key resultado (30 * 60) (cache s)
           /\ (exists valorTotalPedidos,
                 somaVlrNota w (pedidos resultado) = Retorna valorTotalPedidos
                 /\ ret = retornoDe resultado f valorTotalPedidos
                            (relogio w (S (nRelogio s))))
           /\ financeiro resultado = []
           /\ filtro resultado = f
           /\ timestamp resultado = relogio w (nRelogio s)
           /\ vaziosSeFalham w f userId isAdmin s resultado
     | Lanca e => origemDoErro w f userId isAdmin key s e s'
     | SemCombustivel => False
     end
  /\ ((forall i, (i < 7)%nat -> consultaFalha w f userId isAdmin s i) ->
      exists ret, r = Retorna ret).

(** A query request of [ev], if it is one, is for one of the eight dataset
    entities. *)
Definition consultaDeDataset (ev : Evento) : Prop :=
  match ev with
  | EvConsulta _ _ p => In (rootEntity p) entidadesConsultadas
  | _ => True
  end.

(** A query request of [ev] for the leads entity, if it is one, carries the
    payload [p]. *)
Definition consultaDeLeadsEh (p : Payload) (ev : Evento) : Prop :=
  match ev with
  | EvConsulta _ _ q => rootEntity q = "AD_LEADS" -> q = p
  | _ => True
  end.

(** The eight record lists of [d] are empty. *)
Definition semRegistros (d : DadosAnalise) : Prop :=
  leads d = [] /\ produtosLeads d = [] /\ estagiosFunis d = []
  /\ funis d = [] /\ atividades d = [] /\ pedidos d = []
  /\ produtos d = [] /\ clientes d = [].

(** Concrete collections, worlds and states for the examples. *)
Module Exemplos.

Definition slot (v : JsValue) : JsValue := JObj [("$", v)].

Definition metadataDe (names : list string) : JsValue :=
  JObj [("fields",
         JObj [("field",
                JArr (List.map (fun n => JObj [("name", JStr n)]) names))])].

(** Entities, but no metadata block. *)
Definition colecaoSemMetadata : JsValue :=
  JObj [("entity", JObj [("f0", slot (JStr "1"))])].

(** Three columns, two entities, the second without [f1]. *)
Definition colecaoLeads : JsValue :=
  JObj [("metadata", metadataDe ["CODLEAD"; "NOME"; "VALOR"]);
        ("entity",
         JArr [JObj [("f0", slot (JStr "10")); ("f1", slot (JStr "Ana"));
                     ("f2", slot (JStr "100.50"))];
               JObj [("f0", slot (JStr "11"));
                     ("f2", slot (JStr "7"))]])].

(** Two columns with the same name, and a column named [__proto__]. *)
Definition colecaoNomesRepetidos : JsValue :=
  JObj [("metadata", metadataDe ["NOME"; "NOME"; "__proto__"]);
        ("entity", JObj [("f0", slot (JStr "a")); ("f1", slot (JStr "b"));
                         ("f2", slot (JStr "c"))])].

(** One entity, not wrapped in an array. *)
Definition colecaoUnica : JsValue :=
  JObj [("metadata", metadataDe ["CODFUNIL"; "NOME"]);
        ("entity", JObj [("f0", slot (JStr "3")); ("f1", slot (JStr "B2B"))])].

Definition erroTimeout : Erro :=
  {| code := Some "ECONNABORTED"; response := None;
     message := "timeout of 30000ms exceeded" |}.

Definition erroStatus (st : Z) : Erro :=
  {| code := Some "ERR_BAD_RESPONSE"; response := Some st;
     message := "Request failed with status code " +:+ pretty st |}.

(** A world from its answers: to the n-th login and to the n-th query. *)
Definition mundoDe (logins consultas : nat -> Erro + JsValue) : Mundo :=
  {| login_at := logins;
     consulta_at := fun n _ _ _ => consultas n;
     relogio := fun n => "2024-02-01T00:00:0" +:+ pretty n +:+ ".000Z";
     parseFloat := fun _ => PrimFloat.zero |}.

(** The n-th login answers with the bearer token [T<n>]. *)
Definition loginOk (n : nat) : Erro + JsValue :=
  inr (JObj [("bearerToken", JStr ("T" +:+ pretty n))]).

Definition estadoInicial : Estado :=
  {| cachedToken := JNull; cache := ∅; nLogin := 0; nConsulta := 0;
     nRelogio := 0; log := [] |}.

Definition estadoComToken : Estado := comToken (JStr "T") estadoInicial.

(** The identity provider answers every login with HTTP 503. *)
Definition mundo503 : Mundo :=
  mundoDe (fun _ => inl (erroStatus 503)) (fun _ => inl erroTimeout).

(** No request gets through: every login and every query times out. *)
Definition mundoSemRede : Mundo :=
  mundoDe (fun _ => inl erroTimeout) (fun _ => inl erroTimeout).

(** Logins succeed, every query times out. *)
Definition mundoConsultaLenta : Mundo :=
  mundoDe loginOk (fun _ => inl erroTimeout).

(** Logins succeed, every query is answered with HTTP 401. *)
Definition mundo401 : Mundo :=
  mundoDe loginOk (fun _ => inl (erroStatus 401)).

(** Logins succeed; the first query times out, the next ones get 401. *)
Definition mundoTimeoutDepois401 : Mundo :=
  mundoDe loginOk
    (fun n => match n with
              | O => inl erroTimeout
              | _ => inl (erroStatus 401)
              end).

Definition filtroJaneiro : FiltroAnalise :=
  {| dataInicio := "2024-01-01"; dataFim := "2024-01-31" |}.

(** A start date that is not a date. *)
Definition filtroForjado : FiltroAnalise :=
  {| dataInicio := "CODUSUARIO = 7"; dataFim := "2024-01-31" |}.

(** The object cached by a fetch of January in a world without network,
    started at [estadoInicial], and the object that fetch returns. *)
Definition resultadoVazio : DadosAnalise :=
  {| leads := []; produtosLeads := []; estagiosFunis := []; funis := [];
     atividades := []; pedidos := []; produtos := []; clientes := [];
     financeiro := []; filtro := filtroJaneiro;
     timestamp := "2024-02-01T00:00:00.000Z" |}.

Definition retornoVazio : Retorno :=
  retornoDe resultadoVazio filtroJaneiro PrimFloat.zero
    "2024-02-01T00:00:01.000Z".

(** Ten callers, then the one login, which succeeds. *)
Definition agendaDezChamadas : list SingleFlight.Rotulo :=
  List.repeat SingleFlight.Chama 10
  ++ [SingleFlight.ImportPronto 0; SingleFlight.LoginResponde 0 (loginOk 0)].

(** A caller starts an acquisition whose login times out; after the backoff
    the retry is under way when a second caller arrives. *)
Definition agendaComRetry : list SingleFlight.Rotulo :=
  [SingleFlight.Chama;
   SingleFlight.ImportPronto 0;
   SingleFlight.LoginResponde 0 (inl erroTimeout);
   SingleFlight.TimerDispara 0;
   SingleFlight.ImportPronto 1;
   SingleFlight.Chama;
   SingleFlight.ImportPronto 2].

End Exemplos.


(* ===================================================================== *)
(** ** The callers and the other functions of the cited files *)
(* ===================================================================== *)

(** [v === 'text'] *)
Definition strictEqText (v : JsValue) (text : string) : bool :=
  match v with
  | JStr t => String.eqb t text
  | _ => false
  end.

(** The date column of the orders table (src/unnamed/part_000, the
    component [PedidosTable]). *)
Module PedidosTable.

(** [const formatarData = (data: string) => { if (!data) return 'N/A';
    if (data.includes('/')) return data;
    const [ano, mes, dia] = data.split('-'); return `${dia}/${mes}/${ano}` }] *)
Definition formatarData (data : string) : string :=
  if negb (Js.truthy (JStr data)) then "N/A"
  else if contains "/" data then data
  else
    let parts := Js.split "-"%char data in
    let ano := Js.nthText parts 0 in
    let mes := Js.nthText parts 1 in
    let dia := Js.nthText parts 2 in
    dia +:+ "/" +:+ mes +:+ "/" +:+ ano.

End PedidosTable.

(** The reply of the model, made ready for [JSON.parse], in the POST handler
    of src/app/api/gemini/analise/route.ts. *)
Module AnaliseRoute.

(** [s.replace(/<pat>\n?/g, '')] for a literal [pat]: the text is read from
    the left; where [pat] starts, it and one line feed after it, if there is
    one, are left out and reading goes on behind them.  [skip] counts the
    characters of the current match that are still to be left out.  The
    patterns are ASCII, so reading bytes and reading UTF-16 units agree. *)
Fixpoint replaceAll (pat : string) (skip : nat) (s : string) : string :=
  match s with
  | EmptyString => EmptyString
  | String c rest =>
      match skip with
      | S k => replaceAll pat k rest
      | O =>
          if String.prefix pat s then
            replaceAll pat
              (String.length pat - 1
               + match String.get (String.length pat) s with
                 | Some "010"%char => 1
                 | _ => 0
                 end)%nat
              rest
          else String c (replaceAll pat 0 rest)
      end
  end.

(** [jsonText] is [responseText.trim()].
    [if (jsonText.startsWith('```json')) jsonText =
       jsonText.replace(/```json\n?/g, '').replace(/```\n?/g, '');
     else if (jsonText.startsWith('```')) jsonText =
       jsonText.replace(/```\n?/g, '')] *)
Definition limparCercas (jsonText : string) : string :=
  if String.prefix "```json" jsonText then
    replaceAll "```" 0 (replaceAll "```json" 0 jsonText)
  else if String.prefix "```" jsonText then replaceAll "```" 0 jsonText
  else jsonText.

(** The user of the request, from the [user] cookie: [userId] and
    [isAdmin].  [userCookie] is what [JSON.parse(userCookie.value)] gives,
    if there is a cookie.
    [let userId = 0; let isAdmin = false;
     if (userCookie) { try { const user = JSON.parse(userCookie.value);
       userId = user.id; isAdmin = user.role === 'ADMIN'; } catch (e) {} }]
    Reading [user.id] of [null] throws before anything is assigned. *)
Definition identificar (userCookie : option (Resultado JsValue))
  : JsValue * bool :=
  match userCookie with
  | Some (Retorna user) =>
      if Js.nullish user then (JNum 0, false)
      else (Js.getOwn user "id",
            strictEqText (Js.getOwn user "role") "ADMIN")
  | _ => (JNum 0, false)
  end.

End AnaliseRoute.

(** [analisarDadosDoSistema] of src/app/api/gemini/chat/route.ts. *)
Module Chat.

(** The object that [analisarDadosDoSistema] returns. *)
Record ResumoSistema : Type := mkResumo {
  leads : list Registro;
  produtosLeads : list Registro;
  atividades : list Registro;
  pedidos : list Registro;
  produtos : list Registro;
  clientes : list Registro;
  financeiro : list Registro;
  funis : list Registro;
  estagiosFunis : list Registro;
  userName : string;
  filtro : FiltroAnalise;
  totalLeads : nat;
  totalAtividades : nat;
  totalPedidos : nat;
  totalProdutos : nat;
  totalClientes : nat;
  totalFinanceiro : nat;
  valorTotalPedidos : float;
  valorTotalFinanceiro : float;
  valorRecebido : float;
  valorPendente : float
}.

(** The user of the request, from the [user] cookie: [userId], [userName]
    and [isAdmin].
    [let userId = 0; let userName = 'Usuário'; let isAdmin = false;
     if (userCookie) { try { const user = JSON.parse(userCookie.value);
       userId = user.id; userName = user.name || 'Usuário';
       isAdmin = user.role === 'admin'; } catch (e) {} }] *)
Definition identificar (userCookie : option (Resultado JsValue))
  : JsValue * JsValue * bool :=
  match userCookie with
  | Some (Retorna user) =>
      if Js.nullish user then (JNum 0, JStr "Usuário", false)
      else (Js.getOwn user "id",
            (if Js.truthy (Js.getOwn user "name") then Js.getOwn user "name"
             else JStr "Usuário"),
            strictEqText (Js.getOwn user "role") "admin")
  | _ => (JNum 0, JStr "Usuário", false)
  end.

End Chat.

(** [x.toISOString().split('T')[0]] on the ISO text of a date; [split] gives
    at least one piece. *)
Definition diaDe (iso : string) : string := nth 0 (Js.split "T"%char iso) "".

(** The object of the [catch] branch. *)
Definition resumoVazio (userName : string) : Chat.ResumoSistema :=
  {| Chat.leads := []; Chat.produtosLeads := []; Chat.atividades := [];
     Chat.pedidos := []; Chat.produtos := []; Chat.clientes := [];
     Chat.financeiro := []; Chat.funis := []; Chat.estagiosFunis := [];
     Chat.userName := userName;
     Chat.filtro := {| dataInicio := ""; dataFim := "" |};
     Chat.totalLeads := 0; Chat.totalAtividades := 0; Chat.totalPedidos := 0;
     Chat.totalProdutos := 0; Chat.totalClientes := 0;
     Chat.totalFinanceiro := 0;
     Chat.valorTotalPedidos := PrimFloat.zero;
     Chat.valorTotalFinanceiro := PrimFloat.zero;
     Chat.valorRecebido := PrimFloat.zero;
     Chat.valorPendente := PrimFloat.zero |}.

Section ChatRoute.

Variable w : Mundo.

(** [date.setDate(date.getDate() - dias)] on the ISO text of a date: the
    calendar of the engine, which the service takes as it is. *)
Variable menosDias : Z -> string -> string.

(** [lista.reduce((sum, x) => sum + (parseFloat(x.campo) || 0), 0)] *)
Definition somaCampo (campo : string) (lista : list Registro)
  : Resultado float :=
  reduceSoma w campo lista PrimFloat.zero.

(** The default filter: the last 90 days. *)
Definition filtroPadrao : M FiltroAnalise :=
  dataFim <- nowISO w ;;
  dataInicio <- nowISO w ;;
  let dataInicio' := menosDias 90 dataInicio in
  ret {| dataInicio := diaDe dataInicio'; dataFim := diaDe dataFim |}.

(** From the metrics to the [return] of the [try] block: the three totals,
    each of which may throw, then the object. *)
Definition resumoDe (dadosCompletos : DadosAnalise) (userName : string)
    (filtroUsado : FiltroAnalise) : Resultado Chat.ResumoSistema :=
  valorTotalPedidos <~ somaCampo "VLRNOTA" (pedidos dadosCompletos) ;;
  valorTotalFinanceiro <~ somaCampo "VLRDESDOB" (financeiro dadosCompletos) ;;
  valorRecebido <~ somaCampo "VLRBAIXA" (financeiro dadosCompletos) ;;
  Retorna
    {| Chat.leads := leads dadosCompletos;
       Chat.produtosLeads := produtosLeads dadosCompletos;
       Chat.atividades := atividades dadosCompletos;
       Chat.pedidos := pedidos dadosCompletos;
       Chat.produtos := produtos dadosCompletos;
       Chat.clientes := clientes dadosCompletos;
       Chat.financeiro := financeiro dadosCompletos;
       Chat.funis := funis dadosCompletos;
       Chat.estagiosFunis := estagiosFunis dadosCompletos;
       Chat.userName := userName;
       Chat.filtro := filtroUsado;
       Chat.totalLeads := length (leads dadosCompletos);
       Chat.totalAtividades := length (atividades dadosCompletos);
       Chat.totalPedidos := length (pedidos dadosCompletos);
       Chat.totalProdutos := length (produtos dadosCompletos);
       Chat.totalClientes := length (clientes dadosCompletos);
       Chat.totalFinanceiro := length (financeiro dadosCompletos);
       Chat.valorTotalPedidos := valorTotalPedidos;
       Chat.valorTotalFinanceiro := valorTotalFinanceiro;
       Chat.valorRecebido := valorRecebido;
       Chat.valorPendente :=
         PrimFloat.sub valorTotalFinanceiro valorRecebido |}.

(** [analisarDadosDoSistema(userId, userName, isAdmin, filtroFrontend)]:
    [filtroFrontend && filtroFrontend.dataInicio && filtroFrontend.dataFim]
    selects the filter of the caller, anything else the default one. *)
Definition analisarDadosDoSistema (userId : Z) (userName : string)
    (isAdmin : bool) (filtroFrontend : option FiltroAnalise)
  : M Chat.ResumoSistema :=
  tryCatch
    (filtroUsado <-
       match filtroFrontend with
       | Some ff =>
           if Js.truthy (JStr (dataInicio ff)) && Js.truthy (JStr (dataFim ff))
           then ret ff
           else filtroPadrao
       | None => filtroPadrao
       end ;;
     dadosCompletos <- buscarDadosAnalise w filtroUsado userId isAdmin ;;
     liftR (resumoDe (dados dadosCompletos) userName filtroUsado))
    (fun _ => ret (resumoVazio userName)).

End ChatRoute.

(* ===================================================================== *)
(** ** What the further properties are stated with *)
(* ===================================================================== *)

(** The field descriptors in the metadata of a collection. *)
Definition camposDe (entities : JsValue) : list JsValue :=
  match Js.getOwn (Js.getOwn (Js.getOwn entities "metadata") "fields")
          "field" with
  | JArr fs => fs
  | _ => []
  end.

(** The property names of a record, in order. *)
Definition chaves (r : Registro) : list string :=
  List.map fst (proprias r).


(** The Number value for an integer: a finite one, written as the integer
    it equals, or an infinity. *)
Inductive Numero : Type :=
| Finito (x : Z)
| Infinito (negativo : bool).

Definition numeroDe (n : Z) : Numero :=
  match Js.numberOf (Z.abs n) with
  | Some x => Finito (Z.sgn n * x)
  | None => Infinito (n <? 0)
  end.


Definition ehLogin (ev : Evento) : bool :=
  match ev with EvLogin => true | _ => false end.

(** The milliseconds a run spends in [setTimeout] pauses. *)
Fixpoint tempoDeEspera (evs : list Evento) : Z :=
  match evs with
  | [] => 0
  | EvEspera ms :: evs' => ms + tempoDeEspera evs'
  | _ :: evs' => tempoDeEspera evs'
  end.

(** The pauses between attempts that a call of the executor entered with
    [retryCount] can still make, in milliseconds: 1000 ms times the attempt
    number for each retry left. *)
Definition pausasDoExecutor (retryCount : nat) : Z :=
  match retryCount with
  | 0%nat => 3000
  | 1%nat => 2000
  | _ => 0
  end.

(** A query request of [ev], if it is one, goes to the query URL and asks
    for the entity [root]. *)
Definition consultaPara (root : string) (ev : Evento) : Prop :=
  match ev with
  | EvConsulta url _ p => url = URL_CONSULTA_SERVICO /\ rootEntity p = root
  | _ => True
  end.


(** The events of one call of the executor for the entity [root]: at most
    3 query requests, all for [root], at most 12 login requests and at most
    39 seconds of pauses. *)
Definition segmentoDe (root : string) (evs : list Evento) : Prop :=
  Forall (consultaPara root) evs
  /\ (conta ehConsulta evs <= 3)%nat
  /\ (conta ehLogin evs <= 12)%nat
  /\ 0 <= tempoDeEspera evs <= 39000.

(** The log of a run of the cache-miss path from [s]: eight segments, one
    for each of the seven tolerant queries in the order of the plan and one
    for the lead-products query; the first one is the log of the call for
    the leads; the last one is empty when no lead was decoded, and ends with
    the query for the decoded leads when the path returns. *)
Definition posSegmentos (w : Mundo) (f : FiltroAnalise) (userId : Z)
    (isAdmin : bool) (s : Estado) (r : Resultado Retorno) (s' : Estado)
  : Prop :=
  exists segs evs8,
    log s' = log s ++ concat segs ++ evs8
    /\ Forall2 segmentoDe (take 7 entidadesConsultadas) segs
    /\ segmentoDe "AD_ADLEADSPRODUTOS" evs8
    /\ (exists evs1 rest,
          segs = evs1 :: rest
          /\ log (fazerRequisicaoAutenticada w URL_CONSULTA_SERVICO
                    (leadsPayloadDe f userId isAdmin) 0 s).2
             = log s ++ evs1)
    /\ match r with
       | Retorna ret =>
           (leads (dados ret) = [] ->
            evs8 = [] /\ produtosLeads (dados ret) = [])
           /\ (leads (dados ret) <> [] ->
               exists codLeadsStr text evs,
                 codLeadsStrOf (leads (dados ret)) = Retorna codLeadsStr
                 /\ evs8 = evs ++ [EvConsulta URL_CONSULTA_SERVICO
                                     ("Bearer " +:+ text)
                                     (produtosLeadsPayload codLeadsStr)])
       | _ => True
       end.

(** No snapshot in the cache holds financial records. *)
Definition cacheSemFinanceiro (c : gmap string (DadosAnalise * Z)) : Prop :=
  forall key d ttl, c !! key = Some (d, ttl) -> financeiro d = [].

(** Further examples. *)
Module Casos.

(** Logins succeed; every query is answered with a body without entities. *)
Definition mundoSemDados : Mundo :=
  Exemplos.mundoDe Exemplos.loginOk (fun _ => inr (JObj [])).


(** Logins succeed; the fifth query, for the orders, is answered with one
    order whose [VLRNOTA] is an object with a [toString] property that is
    not a function; every other query with a body without entities. *)
Definition mundoTotalLanca : Mundo :=
  Exemplos.mundoDe Exemplos.loginOk
    (fun n =>
       match n with
       | 4%nat =>
           inr (JObj [("responseBody",
                       JObj [("entities",
                              JObj [("metadata",
                                     Exemplos.metadataDe ["VLRNOTA"]);
                                    ("entity",
                                     JObj [("f0",
                                            Exemplos.slot
                                              (JObj [("toString",
                                                      JNum 1)]))])])])])
       | _ => inr (JObj [])
       end).

End Casos.
(* ===================================================================== *)
(** * Properties of the entity mapper *)
(* ===================================================================== *)

Section MapperFacts.

Lemma getOwn_not_undefined v k :
  Js.getOwn v k <> JUndefined -> Js.nullish v = false.
Proof. destruct v; simpl; congruence. Qed.

Lemma getOwn_truthy v k :
  Js.truthy (Js.getOwn v k) = true -> Js.truthy v = true.
Proof. destruct v; simpl; congruence. Qed.

Lemma getProp_ok v k :
  Js.nullish v = false -> Js.getProp v k = Retorna (Js.getOwn v k).
Proof. unfold Js.getProp. intros ->. reflexivity. Qed.

Lemma getProp_nullish v k :
  Js.nullish v = true -> exists e, Js.getProp v k = Lanca e.
Proof. unfold Js.getProp. intros ->. eauto. Qed.

Lemma truthy_not_nullish v : Js.truthy v = true -> Js.nullish v = false.
Proof. destruct v; simpl; congruence. Qed.

Lemma hasOwn_app k o o' :
  Js.hasOwn k (o ++ o') = Js.hasOwn k o || Js.hasOwn k o'.
Proof.
  unfold Js.hasOwn.
  induction o as [|[k' v'] o IH]; simpl; [reflexivity|].
  destruct (String.eqb k k'); [reflexivity | exact IH].
Qed.

Lemma hasOwn_single k k' v :
  Js.hasOwn k [(k', v)] = String.eqb k k'.
Proof. unfold Js.hasOwn. simpl. destruct (String.eqb k k'); reflexivity. Qed.

Lemma setProp_fresh r k v :
  k <> "__proto__" -> Js.hasOwn k (proprias r) = false ->
  Js.indiceDe k = None ->
  Js.setProp r k v
  = {| proprias := proprias r ++ [(k, v)]; prototipo := prototipo r |}.
Proof.
  intros Hk Ho Hi. unfold Js.setProp, Js.definir.
  apply String.eqb_neq in Hk. rewrite Hk, Ho, Hi. reflexivity.
Qed.

(** The loop builds the fields of the spec behind what the record already
    has, and leaves its prototype alone. *)
Lemma forFields_spec rawEntity names :
  forall i acc,
    Js.nullish rawEntity = false ->
    (forall j, (i <= j < i + length names)%nat ->
               slotDoFormato (Js.getOwn rawEntity (fieldKeyOf j)) = true) ->
    NoDup names -> "__proto__" ∉ names ->
    Forall (fun name => Js.indiceDe name = None) names ->
    (forall name, name ∈ names -> Js.hasOwn name (proprias acc) = false) ->
    forFields rawEntity (List.map JStr names) i acc
    = Retorna {| proprias := proprias acc ++ camposDaSpec rawEntity names i;
                 prototipo := prototipo acc |}.
Proof.
  induction names as [|name rest IH];
    intros i acc Hnn Hslots Hnd Hproto Hidx Hacc.
  - simpl. rewrite app_nil_r. destruct acc; reflexivity.
  - simpl. rewrite (getProp_ok _ _ Hnn). simpl.
    apply NoDup_cons in Hnd as [Hfresh Hnd].
    apply not_elem_of_cons in Hproto as [Hne Hproto].
    apply Forall_cons in Hidx as [Hi Hidx].
    assert (Hrest : forall j, (S i <= j < S i + length rest)%nat ->
              slotDoFormato (Js.getOwn rawEntity (fieldKeyOf j)) = true).
    { intros j Hj. apply Hslots. simpl. lia. }
    pose proof (Hslots i ltac:(simpl; lia)) as Hslot.
    destruct (Js.getOwn rawEntity (fieldKeyOf i)) as [| | | | | |slot] eqn:E;
      simpl in Hslot; try discriminate.
    + simpl. apply IH; auto.
      intros n Hn. apply Hacc. right. exact Hn.
    + simpl.
      rewrite setProp_fresh by (auto; apply Hacc; left).
      rewrite IH; auto.
      * simpl. rewrite <- app_assoc. reflexivity.
      * intros n Hn. simpl. rewrite hasOwn_app, hasOwn_single.
        rewrite (Hacc n) by (right; exact Hn). simpl.
        apply String.eqb_neq. intros ->. contradiction.
Qed.

(** The entity list of the code is the one of the spec. *)
Lemma entityArrayOf_spec entity :
  entityArrayOf entity = entidadesDaSpec entity.
Proof. destruct entity; reflexivity. Qed.

Lemma sequence_map_ok {A B : Type} (f : A -> Resultado B) (g : A -> B)
    (l : list A) :
  Forall (fun a => f a = Retorna (g a)) l ->
  Js.sequence (List.map f l) = Retorna (List.map g l).
Proof.
  induction 1 as [|a l Ha _ IH]; simpl; [reflexivity|].
  rewrite Ha, IH. reflexivity.
Qed.

Lemma fieldNames_ok fs names :
  Forall2 (fun f name => Js.nullish f = false
                         /\ Js.getOwn f "name" = JStr name) fs names ->
  Js.sequence (List.map (fun f => Js.getProp f "name") fs)
  = Retorna (List.map JStr names).
Proof.
  induction 1 as [|f name fs names [Hf Hn] _ IH]; simpl; [reflexivity|].
  rewrite (getProp_ok _ _ Hf), Hn, IH. reflexivity.
Qed.

(** Absent input: no exception, no record. *)
Lemma mapearEntidades_absent entities :
  Js.truthy entities && Js.truthy (Js.getOwn entities "entity") = false ->
  mapearEntidades entities = Retorna [].
Proof.
  intros H. unfold mapearEntidades.
  rewrite <- negb_andb, H. reflexivity.
Qed.

(** Entities without a field array in the metadata: a [TypeError]. *)
Lemma mapearEntidades_ill_shaped entities :
  Js.truthy entities && Js.truthy (Js.getOwn entities "entity") = true ->
  (forall fs,
      Js.getOpt (Js.getOpt (Js.getOwn entities "metadata") "fields") "field"
      <> JArr fs) ->
  exists e, mapearEntidades entities = Lanca e.
Proof.
  intros H Hfield. unfold mapearEntidades.
  rewrite <- negb_andb, H. simpl.
  apply andb_true_iff in H as [He _].
  rewrite (getProp_ok _ _ (truthy_not_nullish _ He)). simpl.
  unfold Js.getOpt in Hfield.
  destruct (Js.nullish (Js.getOwn entities "metadata")) eqn:Em.
  { destruct (getProp_nullish _ "fields" Em) as [e ->]. eauto. }
  rewrite (getProp_ok _ _ Em). simpl.
  destruct (Js.nullish
              (Js.getOwn (Js.getOwn entities "metadata") "fields")) eqn:Ef.
  { destruct (getProp_nullish _ "field" Ef) as [e ->]. eauto. }
  rewrite (getProp_ok _ _ Ef). simpl.
  destruct (Js.getOwn (Js.getOwn (Js.getOwn entities "metadata") "fields")
              "field") as [| | | | |fs|] eqn:E; simpl; eauto.
  exfalso. exact (Hfield fs eq_refl).
Qed.

(** ToString returns or throws. *)
Lemma toString_returns_or_throws :
  forall v, Js.toString v <> SemCombustivel.
Proof.
  fix IH 1. intros [| |b|n|s|xs|o]; simpl; try discriminate.
  - destruct b; discriminate.
  - assert (H : Js.sequence
                  (List.map (fun x => if Js.nullish x then Retorna ""
                                      else Js.toString x) xs)
                <> SemCombustivel).
    { induction xs as [|x xs IHxs]; simpl; [discriminate|].
      pose proof (IH x) as Hx.
      destruct (Js.nullish x).
      - destruct (Js.sequence _); congruence.
      - destruct (Js.toString x); try congruence.
        destruct (Js.sequence _); congruence. }
    destruct (Js.sequence _); congruence.
  - destruct (Js.hasOwn "toString" o); discriminate.
Qed.

End MapperFacts.

(** C3 (counterexample): a collection that has an entity and no metadata
    block makes [mapearEntidades] throw a [TypeError] instead of giving the
    empty sequence. *)
Lemma mapearEntidades_throws_without_metadata :
  mapearEntidades Exemplos.colecaoSemMetadata
  = Lanca (newError "Cannot read properties of undefined (reading 'fields')").
Proof. reflexivity. Qed.

(** C3 (as amended): [mapearEntidades] is a function of its argument alone;
    on an absent collection, or one without entities, it returns the empty
    sequence and does not throw; on a collection that has entities and whose
    metadata holds no field array it throws. *)
Theorem mapearEntidades_empty_or_throws (entities : JsValue) :
  (Js.truthy entities && Js.truthy (Js.getOwn entities "entity") = false ->
   mapearEntidades entities = Retorna [])
  /\ (Js.truthy entities && Js.truthy (Js.getOwn entities "entity") = true ->
      (forall fs,
          Js.getOpt (Js.getOpt (Js.getOwn entities "metadata") "fields")
            "field" <> JArr fs) ->
      exists e, mapearEntidades entities = Lanca e).
Proof.
  split.
  - apply mapearEntidades_absent.
  - apply mapearEntidades_ill_shaped.
Qed.

Lemma mapearEntidades_empty_or_throws_witness :
  mapearEntidades JUndefined = Retorna []
  /\ mapearEntidades (JObj [("metadata", Exemplos.metadataDe ["A"])])
     = Retorna []
  /\ exists e, mapearEntidades Exemplos.colecaoSemMetadata = Lanca e.
Proof.
  split; [|split].
  - apply (proj1 (mapearEntidades_empty_or_throws JUndefined)). reflexivity.
  - apply (proj1 (mapearEntidades_empty_or_throws
                    (JObj [("metadata", Exemplos.metadataDe ["A"])]))).
    reflexivity.
  - apply (proj2 (mapearEntidades_empty_or_throws
                    Exemplos.colecaoSemMetadata)).
    + reflexivity.
    + intros fs. vm_compute. discriminate.
Defined.

(** C7: for a raw collection whose metadata lists the field names (distinct,
    none [__proto__], none an array index) and whose entities are of the wire
    format, [mapearEntidades] returns one record per entity of the entity
    list of the spec (the elements of an array, in input order; a single
    entity as a list of one), and each record is the one the spec describes:
    a plain object with the unwrapped value of every present slot [f{i}]
    under the i-th field name, in index order, absent slots omitted. *)
Theorem mapearEntidades_maps_each_entity (entities : JsValue)
    (names : list string) :
  ColecaoValida entities names ->
  mapearEntidades entities
  = Retorna (List.map (fun rawEntity => registroDaSpec rawEntity names)
                      (entidadesDaSpec (Js.getOwn entities "entity"))).
Proof.
  intros [Hent (fs & Hfs & Hnames) Hnd Hproto Hidx Hall].
  unfold mapearEntidades.
  pose proof (getOwn_truthy _ _ Hent) as He.
  rewrite He, Hent. simpl.
  assert (Hf : Js.nullish (Js.getOwn (Js.getOwn entities "metadata") "fields")
               = false).
  { apply (getOwn_not_undefined _ "field"). rewrite Hfs. discriminate. }
  assert (Hm : Js.nullish (Js.getOwn entities "metadata") = false).
  { apply (getOwn_not_undefined _ "fields").
    intros E. rewrite E in Hf. discriminate. }
  rewrite (getProp_ok _ _ (truthy_not_nullish _ He)). simpl.
  rewrite (getProp_ok _ _ Hm). simpl.
  rewrite (getProp_ok _ _ Hf). simpl.
  rewrite Hfs. simpl.
  rewrite (fieldNames_ok _ _ Hnames). simpl.
  rewrite entityArrayOf_spec.
  apply sequence_map_ok.
  eapply Forall_impl; [exact Hall|].
  intros rawEntity [Hnn Hslots]. simpl.
  rewrite (forFields_spec rawEntity names 0 Js.objetoVazio); auto.
  intros j Hj. apply Hslots. lia.
Qed.

Lemma mapearEntidades_maps_each_entity_witness :
  mapearEntidades Exemplos.colecaoUnica
  = Retorna [Js.objeto [("CODFUNIL", JStr "3"); ("NOME", JStr "B2B")]]
  /\ mapearEntidades Exemplos.colecaoLeads
     = Retorna [Js.objeto [("CODLEAD", JStr "10"); ("NOME", JStr "Ana");
                           ("VALOR", JStr "100.50")];
                Js.objeto [("CODLEAD", JStr "11"); ("VALOR", JStr "7")]].
Proof.
  split.
  - apply (mapearEntidades_maps_each_entity Exemplos.colecaoUnica
             ["CODFUNIL"; "NOME"]).
    constructor.
    + reflexivity.
    + eexists. split; [reflexivity|]. repeat constructor.
    + apply (bool_decide_unpack _). vm_compute. exact I.
    + apply (bool_decide_unpack _). vm_compute. exact I.
    + repeat constructor.
    + repeat constructor;
        intros [|[|j]] Hj; try reflexivity; simpl in Hj; lia.
  - apply (mapearEntidades_maps_each_entity Exemplos.colecaoLeads
             ["CODLEAD"; "NOME"; "VALOR"]).
    constructor.
    + reflexivity.
    + eexists. split; [reflexivity|]. repeat constructor.
    + apply (bool_decide_unpack _). vm_compute. exact I.
    + apply (bool_decide_unpack _). vm_compute. exact I.
    + repeat constructor.
    + repeat constructor;
        intros [|[|[|j]]] Hj; try reflexivity; simpl in Hj; lia.
Defined.

(** Of two columns with one name the later one gives the value, and a column
    named [__proto__] whose value is a text gives no field: the names of a
    valid list are distinct and none is [__proto__]. *)
Example mapearEntidades_repeated_names :
  mapearEntidades Exemplos.colecaoNomesRepetidos
  = Retorna [Js.objeto [("NOME", JStr "b")]].
Proof. reflexivity. Qed.

(** A column whose name is an array index is listed before the columns that
    come before it in the metadata. *)
Example mapearEntidades_index_names :
  mapearEntidades
    (JObj [("metadata", Exemplos.metadataDe ["NOME"; "7"]);
           ("entity", JObj [("f0", Exemplos.slot (JStr "a"));
                            ("f1", Exemplos.slot (JStr "b"))])])
  = Retorna [Js.objeto [("7", JStr "b"); ("NOME", JStr "a")]].
Proof. vm_compute. reflexivity. Qed.

Example formatarDataParaSankhya_january :
  formatarDataParaSankhya "2024-01-31" = "31/01/2024".
Proof. reflexivity. Qed.

Example cacheKeyOf_january :
  cacheKeyOf Exemplos.filtroJaneiro 7 = "analise:7:2024-01-01:2024-01-31".
Proof. reflexivity. Qed.

(* ===================================================================== *)
(** * Reasoning about runs *)
(* ===================================================================== *)

Section Wp.

Context {A B : Type}.

Lemma wp_ret (a : A) s (Q : Resultado A -> Estado -> Prop) :
  Q (Retorna a) s -> wp (ret a) s Q.
Proof. exact (fun H => H). Qed.

Lemma wp_throw e s (Q : Resultado A -> Estado -> Prop) :
  Q (Lanca e) s -> wp (throw e) s Q.
Proof. exact (fun H => H). Qed.

Lemma wp_liftR (r : Resultado A) s (Q : Resultado A -> Estado -> Prop) :
  Q r s -> wp (liftR r) s Q.
Proof. exact (fun H => H). Qed.

Lemma wp_bind (m : M A) (k : A -> M B) s
    (Q : Resultado B -> Estado -> Prop) :
  wp m s (fun r s' =>
            match r with
            | Retorna a => wp (k a) s' Q
            | Lanca e => Q (Lanca e) s'
            | SemCombustivel => Q SemCombustivel s'
            end) ->
  wp (bindM m k) s Q.
Proof.
  unfold wp, bindM. destruct (m s) as [[a|e|] s']; simpl; auto.
Qed.

Lemma wp_tryCatch (m : M A) (h : Erro -> M A) s
    (Q : Resultado A -> Estado -> Prop) :
  wp m s (fun r s' =>
            match r with
            | Lanca e => wp (h e) s' Q
            | _ => Q r s'
            end) ->
  wp (tryCatch m h) s Q.
Proof.
  unfold wp, tryCatch. destruct (m s) as [[a|e|] s']; simpl; auto.
Qed.

Lemma wp_mono (m : M A) s (Q Q' : Resultado A -> Estado -> Prop) :
  wp m s Q -> (forall r s', Q r s' -> Q' r s') -> wp m s Q'.
Proof. unfold wp. auto. Qed.

Lemma wp_eq (m : M A) s (Q : Resultado A -> Estado -> Prop) r s' :
  m s = (r, s') -> Q r s' -> wp m s Q.
Proof. unfold wp. intros ->. exact (fun H => H). Qed.

End Wp.

Section Frames.

Lemma segue_refl s : segue s s [].
Proof. unfold segue. rewrite app_nil_r. auto. Qed.

Lemma segue_trans s1 s2 s3 evs evs' :
  segue s1 s2 evs -> segue s2 s3 evs' -> segue s1 s3 (evs ++ evs').
Proof.
  unfold segue. intros (L1 & C1 & R1) (L2 & C2 & R2).
  rewrite L2, L1, C2, C1, R2, R1, app_assoc. auto.
Qed.

Lemma segue_emit s ev : segue s (emit ev s) [ev].
Proof. unfold segue. simpl. auto. Qed.

Lemma conta_app f evs evs' :
  conta f (evs ++ evs') = (conta f evs + conta f evs')%nat.
Proof. unfold conta. rewrite List.filter_app, length_app. reflexivity. Qed.

Lemma conta_token_consulta evs :
  Forall eventoDeToken evs -> conta ehConsulta evs = 0%nat.
Proof.
  induction 1 as [|ev evs Hev _ IH]; [reflexivity|].
  destruct ev; simpl in *; try contradiction; exact IH.
Qed.

Lemma conta_token_espera500 evs :
  Forall eventoDeToken evs -> conta (ehEspera 500) evs = 0%nat.
Proof.
  induction 1 as [|ev evs Hev _ IH]; [reflexivity|].
  destruct ev; simpl in *; try contradiction; try exact IH.
  unfold conta in *. simpl.
  unfold ObterToken.RETRY_DELAY in Hev.
  destruct (Z.eqb_spec ms 500); [lia | exact IH].
Qed.

Lemma token_da_chamada url data evs :
  Forall eventoDeToken evs -> Forall (eventoDaChamada url data) evs.
Proof.
  intros H. eapply Forall_impl; [exact H|].
  intros [] Hev; simpl in *; auto. contradiction.
Qed.

End Frames.

(* ===================================================================== *)
(** * The token manager in a sequential run *)
(* ===================================================================== *)

Section TokenFacts.

Variable w : Mundo.

Lemma tokenOf_returns_or_throws data :
  ObterToken.tokenOf data <> SemCombustivel.
Proof.
  unfold ObterToken.tokenOf, Js.getProp.
  destruct (Js.nullish data); simpl; [discriminate|].
  destruct (Js.truthy (Js.getOwn data "bearerToken")) eqn:Eb; simpl.
  - rewrite Eb. discriminate.
  - destruct (Js.truthy (Js.getOwn data "token")); discriminate.
Qed.

Lemma tokenDe_returns_or_throws ans :
  ObterToken.tokenDe ans <> SemCombustivel.
Proof.
  destruct ans; simpl; [discriminate | apply tokenOf_returns_or_throws].
Qed.

(** One login request decides the [try] block. *)
Lemma acquire_run s :
  acquire w s
  = match ObterToken.tokenDe (login_at w (nLogin s)) with
    | Retorna token => (Retorna token, comToken token (aposLogin s))
    | Lanca e => (Lanca e, aposLogin s)
    | SemCombustivel => (SemCombustivel, aposLogin s)
    end.
Proof.
  unfold acquire, bindM, axiosPostLogin, liftR, ofAnswer, ObterToken.tokenDe.
  destruct (login_at w (nLogin s)) as [e|data]; [reflexivity|].
  destruct (ObterToken.tokenOf data); reflexivity.
Qed.

Lemma loginsComEspera_S rc j :
  loginsComEspera rc (S j)
  = [EvLogin; EvEspera (ObterToken.RETRY_DELAY * Z.of_nat (rc + 1))]
      ++ loginsComEspera (rc + 1) j.
Proof.
  unfold loginsComEspera. simpl. rewrite Nat.add_0_r.
  do 2 f_equal.
  rewrite <- seq_shift, flat_map_concat_map, List.map_map,
    <- flat_map_concat_map.
  apply flat_map_ext. intros i.
  replace (rc + S i + 1)%nat with (rc + 1 + i + 1)%nat by lia.
  reflexivity.
Qed.

Lemma loginsComEspera_token rc j :
  Forall eventoDeToken (loginsComEspera rc j ++ [EvLogin]).
Proof.
  apply Forall_app. split; [|repeat constructor].
  unfold loginsComEspera. apply Forall_flat_map, Forall_forall.
  intros i _. repeat constructor. simpl.
  unfold ObterToken.RETRY_DELAY. lia.
Qed.

(** The whole course of an acquisition that starts without a cached token:
    [j] failed logins that the policy retries, each followed by its backoff,
    then one login that ends it. *)
Lemma obterToken_rec_trace fuel :
  forall rc s,
    Js.truthy (cachedToken s) = false ->
    (ObterToken.MAX_RETRIES - rc < fuel)%nat ->
    exists j s',
      (j <= ObterToken.MAX_RETRIES - rc)%nat
      /\ (forall i, (i < j)%nat ->
            exists e,
              ObterToken.tokenDe (login_at w (nLogin s + i)) = Lanca e
              /\ ObterToken.retryable e = true)
      /\ segue s s' (loginsComEspera rc j ++ [EvLogin])
      /\ nLogin s' = (nLogin s + j + 1)%nat
      /\ nConsulta s' = nConsulta s
      /\ match ObterToken.tokenDe (login_at w (nLogin s + j)) with
         | Retorna token =>
             obterToken_rec w fuel rc s = (Retorna token, s')
             /\ cachedToken s' = token
         | Lanca e =>
             obterToken_rec w fuel rc s = (Lanca (ObterToken.falha e), s')
             /\ cachedToken s' = JNull
             /\ (ObterToken.retryable e = false
                 \/ (ObterToken.MAX_RETRIES <= rc + j)%nat)
         | SemCombustivel => False
         end.
Proof.
  induction fuel as [|fuel IH]; intros rc s Hc Hfuel; [lia|].
  assert (Hstep : obterToken_rec w (S fuel) rc s
                  = match ObterToken.tokenDe (login_at w (nLogin s)) with
                    | Retorna token =>
                        (Retorna token, comToken token (aposLogin s))
                    | Lanca e =>
                        if ObterToken.retryable e
                           && (rc <? ObterToken.MAX_RETRIES)%nat
                        then obterToken_rec w fuel (rc + 1)
                               (emit (EvEspera (ObterToken.RETRY_DELAY
                                                * Z.of_nat (rc + 1)))
                                     (aposLogin s))
                        else (Lanca (ObterToken.falha e),
                              comToken JNull (aposLogin s))
                    | SemCombustivel => (SemCombustivel, aposLogin s)
                    end).
  { simpl. rewrite Hc. unfold tryCatch. rewrite acquire_run.
    destruct (ObterToken.tokenDe (login_at w (nLogin s))); try reflexivity.
    destruct (ObterToken.retryable e && (rc <? ObterToken.MAX_RETRIES)%nat);
      reflexivity. }
  destruct (ObterToken.tokenDe (login_at w (nLogin s))) as [token|e|] eqn:E.
  - exists 0%nat, (comToken token (aposLogin s)).
    rewrite Nat.add_0_r, E.
    repeat split; simpl; auto; try lia.
  - destruct (ObterToken.retryable e && (rc <? ObterToken.MAX_RETRIES)%nat)
      eqn:R.
    + apply andb_true_iff in R as [Re Rc]. apply Nat.ltb_lt in Rc.
      set (s2 := emit (EvEspera (ObterToken.RETRY_DELAY * Z.of_nat (rc + 1)))
                      (aposLogin s)) in *.
      destruct (IH (rc + 1)%nat s2) as (j & s' & Hj & Hpre & Hseg & Hn & Hq & Hend);
        [exact Hc | lia |].
      exists (S j), s'.
      replace (nLogin s + S j)%nat with (nLogin s2 + j)%nat
        by (simpl; lia).
      split; [lia|]. split; [|split; [|split; [|split]]].
      * intros [|i] Hi.
        -- rewrite Nat.add_0_r. eauto.
        -- replace (nLogin s + S i)%nat with (nLogin s2 + i)%nat
             by (simpl; lia).
           apply Hpre. lia.
      * rewrite loginsComEspera_S, <- app_assoc.
        destruct Hseg as (L & C & T). unfold segue.
        rewrite L, C, T. simpl. rewrite <- !app_assoc. auto.
      * rewrite Hn. simpl. lia.
      * rewrite Hq. reflexivity.
      * rewrite Hstep.
        destruct (ObterToken.tokenDe (login_at w (nLogin s2 + j)));
          intuition lia.
    + exists 0%nat, (comToken JNull (aposLogin s)).
      rewrite Nat.add_0_r, E.
      repeat split; simpl; auto; try lia.
      apply andb_false_iff in R as [R|R]; [auto|].
      apply Nat.ltb_ge in R. right. lia.
  - exfalso. exact (tokenDe_returns_or_throws _ E).
Qed.

End TokenFacts.

(** C4 (counterexample): a login answered with HTTP 503, a server error, is
    not retried: one login request, then the authentication error. *)
Lemma obterToken_no_retry_on_503 :
  (obterToken Exemplos.mundo503 0 Exemplos.estadoInicial).1
  = Lanca (ObterToken.falha (Exemplos.erroStatus 503))
  /\ log (obterToken Exemplos.mundo503 0 Exemplos.estadoInicial).2 = [EvLogin].
Proof. split; reflexivity. Qed.

(** C4 (as amended): an acquisition that starts without a cached token makes
    [j <= 3] login requests that fail with a timeout ([ECONNABORTED]) or with
    HTTP 500 exactly, each followed by a pause of 2000 ms times the attempt
    number, and then one more login request that ends it: with the token, or,
    when that login fails with anything else or three retries are spent, with
    the authentication error and no further request. *)
Theorem obterToken_retry_policy (w : Mundo) (s : Estado) :
  Js.truthy (cachedToken s) = false ->
  exists j s',
    (j <= ObterToken.MAX_RETRIES)%nat
    /\ (forall i, (i < j)%nat ->
          exists e,
            ObterToken.tokenDe (login_at w (nLogin s + i)) = Lanca e
            /\ (isCode "ECONNABORTED" e
                || statusIs (fun st => st =? 500) e) = true)
    /\ log s' = log s ++ loginsComEspera 0 j ++ [EvLogin]
    /\ match ObterToken.tokenDe (login_at w (nLogin s + j)) with
       | Retorna token =>
           obterToken w 0 s = (Retorna token, s') /\ cachedToken s' = token
       | Lanca e =>
           obterToken w 0 s = (Lanca (ObterToken.falha e), s')
           /\ cachedToken s' = JNull
           /\ ((isCode "ECONNABORTED" e
                || statusIs (fun st => st =? 500) e) = false
               \/ j = ObterToken.MAX_RETRIES)
       | SemCombustivel => False
       end.
Proof.
  intros Hc.
  destruct (obterToken_rec_trace w (S (ObterToken.MAX_RETRIES - 0)) 0 s Hc
              ltac:(lia))
    as (j & s' & Hj & Hpre & (Hlog & _) & _ & _ & Hend).
  exists j, s'. split; [lia|]. split; [exact Hpre|]. split; [exact Hlog|].
  unfold obterToken.
  destruct (ObterToken.tokenDe (login_at w (nLogin s + j))); auto.
  destruct Hend as (H1 & H2 & [H3|H3]); auto.
  repeat split; auto. right. unfold ObterToken.MAX_RETRIES in *. lia.
Qed.

Lemma obterToken_retry_policy_witness :
  exists j s',
    (j <= 3)%nat
    /\ log s' = loginsComEspera 0 j ++ [EvLogin]
    /\ (obterToken Exemplos.mundoSemRede 0 Exemplos.estadoInicial).2 = s'.
Proof.
  destruct (obterToken_retry_policy Exemplos.mundoSemRede
              Exemplos.estadoInicial eq_refl)
    as (j & s' & Hj & Hpre & Hlog & Hend).
  exists j, s'. split; [exact Hj|]. split; [exact Hlog|].
  destruct (ObterToken.tokenDe _); [| |contradiction].
  - destruct Hend as [-> _]. reflexivity.
  - destruct Hend as (-> & _). reflexivity.
Defined.

(* ===================================================================== *)
(** * The request executor in a sequential run *)
(* ===================================================================== *)

Section RequestFacts.

Variable w : Mundo.

Lemma wp_setCachedToken v s (Q : Resultado unit -> Estado -> Prop) :
  Q (Retorna tt) (comToken v s) -> wp (setCachedToken v) s Q.
Proof. exact (fun H => H). Qed.

Lemma wp_sleep ms s (Q : Resultado unit -> Estado -> Prop) :
  Q (Retorna tt) (emit (EvEspera ms) s) -> wp (sleep ms) s Q.
Proof. exact (fun H => H). Qed.

Lemma segue_then_emit s s' evs ev :
  segue s s' evs -> segue s (emit ev s') (evs ++ [ev]).
Proof. intros H. eapply segue_trans; [exact H | apply segue_emit]. Qed.

(** An acquisition, whatever its course: token events only, no query, and
    an error that the request executor neither retries nor takes for an
    expired session. *)
Lemma obterToken_post s :
  wp (obterToken w 0) s
     (fun r s' =>
        exists evs,
          segue s s' evs /\ Forall eventoDeToken evs
          /\ nConsulta s' = nConsulta s
          /\ r <> SemCombustivel
          /\ (forall e, r = Lanca e ->
                        Requisicao.authExpired e = false
                        /\ Requisicao.transient e = false)).
Proof.
  unfold wp, obterToken.
  destruct (Js.truthy (cachedToken s)) eqn:Hc.
  - simpl. rewrite Hc. simpl. exists [].
    split; [apply segue_refl|].
    repeat split; auto; discriminate.
  - destruct (obterToken_rec_trace w
                (S (ObterToken.MAX_RETRIES - 0)) 0 s Hc ltac:(lia))
      as (j & s' & _ & _ & Hseg & _ & Hq & Hend).
    exists (loginsComEspera 0 j ++ [EvLogin]).
    destruct (ObterToken.tokenDe (login_at w (nLogin s + j)))
      as [token|e|]; [| |contradiction].
    + destruct Hend as [-> _]. simpl.
      split; [exact Hseg|].
      repeat split; auto using loginsComEspera_token; discriminate.
    + destruct Hend as (-> & _ & _). simpl.
      split; [exact Hseg|].
      repeat split; auto using loginsComEspera_token; try discriminate;
        match goal with H : Lanca _ = Lanca _ |- _ =>
          injection H as <-; reflexivity end.
Qed.

Lemma attempt_post url data s :
  wp (attempt w url data) s
     (fun r s' =>
        exists evs,
          segue s s' evs /\ Forall (eventoDaChamada url data) evs
          /\ (conta ehConsulta evs <= 1)%nat
          /\ conta (ehEspera 500) evs = 0%nat
          /\ r <> SemCombustivel).
Proof.
  unfold attempt. apply wp_bind.
  eapply wp_mono; [apply obterToken_post|].
  intros r s1 (evs & Hseg & Htok & Hq & Hr & Herr).
  pose proof (conta_token_consulta _ Htok) as Hc0.
  pose proof (conta_token_espera500 _ Htok) as He0.
  pose proof (token_da_chamada url data _ Htok) as Hall.
  destruct r as [token|e|]; [| |contradiction].
  - apply wp_bind. apply wp_liftR.
    destruct (Js.toString token) as [text|e|] eqn:Et.
    + unfold wp, axiosRequest. simpl.
      exists (evs ++ [EvConsulta url ("Bearer " +:+ text) data]).
      split; [|split; [|split; [|split]]].
      * eapply segue_trans; [exact Hseg|]. unfold segue. simpl. auto.
      * apply Forall_app. split; [exact Hall|]. repeat constructor.
      * rewrite conta_app, Hc0. unfold conta. simpl. lia.
      * rewrite conta_app, He0. reflexivity.
      * destruct (consulta_at w (nConsulta s1) url ("Bearer " +:+ text) data);
          discriminate.
    + exists evs. split; [exact Hseg|].
      repeat split; auto; try lia; discriminate.
    + exfalso. exact (toString_returns_or_throws _ Et).
  - exists evs. split; [exact Hseg|].
    repeat split; auto; try lia; discriminate.
Qed.

(** Any call of the executor: its events are those of the call, it sends
    at most [fuel] query requests and pauses 500 ms at most once (never
    when it is itself a retry), and it ends when the budget covers the
    retries left. *)
Lemma fazerRequisicaoAutenticada_rec_post fuel :
  forall url data rc s,
    wp (fazerRequisicaoAutenticada_rec w fuel url data rc) s
       (fun r s' =>
          exists evs,
            segue s s' evs /\ Forall (eventoDaChamada url data) evs
            /\ (conta ehConsulta evs <= fuel)%nat
            /\ (conta (ehEspera 500) evs
                <= if (rc <? 1)%nat then 1 else 0)%nat
            /\ ((Requisicao.MAX_RETRIES - rc < fuel)%nat ->
                r <> SemCombustivel)).
Proof.
  induction fuel as [|fuel IH]; intros url data rc s.
  { unfold wp. simpl. exists []. split; [apply segue_refl|].
    unfold conta. simpl.
    repeat split; auto; try (intros; lia); discriminate. }
  simpl. apply wp_tryCatch.
  eapply wp_mono; [apply attempt_post|].
  intros r s1 (evs & Hseg & Hall & Hc & He & Hr).
  destruct r as [v|e|]; [| |contradiction].
  { exists evs. split; [exact Hseg|].
    repeat split; auto; try lia. }
  assert (Hretry : forall ms sx,
             segue s sx evs ->
             (rc < Requisicao.MAX_RETRIES)%nat ->
             (ms = 500 -> (rc < 1)%nat) ->
             wp (_ <- sleep ms ;;
                 fazerRequisicaoAutenticada_rec w fuel url data (rc + 1))
                sx
                (fun r s' =>
                   exists evs',
                     segue s s' evs'
                     /\ Forall (eventoDaChamada url data) evs'
                     /\ (conta ehConsulta evs' <= S fuel)%nat
                     /\ (conta (ehEspera 500) evs'
                         <= if (rc <? 1)%nat then 1 else 0)%nat
                     /\ ((Requisicao.MAX_RETRIES - rc < S fuel)%nat ->
                         r <> SemCombustivel))).
  { clear Hseg. intros ms sx Hseg Hfuel Hms. apply wp_bind, wp_sleep.
    eapply wp_mono; [apply IH|].
    intros r s2 (evs2 & Hseg2 & Hall2 & Hc2 & He2 & Hr2).
    exists ((evs ++ [EvEspera ms]) ++ evs2).
    split; [|split; [|split; [|split]]].
    - eapply segue_trans; [|exact Hseg2].
      apply segue_then_emit. exact Hseg.
    - repeat (apply Forall_app; split); auto. repeat constructor.
    - rewrite !conta_app. unfold conta at 2. simpl. lia.
    - rewrite !conta_app, He.
      replace (rc + 1 <? 1)%nat with false in He2
        by (symmetry; apply Nat.ltb_ge; lia).
      unfold conta at 1. simpl.
      destruct (Z.eqb_spec ms 500) as [E|E]; simpl.
      + apply Hms in E. apply Nat.ltb_lt in E. rewrite E. lia.
      + lia.
    - intros Hbudget. apply Hr2. lia. }
  destruct (Requisicao.authExpired e) eqn:Ea.
  - apply wp_bind, wp_setCachedToken.
    destruct (rc <? 1)%nat eqn:Erc.
    + apply Nat.ltb_lt in Erc.
      apply (Hretry 500);
        [exact Hseg | unfold Requisicao.MAX_RETRIES; lia | lia].
    + apply wp_throw. exists evs. split; [exact Hseg|].
      repeat split; auto; try lia; discriminate.
  - destruct (Requisicao.transient e
              && (rc <? Requisicao.MAX_RETRIES)%nat) eqn:Et.
    + apply andb_true_iff in Et as [_ Et]. apply Nat.ltb_lt in Et.
      unfold Requisicao.MAX_RETRIES in *.
      apply Hretry.
      * exact Hseg.
      * exact Et.
      * unfold Requisicao.RETRY_DELAY. lia.
    + apply wp_throw. exists evs. split; [exact Hseg|].
      repeat split; auto; try lia; discriminate.
Qed.

(** One unfolding of the executor, by the outcome of the attempt. *)
Lemma fazerRequisicaoAutenticada_rec_step fuel url data rc s :
  fazerRequisicaoAutenticada_rec w (S fuel) url data rc s
  = match attempt w url data s with
    | (Lanca e, s1) =>
        if Requisicao.authExpired e then
          if (rc <? 1)%nat
          then fazerRequisicaoAutenticada_rec w fuel url data (rc + 1)
                 (emit (EvEspera 500) (comToken JNull s1))
          else (Lanca Requisicao.sessaoExpirada, comToken JNull s1)
        else if Requisicao.transient e
                && (rc <? Requisicao.MAX_RETRIES)%nat
        then fazerRequisicaoAutenticada_rec w fuel url data (rc + 1)
               (emit (EvEspera (Requisicao.RETRY_DELAY * Z.of_nat (rc + 1)))
                     s1)
        else (Lanca e, s1)
    | r => r
    end.
Proof.
  simpl. unfold tryCatch.
  destruct (attempt w url data s) as [[v|e|] s1]; try reflexivity.
  destruct (Requisicao.authExpired e).
  - destruct (rc <? 1)%nat; reflexivity.
  - destruct (Requisicao.transient e && (rc <? Requisicao.MAX_RETRIES)%nat);
      reflexivity.
Qed.

(** With a usable token in the cache an attempt is one query request. *)
Lemma attempt_cached url data s text :
  Js.truthy (cachedToken s) = true ->
  Js.toString (cachedToken s) = Retorna text ->
  attempt w url data s
  = (ofAnswer (consulta_at w (nConsulta s) url ("Bearer " +:+ text) data),
     aposConsulta url ("Bearer " +:+ text) data s).
Proof.
  intros Ht Hs. unfold attempt, obterToken, bindM. simpl.
  rewrite Ht. unfold liftR. rewrite Hs. reflexivity.
Qed.

(** Without a token in the cache an attempt starts with a login request. *)
Lemma attempt_starts_with_login url data s :
  Js.truthy (cachedToken s) = false ->
  exists evs, log (attempt w url data s).2 = log s ++ EvLogin :: evs.
Proof.
  intros Hc.
  destruct (obterToken_rec_trace w (S (ObterToken.MAX_RETRIES - 0)) 0 s Hc
              ltac:(lia))
    as (j & s' & _ & _ & (Hlog & _) & _ & _ & Hend).
  assert (Hhead : exists evs,
             loginsComEspera 0 j ++ [EvLogin] = EvLogin :: evs).
  { destruct j; [exists []; reflexivity|].
    rewrite loginsComEspera_S. simpl. eauto. }
  destruct Hhead as [evs0 Hhead]. rewrite Hhead in Hlog.
  unfold attempt, bindM. fold (obterToken w 0).
  unfold obterToken at 1.
  destruct (ObterToken.tokenDe (login_at w (nLogin s + j)))
    as [token|e|]; [| |contradiction].
  - destruct Hend as [-> _]. unfold liftR.
    destruct (Js.toString token); simpl; rewrite Hlog.
    + rewrite <- app_assoc. simpl. eauto.
    + eauto.
    + eauto.
  - destruct Hend as (-> & _). simpl. rewrite Hlog. eauto.
Qed.

Lemma falhaTransitoria_retried e :
  falhaTransitoria e = true ->
  Requisicao.authExpired e = false /\ Requisicao.transient e = true.
Proof.
  unfold falhaTransitoria, Requisicao.authExpired, Requisicao.transient,
    statusIs.
  destruct (response e) as [st|].
  - intros H. apply andb_true_iff in H as [H1 H2].
    apply Z.leb_le in H1. rewrite (proj2 (Z.leb_le 500 st) H1).
    rewrite orb_true_r. split; [|reflexivity].
    apply orb_false_iff. split; apply Z.eqb_neq; lia.
  - intros ->. auto.
Qed.

(** A call of the executor from a first attempt. *)
Lemma fazerRequisicaoAutenticada_post url data s :
  wp (fazerRequisicaoAutenticada w url data 0) s
     (fun r s' =>
        exists evs,
          segue s s' evs /\ Forall (eventoDaChamada url data) evs
          /\ (conta ehConsulta evs <= 1 + Requisicao.MAX_RETRIES)%nat
          /\ (conta (ehEspera 500) evs <= 1)%nat
          /\ r <> SemCombustivel).
Proof.
  eapply wp_mono; [apply fazerRequisicaoAutenticada_rec_post|].
  intros r s' (evs & Hseg & Hall & Hc & He & Hr).
  exists evs. split; [exact Hseg|].
  repeat split; auto; try (apply Hr; simpl; lia).
Qed.

End RequestFacts.

(** C5 (counterexample): the first attempt times out, its retry is answered
    with HTTP 401.  The token is cleared and the call fails at once with the
    session-expired error: no new token is requested and the call is not
    retried. *)
Lemma no_auth_retry_after_transient_retry :
  let run := fazerRequisicaoAutenticada Exemplos.mundoTimeoutDepois401
               URL_CONSULTA_SERVICO funisPayload 0 Exemplos.estadoComToken in
  run.1 = Lanca Requisicao.sessaoExpirada
  /\ log run.2
     = [EvConsulta URL_CONSULTA_SERVICO "Bearer T" funisPayload;
        EvEspera 1000;
        EvConsulta URL_CONSULTA_SERVICO "Bearer T" funisPayload].
Proof. split; reflexivity. Qed.

(** C5 (as amended): every HTTP 401 or 403 answer clears the cached token.
    When it answers the first attempt of a call, the whole call is retried
    once, after 500 ms, and the retry starts by requesting a new token; a call
    pauses so at most once.  When it answers an attempt that is itself a
    retry (of either kind), the call fails with the session-expired error and
    nothing more is requested. *)
Theorem auth_expiry_retries_first_attempt_once (w : Mundo) (url : string)
    (data : Payload) (s s1 : Estado) (e : Erro) :
  attempt w url data s = (Lanca e, s1) ->
  Requisicao.authExpired e = true ->
  let s2 := emit (EvEspera 500) (comToken JNull s1) in
  fazerRequisicaoAutenticada w url data 0 s
  = fazerRequisicaoAutenticada w url data 1 s2
  /\ (exists evs, log (attempt w url data s2).2
                  = log s1 ++ EvEspera 500 :: EvLogin :: evs)
  /\ (forall rc, (1 <= rc)%nat ->
        fazerRequisicaoAutenticada w url data rc s
        = (Lanca Requisicao.sessaoExpirada, comToken JNull s1))
  /\ (exists evs, log (fazerRequisicaoAutenticada w url data 0 s).2
                  = log s ++ evs
                  /\ (conta (ehEspera 500) evs <= 1)%nat).
Proof.
  intros Ha He s2. split; [|split; [|split]].
  - unfold fazerRequisicaoAutenticada. simpl Nat.sub.
    rewrite fazerRequisicaoAutenticada_rec_step, Ha, He. reflexivity.
  - destruct (attempt_starts_with_login w url data s2 eq_refl) as [evs Hevs].
    exists evs. rewrite Hevs. simpl. rewrite <- app_assoc. reflexivity.
  - intros rc Hrc. unfold fazerRequisicaoAutenticada.
    rewrite fazerRequisicaoAutenticada_rec_step, Ha, He.
    replace (rc <? 1)%nat with false by (symmetry; apply Nat.ltb_ge; lia).
    reflexivity.
  - pose proof (fazerRequisicaoAutenticada_post w url data s) as H.
    unfold wp in H. destruct H as (evs & (Hlog & _) & _ & _ & H500 & _).
    exists evs. auto.
Qed.

Lemma auth_expiry_retries_first_attempt_once_witness :
  let url := URL_CONSULTA_SERVICO in
  let run := fazerRequisicaoAutenticada Exemplos.mundo401 url funisPayload 0
               Exemplos.estadoComToken in
  run.1 = Lanca Requisicao.sessaoExpirada
  /\ log run.2 = [EvConsulta url "Bearer T" funisPayload; EvEspera 500;
                  EvLogin; EvConsulta url "Bearer T0" funisPayload]
  /\ cachedToken run.2 = JNull.
Proof.
  intros url run.
  pose (s1 := (attempt Exemplos.mundo401 url funisPayload
                 Exemplos.estadoComToken).2).
  pose (s2 := emit (EvEspera 500) (comToken JNull s1)).
  pose (s3 := (attempt Exemplos.mundo401 url funisPayload s2).2).
  destruct (auth_expiry_retries_first_attempt_once Exemplos.mundo401 url
              funisPayload Exemplos.estadoComToken s1 (Exemplos.erroStatus 401)
              eq_refl eq_refl) as (Hfirst & _).
  destruct (auth_expiry_retries_first_attempt_once Exemplos.mundo401 url
              funisPayload s2 s3 (Exemplos.erroStatus 401)
              eq_refl eq_refl) as (_ & _ & Hretry & _).
  unfold run. rewrite Hfirst. fold s1. fold s2.
  rewrite (Hretry 1%nat (le_n 1)).
  repeat split.
Defined.

(** C8: a call of the executor always ends: a budget of
    1 + MAX_RETRIES - retryCount attempts, one per level of the recursion, is
    never used up.  From a first attempt it sends at most
    1 + MAX_RETRIES = 3 query requests.  When every attempt fails with a
    timeout or an HTTP 5xx answer, it makes exactly those three attempts,
    pausing 1000 ms times the attempt number between them, and then throws the
    last failure.  An error that is neither a timeout, nor a status of 500 or
    more, nor 401/403 is thrown at once, whatever the retry count. *)
Theorem executor_retries_are_bounded (w : Mundo) (url : string)
    (data : Payload) (s : Estado) :
  (forall rc, (fazerRequisicaoAutenticada w url data rc s).1 <> SemCombustivel)
  /\ (exists evs,
        log (fazerRequisicaoAutenticada w url data 0 s).2 = log s ++ evs
        /\ (conta ehConsulta evs <= 1 + Requisicao.MAX_RETRIES)%nat)
  /\ (forall text e0 e1 e2,
        Js.truthy (cachedToken s) = true ->
        Js.toString (cachedToken s) = Retorna text ->
        let auth := "Bearer " +:+ text in
        consulta_at w (nConsulta s) url auth data = inl e0 ->
        consulta_at w (S (nConsulta s)) url auth data = inl e1 ->
        consulta_at w (S (S (nConsulta s))) url auth data = inl e2 ->
        falhaTransitoria e0 = true ->
        falhaTransitoria e1 = true ->
        falhaTransitoria e2 = true ->
        (fazerRequisicaoAutenticada w url data 0 s).1 = Lanca e2
        /\ log (fazerRequisicaoAutenticada w url data 0 s).2
           = log s ++ [EvConsulta url auth data;
                       EvEspera (Requisicao.RETRY_DELAY * 1);
                       EvConsulta url auth data;
                       EvEspera (Requisicao.RETRY_DELAY * 2);
                       EvConsulta url auth data])
  /\ (forall e s1 rc,
        attempt w url data s = (Lanca e, s1) ->
        Requisicao.authExpired e = false ->
        Requisicao.transient e = false ->
        fazerRequisicaoAutenticada w url data rc s = (Lanca e, s1)).
Proof.
  split; [|split; [|split]].
  - intros rc.
    pose proof (fazerRequisicaoAutenticada_rec_post w
                  (S (Requisicao.MAX_RETRIES - rc)) url data rc s) as H.
    unfold wp in H. destruct H as (evs & _ & _ & _ & _ & Hr).
    apply Hr. lia.
  - pose proof (fazerRequisicaoAutenticada_post w url data s) as H.
    unfold wp in H. destruct H as (evs & (Hlog & _) & _ & Hc & _).
    exists evs. auto.
  - intros text e0 e1 e2 Ht Hs auth H0 H1 H2 F0 F1 F2.
    destruct (falhaTransitoria_retried _ F0) as [A0 T0].
    destruct (falhaTransitoria_retried _ F1) as [A1 T1].
    destruct (falhaTransitoria_retried _ F2) as [A2 T2].
    unfold fazerRequisicaoAutenticada. simpl Nat.sub.
    rewrite fazerRequisicaoAutenticada_rec_step.
    rewrite (attempt_cached w url data s text Ht Hs).
    fold auth. rewrite H0. unfold ofAnswer; cbv beta iota. rewrite A0, T0. simpl andb.
    rewrite fazerRequisicaoAutenticada_rec_step.
    match goal with |- context [attempt w url data ?st] =>
      rewrite (attempt_cached w url data st text Ht Hs) end.
    fold auth. simpl nConsulta. rewrite H1. unfold ofAnswer; cbv beta iota.
    rewrite A1, T1. simpl andb.
    rewrite fazerRequisicaoAutenticada_rec_step.
    match goal with |- context [attempt w url data ?st] =>
      rewrite (attempt_cached w url data st text Ht Hs) end.
    fold auth. simpl nConsulta. rewrite H2. unfold ofAnswer; cbv beta iota.
    rewrite A2, T2. simpl.
    rewrite <- !app_assoc. split; reflexivity.
  - intros e s1 rc Ha He Ht. unfold fazerRequisicaoAutenticada.
    rewrite fazerRequisicaoAutenticada_rec_step, Ha, He, Ht. reflexivity.
Qed.

Lemma executor_retries_are_bounded_witness :
  let url := URL_CONSULTA_SERVICO in
  let run := fazerRequisicaoAutenticada Exemplos.mundoConsultaLenta url
               funisPayload 0 Exemplos.estadoComToken in
  run.1 = Lanca Exemplos.erroTimeout
  /\ log run.2 = [EvConsulta url "Bearer T" funisPayload; EvEspera 1000;
                  EvConsulta url "Bearer T" funisPayload; EvEspera 2000;
                  EvConsulta url "Bearer T" funisPayload].
Proof.
  intros url run.
  destruct (executor_retries_are_bounded Exemplos.mundoConsultaLenta url
              funisPayload Exemplos.estadoComToken) as (_ & _ & H & _).
  exact (H "T" Exemplos.erroTimeout Exemplos.erroTimeout Exemplos.erroTimeout
           eq_refl eq_refl eq_refl eq_refl eq_refl eq_refl eq_refl eq_refl).
Defined.

(* ===================================================================== *)
(** * The orchestrator *)
(* ===================================================================== *)

Section DecodingEnds.

Lemma sequence_returns_or_throws {A : Type} (rs : list (Resultado A)) :
  Forall (fun r => r <> SemCombustivel) rs ->
  Js.sequence rs <> SemCombustivel.
Proof.
  induction 1 as [|r rs Hr _ IH]; simpl; [discriminate|].
  destruct r; try congruence.
  destruct (Js.sequence rs); congruence.
Qed.

Lemma forFields_returns_or_throws rawEntity fieldNames :
  forall i cleanObject,
    forFields rawEntity fieldNames i cleanObject <> SemCombustivel.
Proof.
  induction fieldNames as [|fieldName rest IH]; intros i acc; simpl;
    [discriminate|].
  unfold Js.getProp. destruct (Js.nullish rawEntity); simpl; [discriminate|].
  destruct (Js.truthy (Js.getOwn rawEntity (fieldKeyOf i))); [|apply IH].
  destruct (Js.nullish (Js.getOwn rawEntity (fieldKeyOf i))); simpl;
    [discriminate|].
  pose proof (toString_returns_or_throws fieldName) as Hs.
  destruct (Js.toString fieldName); simpl;
    [apply IH | discriminate | congruence].
Qed.

Lemma mapearEntidades_returns_or_throws entities :
  mapearEntidades entities <> SemCombustivel.
Proof.
  unfold mapearEntidades.
  destruct (negb (Js.truthy entities)
            || negb (Js.truthy (Js.getOwn entities "entity")));
    [discriminate|].
  unfold Js.getProp.
  destruct (Js.nullish entities); simpl; [discriminate|].
  destruct (Js.nullish (Js.getOwn entities "metadata")); simpl;
    [discriminate|].
  destruct (Js.nullish (Js.getOwn (Js.getOwn entities "metadata") "fields"));
    simpl; [discriminate|].
  destruct (Js.getOwn (Js.getOwn (Js.getOwn entities "metadata") "fields")
              "field") as [| | | | |fs|]; simpl; try discriminate.
  assert (Hn : Js.sequence
                 (List.map (fun f =>
                    if Js.nullish f
                    then Lanca (newError
                           ("Cannot read properties of " +:+ Js.typeName f
                              +:+ " (reading '" +:+ "name" +:+ "')"))
                    else Retorna (Js.getOwn f "name")) fs)
               <> SemCombustivel).
  { apply sequence_returns_or_throws, Forall_map, Forall_forall.
    intros f _. destruct (Js.nullish f); discriminate. }
  destruct (Js.sequence _) as [fieldNames|e|]; simpl;
    [|discriminate|congruence].
  apply sequence_returns_or_throws, Forall_map, Forall_forall.
  intros rawEntity _. apply forFields_returns_or_throws.
Qed.

Lemma mapearResposta_returns_or_throws res :
  mapearResposta res <> SemCombustivel.
Proof.
  unfold mapearResposta. destruct (Js.truthy (entitiesOf res));
    [apply mapearEntidades_returns_or_throws | discriminate].
Qed.

Lemma codLeadsStrOf_returns_or_throws leadsList :
  codLeadsStrOf leadsList <> SemCombustivel.
Proof.
  unfold codLeadsStrOf, Js.join.
  assert (H : Js.sequence
                (List.map (fun x => if Js.nullish x then Retorna ""
                                    else Js.toString x)
                   (List.map (fun l => Js.getRegistro l "CODLEAD")
                             leadsList))
              <> SemCombustivel).
  { apply sequence_returns_or_throws, Forall_map, Forall_forall.
    intros x _. destruct (Js.nullish x);
      [discriminate | apply toString_returns_or_throws]. }
  destruct (Js.sequence _); congruence.
Qed.

Lemma reduceSoma_returns_or_throws w campo lista :
  forall sum, reduceSoma w campo lista sum <> SemCombustivel.
Proof.
  induction lista as [|x lista IH]; intros sum; simpl; [discriminate|].
  unfold parseFloatDe.
  pose proof (toString_returns_or_throws (Js.getRegistro x campo)) as Ht.
  destruct (Js.toString (Js.getRegistro x campo)); simpl;
    [apply IH | discriminate | contradiction].
Qed.

Lemma somaVlrNota_returns_or_throws w lista :
  somaVlrNota w lista <> SemCombustivel.
Proof. apply reduceSoma_returns_or_throws. Qed.

End DecodingEnds.

Section OrchestratorFacts.

Variable w : Mundo.

Lemma wp_keep {A : Type} (m : M A) s (Q : Resultado A -> Estado -> Prop) :
  wp m s Q -> wp m s (fun r s' => Q r s' /\ (m s).1 = r).
Proof. unfold wp. auto. Qed.

(** A tolerant query never throws; it yields the answer to its call, or
    [null] when the call fails. *)
Lemma catchNull_post url data s :
  exists v s' evs,
    catchNull (fazerRequisicaoAutenticada w url data 0) s = (Retorna v, s')
    /\ segue s s' evs
    /\ Forall (eventoDaChamada url data) evs
    /\ (forall e, (fazerRequisicaoAutenticada w url data 0 s).1 = Lanca e ->
                  v = JNull)
    /\ v = match (fazerRequisicaoAutenticada w url data 0 s).1 with
           | Retorna x => x
           | _ => JNull
           end.
Proof.
  pose proof (fazerRequisicaoAutenticada_post w url data s) as H.
  unfold wp in H. destruct H as (evs & Hseg & Hall & _ & _ & Hr).
  unfold catchNull, tryCatch.
  destruct (fazerRequisicaoAutenticada w url data 0 s) as [[v|e|] s'];
    simpl in *; [| |contradiction].
  - exists v, s', evs. repeat split; auto; try apply Hseg. discriminate.
  - exists JNull, s', evs. repeat split; auto; apply Hseg.
Qed.

Lemma chamada_do_plano f userId isAdmin data evs :
  In data (planoDeConsultas f userId isAdmin) ->
  Forall (eventoDaChamada URL_CONSULTA_SERVICO data) evs ->
  Forall (eventoDoPlano f userId isAdmin) evs.
Proof.
  intros Hin H. eapply Forall_impl; [exact H|].
  intros [|url a p|ms]; simpl; auto.
  intros [-> ->]. auto.
Qed.

Lemma chamada_produtosLeads f userId isAdmin c evs :
  Forall (eventoDaChamada URL_CONSULTA_SERVICO (produtosLeadsPayload c)) evs ->
  Forall (eventoDoPlano f userId isAdmin) evs.
Proof.
  intros H. eapply Forall_impl; [exact H|].
  intros [|url a p|ms]; simpl; auto.
  intros [-> ->]. eauto.
Qed.

(** From the cache write on: the snapshot is stored, and then the order
    total decides between the return and an exception. *)
Lemma guardarERetornar_post f userId isAdmin key s sx evs
    lLeads lProdutosLeads lEstagios lFunis lAtividades lPedidos lProdutos
    lClientes :
  segue s sx evs ->
  Forall (eventoDoPlano f userId isAdmin) evs ->
  (forall ts,
      vaziosSeFalham w f userId isAdmin s
        {| leads := lLeads; produtosLeads := lProdutosLeads;
           estagiosFunis := lEstagios; funis := lFunis;
           atividades := lAtividades; pedidos := lPedidos;
           produtos := lProdutos; clientes := lClientes;
           financeiro := []; filtro := f; timestamp := ts |}) ->
  mapearResposta (respostaDe w f userId isAdmin s 4) = Retorna lPedidos ->
  wp (guardarERetornar w f key lLeads lProdutosLeads lEstagios lFunis
        lAtividades lPedidos lProdutos lClientes) sx
     (posBusca w f userId isAdmin key s).
Proof.
  intros (L & C & T) Hall Hvazios Hped.
  unfold wp, guardarERetornar, bindM, nowISO, cacheSet, ret, liftR, posBusca.
  simpl.
  pose proof (somaVlrNota_returns_or_throws w lPedidos) as Hne.
  destruct (somaVlrNota w lPedidos) as [total|e|] eqn:Et; simpl;
    [| |contradiction].
  - split; [eauto|]. split; [|eauto].
    eexists. rewrite C, T.
    split; [reflexivity|]. split; [simpl; eauto|].
    split; [reflexivity|]. split; [reflexivity|].
    split; [reflexivity|]. apply Hvazios.
  - split; [eauto|]. split.
    + right. right.
      exists {| leads := lLeads; produtosLeads := lProdutosLeads;
                estagiosFunis := lEstagios; funis := lFunis;
                atividades := lAtividades; pedidos := lPedidos;
                produtos := lProdutos; clientes := lClientes;
                financeiro := []; filtro := f;
                timestamp := relogio w (nRelogio sx) |}.
      simpl. rewrite C. auto.
    + intros Hfail. exfalso.
      destruct (Hvazios "") as [Hd _].
      pose proof (Hd 4%nat (Hfail 4%nat ltac:(lia))) as H4. simpl in H4.
      subst lPedidos. discriminate Et.
Qed.

(** The lead-products step from [sx], where the seven queries left the
    run. *)
Lemma buscarProdutosLeads_post f userId isAdmin s sx evs lLeads :
  segue s sx evs ->
  Forall (eventoDoPlano f userId isAdmin) evs ->
  wp (buscarProdutosLeads w lLeads) sx
     (fun r s' =>
        (exists evs', segue s s' evs'
                      /\ Forall (eventoDoPlano f userId isAdmin) evs')
        /\ match r with
           | Retorna lProdutosLeads => lLeads = [] -> lProdutosLeads = []
           | Lanca e =>
               lLeads <> []
               /\ (codLeadsStrOf lLeads = Lanca e
                   \/ exists codLeadsStr,
                        codLeadsStrOf lLeads = Retorna codLeadsStr
                        /\ ((fazerRequisicaoAutenticada w
                               URL_CONSULTA_SERVICO
                               (produtosLeadsPayload codLeadsStr) 0 sx).1
                            = Lanca e
                            \/ exists res,
                                 (fazerRequisicaoAutenticada w
                                    URL_CONSULTA_SERVICO
                                    (produtosLeadsPayload codLeadsStr) 0
                                    sx).1 = Retorna res
                                 /\ mapearResposta res = Lanca e))
           | SemCombustivel => False
           end).
Proof.
  intros Hseg Hall. unfold buscarProdutosLeads.
  destruct lLeads as [|l ls]; simpl.
  { apply wp_ret. split; [eauto|]. reflexivity. }
  apply wp_bind, wp_liftR.
  pose proof (codLeadsStrOf_returns_or_throws (l :: ls)) as Hcod.
  destruct (codLeadsStrOf (l :: ls)) as [c|e|] eqn:Ec; [| |contradiction].
  - apply wp_bind.
    eapply wp_mono; [apply wp_keep, fazerRequisicaoAutenticada_post|].
    intros r s8 ((evs8 & Hs8 & Ha8 & _ & _ & Hr8) & Hrun).
    assert (Hq : exists evs', segue s s8 evs'
                 /\ Forall (eventoDoPlano f userId isAdmin) evs').
    { exists (evs ++ evs8). split; [eapply segue_trans; eauto|].
      apply Forall_app. split; [exact Hall|].
      eapply chamada_produtosLeads; exact Ha8. }
    destruct r as [v8|e|]; [| |contradiction].
    + apply wp_liftR.
      pose proof (mapearResposta_returns_or_throws v8) as Hm.
      destruct (mapearResposta v8) as [l8|e|] eqn:E8; [| |contradiction].
      * split; [exact Hq|]. discriminate.
      * split; [exact Hq|]. split; [discriminate|].
        right. exists c. split; [reflexivity|]. right. eauto.
    + split; [exact Hq|]. split; [discriminate|].
      right. exists c. split; [reflexivity|]. left. exact Hrun.
  - split; [eauto|]. split; [discriminate|]. left. reflexivity.
Qed.

(** Every run of the cache-miss path. *)
Lemma buscarDaApi_post f userId isAdmin key s :
  wp (buscarDaApi w f userId isAdmin key) s
     (posBusca w f userId isAdmin key s).
Proof.
  unfold buscarDaApi. apply wp_tryCatch.
  eapply wp_mono; [|intros r s' H; destruct r; exact H].
  fold (leadsPayloadDe f userId isAdmin).
  fold (atividadesPayloadDe f). fold (pedidosPayloadDe f).
  destruct (catchNull_post URL_CONSULTA_SERVICO
              (leadsPayloadDe f userId isAdmin) s)
    as (v1 & s1 & evs1 & R1 & Hs1 & Ha1 & Hn1 & V1).
  apply wp_bind. eapply wp_eq; [exact R1|]. cbv beta iota.
  destruct (catchNull_post URL_CONSULTA_SERVICO (atividadesPayloadDe f) s1)
    as (v2 & s2 & evs2 & R2 & Hs2 & Ha2 & Hn2 & V2).
  apply wp_bind. eapply wp_eq; [exact R2|]. cbv beta iota.
  destruct (catchNull_post URL_CONSULTA_SERVICO funisPayload s2)
    as (v3 & s3 & evs3 & R3 & Hs3 & Ha3 & Hn3 & V3).
  apply wp_bind. eapply wp_eq; [exact R3|]. cbv beta iota.
  destruct (catchNull_post URL_CONSULTA_SERVICO estagiosPayload s3)
    as (v4 & s4 & evs4 & R4 & Hs4 & Ha4 & Hn4 & V4).
  apply wp_bind. eapply wp_eq; [exact R4|]. cbv beta iota.
  destruct (catchNull_post URL_CONSULTA_SERVICO (pedidosPayloadDe f) s4)
    as (v5 & s5 & evs5 & R5 & Hs5 & Ha5 & Hn5 & V5).
  apply wp_bind. eapply wp_eq; [exact R5|]. cbv beta iota.
  destruct (catchNull_post URL_CONSULTA_SERVICO produtosPayload s5)
    as (v6 & s6 & evs6 & R6 & Hs6 & Ha6 & Hn6 & V6).
  apply wp_bind. eapply wp_eq; [exact R6|]. cbv beta iota.
  destruct (catchNull_post URL_CONSULTA_SERVICO clientesPayload s6)
    as (v7 & s7 & evs7 & R7 & Hs7 & Ha7 & Hn7 & V7).
  apply wp_bind. eapply wp_eq; [exact R7|]. cbv beta iota.
  set (evs := evs1 ++ evs2 ++ evs3 ++ evs4 ++ evs5 ++ evs6 ++ evs7).
  assert (Hseg : segue s s7 evs).
  { unfold evs. repeat (eapply segue_trans; [eassumption|]). exact Hs7. }
  assert (Hall : Forall (eventoDoPlano f userId isAdmin) evs).
  { unfold evs. repeat (apply Forall_app; split);
      (eapply chamada_do_plano; [|eassumption]);
      unfold planoDeConsultas; simpl; auto 10. }
  clear Hs1 Hs2 Hs3 Hs4 Hs5 Hs6 Hs7 Ha1 Ha2 Ha3 Ha4 Ha5 Ha6 Ha7.
  (* the states in which the seven queries ran, and where they left the run *)
  assert (E0 : estadoAntes w f userId isAdmin s 0 = s) by reflexivity.
  assert (E1 : estadoAntes w f userId isAdmin s 1 = s1).
  { unfold estadoAntes. simpl. rewrite R1. reflexivity. }
  assert (E2 : estadoAntes w f userId isAdmin s 2 = s2).
  { unfold estadoAntes. simpl. rewrite R1. simpl. rewrite R2. reflexivity. }
  assert (E3 : estadoAntes w f userId isAdmin s 3 = s3).
  { unfold estadoAntes. simpl. rewrite R1. simpl. rewrite R2. simpl.
    rewrite R3. reflexivity. }
  assert (E4 : estadoAntes w f userId isAdmin s 4 = s4).
  { unfold estadoAntes. simpl. rewrite R1. simpl. rewrite R2. simpl.
    rewrite R3. simpl. rewrite R4. reflexivity. }
  assert (E5 : estadoAntes w f userId isAdmin s 5 = s5).
  { unfold estadoAntes. simpl. rewrite R1. simpl. rewrite R2. simpl.
    rewrite R3. simpl. rewrite R4. simpl. rewrite R5. reflexivity. }
  assert (E6 : estadoAntes w f userId isAdmin s 6 = s6).
  { unfold estadoAntes. simpl. rewrite R1. simpl. rewrite R2. simpl.
    rewrite R3. simpl. rewrite R4. simpl. rewrite R5. simpl. rewrite R6.
    reflexivity. }
  assert (E7 : estadoAntes w f userId isAdmin s 7 = s7).
  { unfold estadoAntes. simpl. rewrite R1. simpl. rewrite R2. simpl.
    rewrite R3. simpl. rewrite R4. simpl. rewrite R5. simpl. rewrite R6.
    simpl. rewrite R7. reflexivity. }
  assert (F : forall i, consultaFalha w f userId isAdmin s i ->
                nth i [v1; v2; v3; v4; v5; v6; v7] JNull = JNull).
  { intros i (p & e & Hp & He).
    do 7 (destruct i as [|i];
          [injection Hp as <-;
           rewrite ?E0, ?E1, ?E2, ?E3, ?E4, ?E5, ?E6 in He; simpl; eauto|]).
    destruct i; reflexivity. }
  assert (V : forall i, (i < 7)%nat ->
                respostaDe w f userId isAdmin s i
                = nth i [v1; v2; v3; v4; v5; v6; v7] JNull).
  { intros i Hi. unfold respostaDe.
    do 7 (destruct i as [|i];
          [simpl planoDeConsultas; cbn [lookup list_lookup];
           rewrite ?E0, ?E1, ?E2, ?E3, ?E4, ?E5, ?E6; simpl;
           symmetry; assumption|]).
    lia. }
  clear R1 R2 R3 R4 R5 R6 R7 Hn1 Hn2 Hn3 Hn4 Hn5 Hn6 Hn7
    V1 V2 V3 V4 V5 V6 V7 E0 E1 E2 E3 E4 E5 E6.
  assert (Hdecode : forall i v e,
             nth i [v1; v2; v3; v4; v5; v6; v7] JNull = v -> (i < 7)%nat ->
             mapearResposta v = Lanca e ->
             posBusca w f userId isAdmin key s (Lanca e) s7).
  { intros i v e Hv Hi Ev. destruct Hseg as (L & C & T).
    split; [eauto|]. split.
    - left. exists i. rewrite (V i Hi), Hv. auto.
    - intros Hfail. exfalso.
      rewrite <- Hv, (F i (Hfail i Hi)) in Ev. discriminate. }
  apply wp_bind, wp_liftR.
  pose proof (mapearResposta_returns_or_throws v1) as M1.
  destruct (mapearResposta v1) as [l1|e|] eqn:D1; [| |contradiction].
  2: { apply (Hdecode 0%nat v1 e eq_refl ltac:(lia) D1). }
  apply wp_bind, wp_liftR.
  pose proof (mapearResposta_returns_or_throws v2) as M2.
  destruct (mapearResposta v2) as [l2|e|] eqn:D2; [| |contradiction].
  2: { apply (Hdecode 1%nat v2 e eq_refl ltac:(lia) D2). }
  apply wp_bind, wp_liftR.
  pose proof (mapearResposta_returns_or_throws v3) as M3.
  destruct (mapearResposta v3) as [l3|e|] eqn:D3; [| |contradiction].
  2: { apply (Hdecode 2%nat v3 e eq_refl ltac:(lia) D3). }
  apply wp_bind, wp_liftR.
  pose proof (mapearResposta_returns_or_throws v4) as M4.
  destruct (mapearResposta v4) as [l4|e|] eqn:D4; [| |contradiction].
  2: { apply (Hdecode 3%nat v4 e eq_refl ltac:(lia) D4). }
  apply wp_bind, wp_liftR.
  pose proof (mapearResposta_returns_or_throws v5) as M5.
  destruct (mapearResposta v5) as [l5|e|] eqn:D5; [| |contradiction].
  2: { apply (Hdecode 4%nat v5 e eq_refl ltac:(lia) D5). }
  apply wp_bind, wp_liftR.
  pose proof (mapearResposta_returns_or_throws v6) as M6.
  destruct (mapearResposta v6) as [l6|e|] eqn:D6; [| |contradiction].
  2: { apply (Hdecode 5%nat v6 e eq_refl ltac:(lia) D6). }
  apply wp_bind, wp_liftR.
  pose proof (mapearResposta_returns_or_throws v7) as M7.
  destruct (mapearResposta v7) as [l7|e|] eqn:D7; [| |contradiction].
  2: { apply (Hdecode 6%nat v7 e eq_refl ltac:(lia) D7). }
  clear Hdecode M1 M2 M3 M4 M5 M6 M7.
  assert (Hvazio : forall v l, mapearResposta v = Retorna l ->
                               v = JNull -> l = []).
  { intros v l Hv ->. vm_compute in Hv. injection Hv as <-. reflexivity. }
  apply wp_bind.
  eapply wp_mono; [apply (buscarProdutosLeads_post f userId isAdmin s s7 evs);
                   assumption|].
  intros r s8 ((evs8 & Hs8 & Ha8) & Hr8).
  destruct r as [l8|e|]; [| |contradiction].
  - eapply guardarERetornar_post; [exact Hs8 | exact Ha8 | |].
    + intros ts. split.
      * intros i Hi. pose proof (F i Hi) as Hv.
        destruct Hi as (p & _ & Hp & _).
        do 7 (destruct i as [|i]; [simpl in *; eauto|]).
        discriminate Hp.
      * intros H0. simpl. apply Hr8. exact (Hvazio v1 l1 D1 (F 0%nat H0)).
    + rewrite (V 4%nat ltac:(lia)). exact D5.
  - destruct Hs8 as (L & C & T). destruct Hr8 as [Hne Ho].
    split; [eauto|]. split.
    + right. left. exists l1. rewrite (V 0%nat ltac:(lia)), E7.
      split; [exact D1|]. split; [exact Hne|]. split; [exact C|]. exact Ho.
    + intros Hfail. exfalso. apply Hne.
      exact (Hvazio v1 l1 D1 (F 0%nat (Hfail 0%nat ltac:(lia)))).
Qed.

End OrchestratorFacts.

(* ===================================================================== *)
(** * The criteria of the leads query *)
(* ===================================================================== *)

Section CriteriaFacts.

Lemma append_String x a b : String x a +:+ b = String x (a +:+ b).
Proof. reflexivity. Qed.

Lemma append_assoc a b c : (a +:+ b) +:+ c = a +:+ (b +:+ c).
Proof.
  induction a as [|x a IH]; [reflexivity|].
  rewrite !append_String, IH. reflexivity.
Qed.

Lemma temChar_append c a b :
  temChar c (a +:+ b) = temChar c a || temChar c b.
Proof.
  induction a as [|c' a IH]; [reflexivity|].
  rewrite append_String. simpl. rewrite IH, orb_assoc. reflexivity.
Qed.

Lemma prefix_temChar c sub :
  forall s, String.prefix sub s = true ->
            temChar c sub = true -> temChar c s = true.
Proof.
  induction sub as [|a sub IH]; intros s Hp Hc; simpl in *;
    [discriminate Hc|].
  destruct s as [|b s]; simpl in Hp; [discriminate Hp|].
  destruct (Ascii.ascii_dec a b) as [->|]; [|discriminate Hp].
  simpl. apply orb_true_iff in Hc as [Hc|Hc].
  - rewrite Hc. reflexivity.
  - rewrite (IH s Hp Hc). apply orb_true_r.
Qed.

(** A string contains only characters of the strings it is found in. *)
Lemma contains_temChar c sub s :
  contains sub s = true -> temChar c sub = true -> temChar c s = true.
Proof.
  induction s as [|b s IH]; simpl; intros H Hc.
  - rewrite orb_false_r in H. exact (prefix_temChar c sub "" H Hc).
  - apply orb_true_iff in H as [H|H].
    + exact (prefix_temChar c sub (String b s) H Hc).
    + rewrite (IH H Hc). apply orb_true_r.
Qed.

Lemma prefix_refl s : String.prefix s s = true.
Proof.
  induction s as [|a s IH]; simpl; [reflexivity|].
  destruct (Ascii.ascii_dec a a); [exact IH | contradiction].
Qed.

Lemma contains_append_r sub p s :
  contains sub s = true -> contains sub (p +:+ s) = true.
Proof.
  intros H. induction p as [|a p IH]; [exact H|].
  rewrite append_String. simpl. rewrite IH. apply orb_true_r.
Qed.

Lemma contains_suffix sub p : contains sub (p +:+ sub) = true.
Proof.
  apply contains_append_r.
  destruct sub; simpl; [reflexivity|].
  destruct (Ascii.ascii_dec a a); [|contradiction].
  rewrite prefix_refl. reflexivity.
Qed.

Lemma split_temChar c sep s :
  forall p, In p (Js.split sep s) -> temChar c p = true ->
            temChar c s = true.
Proof.
  induction s as [|a s IH]; simpl; intros p Hin Hc.
  - destruct Hin as [<-|[]]. discriminate Hc.
  - destruct (Ascii.eqb a sep).
    + destruct Hin as [<-|Hin]; [discriminate Hc|].
      rewrite (IH p Hin Hc). apply orb_true_r.
    + destruct (Js.split sep s) as [|q qs] eqn:E.
      * destruct Hin as [<-|[]]. simpl in Hc.
        rewrite orb_false_r in Hc. rewrite Hc. reflexivity.
      * destruct Hin as [<-|Hin].
        -- simpl in Hc. apply orb_true_iff in Hc as [Hc|Hc].
           ++ rewrite Hc. reflexivity.
           ++ rewrite (IH q (or_introl eq_refl) Hc). apply orb_true_r.
        -- rewrite (IH p (or_intror Hin) Hc). apply orb_true_r.
Qed.

Lemma nthText_temChar c sep s i :
  temChar c "undefined" = false ->
  temChar c s = false ->
  temChar c (Js.nthText (Js.split sep s) i) = false.
Proof.
  intros Hu Hs. unfold Js.nthText.
  destruct (nth_in_or_default i (Js.split sep s) "undefined") as [Hin| ->];
    [|exact Hu].
  destruct (temChar c (nth i (Js.split sep s) "undefined")) eqn:E;
    [|reflexivity].
  rewrite (split_temChar c sep s _ Hin E) in Hs. discriminate.
Qed.

Lemma formatarData_semU dataISO :
  temChar "U" dataISO = false ->
  temChar "U" (formatarDataParaSankhya dataISO) = false.
Proof.
  intros H. unfold formatarDataParaSankhya.
  rewrite !temChar_append.
  rewrite !(nthText_temChar "U" "-" dataISO) by (reflexivity || exact H).
  reflexivity.
Qed.

Lemma temForma_semU pattern :
  forall s, temForma pattern s = true -> temChar "U" s = false.
Proof.
  induction pattern as [|d pattern IH]; intros [|c s] H;
    cbn [temForma] in H; try discriminate H; [reflexivity|].
  apply andb_true_iff in H as [Hc Hs].
  cbn [temChar]. rewrite (IH s Hs), orb_false_r.
  destruct (Ascii.eqb_spec "U" c) as [<-|]; [|reflexivity].
  destruct d; vm_compute in Hc; discriminate Hc.
Qed.

Lemma dataISO_semU s : dataISO s = true -> temChar "U" s = false.
Proof. apply temForma_semU. Qed.

(** The clause on [CODUSUARIO] is in the criteria exactly for non-admins. *)
Lemma criteriaLeads_codusuario di df userId isAdmin :
  temChar "U" di = false -> temChar "U" df = false ->
  contains ("CODUSUARIO = " +:+ Js.numberToString userId)
           (criteriaLeads di df userId isAdmin) = negb isAdmin
  /\ (isAdmin = true ->
      contains "CODUSUARIO" (criteriaLeads di df userId isAdmin) = false).
Proof.
  intros Hi Hf.
  assert (Hbase : temChar "U"
                    ("DATA_CRIACAO BETWEEN '" +:+ di +:+ "' AND '" +:+ df
                       +:+ "' AND ATIVO = 'S'") = false).
  { rewrite !temChar_append, Hi, Hf. reflexivity. }
  unfold criteriaLeads. destruct isAdmin; simpl negb; cbv iota.
  - assert (Hno : forall sub, temChar "U" sub = true ->
                   contains sub ("DATA_CRIACAO BETWEEN '" +:+ di +:+ "' AND '"
                                   +:+ df +:+ "' AND ATIVO = 'S'") = false).
    { intros sub Hsub.
      destruct (contains sub _) eqn:E; [|reflexivity].
      rewrite (contains_temChar "U" _ _ E Hsub) in Hbase. discriminate. }
    split; [|intros _]; apply Hno; reflexivity.
  - split; [|discriminate].
    replace (" AND CODUSUARIO = " +:+ Js.numberToString userId)
      with (" AND " +:+ ("CODUSUARIO = " +:+ Js.numberToString userId)) by reflexivity.
    rewrite <- (append_assoc _ " AND "
                  ("CODUSUARIO = " +:+ Js.numberToString userId)).
    apply contains_suffix.
Qed.

End CriteriaFacts.

(* ===================================================================== *)
(** * Properties of a fetch *)
(* ===================================================================== *)

Section FetchFacts.

Variable w : Mundo.

Lemma buscarDadosAnalise_miss f userId isAdmin s :
  redisCacheService.get (cacheKeyOf f userId) (cache s) = None ->
  buscarDadosAnalise w f userId isAdmin s
  = buscarDaApi w f userId isAdmin (cacheKeyOf f userId) s.
Proof.
  intros H. unfold buscarDadosAnalise, bindM, cacheGet. rewrite H.
  reflexivity.
Qed.

Lemma buscarDadosAnalise_hit f userId isAdmin s c :
  redisCacheService.get (cacheKeyOf f userId) (cache s) = Some c ->
  buscarDadosAnalise w f userId isAdmin s
  = (Retorna {| dados := c; metricas := None |}, s).
Proof.
  intros H. unfold buscarDadosAnalise, bindM, cacheGet. rewrite H.
  reflexivity.
Qed.

(** Every run of a fetch on a cache miss. *)
Lemma buscarDadosAnalise_post f userId isAdmin s :
  redisCacheService.get (cacheKeyOf f userId) (cache s) = None ->
  posBusca w f userId isAdmin (cacheKeyOf f userId) s
    (buscarDadosAnalise w f userId isAdmin s).1
    (buscarDadosAnalise w f userId isAdmin s).2.
Proof.
  intros H. rewrite (buscarDadosAnalise_miss _ _ _ _ H).
  apply buscarDaApi_post.
Qed.

(** The events of a fetch, hit or miss, are events of its plan. *)
Lemma buscarDadosAnalise_events f userId isAdmin s :
  exists evs,
    log (buscarDadosAnalise w f userId isAdmin s).2 = log s ++ evs
    /\ Forall (eventoDoPlano f userId isAdmin) evs.
Proof.
  destruct (redisCacheService.get (cacheKeyOf f userId) (cache s))
    as [c|] eqn:E.
  - rewrite (buscarDadosAnalise_hit _ _ _ _ _ E). exists [].
    simpl. rewrite app_nil_r. auto.
  - exact (proj1 (buscarDadosAnalise_post f userId isAdmin s E)).
Qed.

Lemma plano_entidades f userId isAdmin ev :
  eventoDoPlano f userId isAdmin ev -> consultaDeDataset ev.
Proof.
  destruct ev as [|url a p|ms]; simpl; auto.
  intros [_ [Hin|[c ->]]].
  - unfold planoDeConsultas in Hin. simpl in Hin.
    repeat destruct Hin as [<-|Hin]; simpl; auto 10.
  - simpl. auto 10.
Qed.

Lemma plano_leads f userId isAdmin ev :
  eventoDoPlano f userId isAdmin ev ->
  consultaDeLeadsEh (leadsPayloadDe f userId isAdmin) ev.
Proof.
  destruct ev as [|url a p|ms]; simpl; auto.
  intros [_ [Hin|[c ->]]] Hroot.
  - unfold planoDeConsultas in Hin. simpl in Hin.
    repeat destruct Hin as [<-|Hin]; try reflexivity;
      try (simpl in Hroot; discriminate Hroot).
    contradiction.
  - simpl in Hroot. discriminate Hroot.
Qed.

End FetchFacts.

(** C1 (counterexample): in a world where no request gets through, every
    dataset query fails, and the fetch does not throw: it returns a snapshot
    whose datasets are all empty. *)
Lemma fetch_returns_when_every_query_fails :
  (forall n url authorization p,
      consulta_at Exemplos.mundoSemRede n url authorization p
      = inl Exemplos.erroTimeout)
  /\ (buscarDadosAnalise Exemplos.mundoSemRede Exemplos.filtroJaneiro 7 false
        Exemplos.estadoInicial).1
     = Retorna Exemplos.retornoVazio.
Proof. split; [reflexivity | vm_compute; reflexivity]. Qed.

(** C1 (as amended): on a cache miss the fetch always ends, and a failure of
    any of the seven queries sent with [.catch] never makes it throw: the
    dataset of a query whose call throws is the empty list in the snapshot,
    and when all seven fail the snapshot is returned with every dataset
    empty.  An exception leaves the fetch only from decoding what one of the
    seven queries left, from the lead-products step, taken when leads were
    decoded (joining their identifiers, the call itself, whose error
    propagates as it is, or decoding its answer), or from the order total,
    computed after the snapshot has been cached. *)
Theorem fetch_tolerates_failed_queries (w : Mundo) (f : FiltroAnalise)
    (userId : Z) (isAdmin : bool) (s : Estado) :
  redisCacheService.get (cacheKeyOf f userId) (cache s) = None ->
  let run := buscarDadosAnalise w f userId isAdmin s in
  run.1 <> SemCombustivel
  /\ (forall ret, run.1 = Retorna ret ->
                  vaziosSeFalham w f userId isAdmin s (dados ret))
  /\ ((forall i, (i < 7)%nat -> consultaFalha w f userId isAdmin s i) ->
      exists ret, run.1 = Retorna ret /\ semRegistros (dados ret))
  /\ (forall e, run.1 = Lanca e ->
                origemDoErro w f userId isAdmin (cacheKeyOf f userId) s e
                  run.2).
Proof.
  intros Hmiss run.
  destruct (buscarDadosAnalise_post w f userId isAdmin s Hmiss)
    as (_ & Hr & Hall).
  fold run in Hr, Hall.
  assert (Hret : forall ret, run.1 = Retorna ret ->
                             vaziosSeFalham w f userId isAdmin s (dados ret)).
  { intros ret E. rewrite E in Hr.
    destruct Hr as (resultado & _ & (total & _ & ->) & _ & _ & _ & Hv).
    exact Hv. }
  split; [|split; [exact Hret|split]].
  - intros E. rewrite E in Hr. exact Hr.
  - intros Hfail. destruct (Hall Hfail) as [ret E].
    exists ret. split; [exact E|].
    destruct (Hret ret E) as [Hd Hpl].
    pose proof (Hd 0%nat (Hfail 0%nat ltac:(lia))) as H0.
    pose proof (Hd 1%nat (Hfail 1%nat ltac:(lia))) as H1.
    pose proof (Hd 2%nat (Hfail 2%nat ltac:(lia))) as H2.
    pose proof (Hd 3%nat (Hfail 3%nat ltac:(lia))) as H3.
    pose proof (Hd 4%nat (Hfail 4%nat ltac:(lia))) as H4.
    pose proof (Hd 5%nat (Hfail 5%nat ltac:(lia))) as H5.
    pose proof (Hd 6%nat (Hfail 6%nat ltac:(lia))) as H6.
    pose proof (Hpl (Hfail 0%nat ltac:(lia))) as H7.
    simpl in *. unfold semRegistros. auto 10.
  - intros e E. rewrite E in Hr. exact Hr.
Qed.

Lemma fetch_tolerates_failed_queries_witness :
  exists ret,
    (buscarDadosAnalise Exemplos.mundoSemRede Exemplos.filtroJaneiro 7 false
       Exemplos.estadoInicial).1 = Retorna ret
    /\ semRegistros (dados ret).
Proof.
  destruct (fetch_tolerates_failed_queries Exemplos.mundoSemRede
              Exemplos.filtroJaneiro 7 false Exemplos.estadoInicial eq_refl)
    as (_ & _ & H & _).
  apply H. intros i Hi.
  do 7 (destruct i as [|i];
        [eexists; eexists; split; [reflexivity | vm_compute; reflexivity]|]).
  lia.
Defined.




(** C10: a snapshot returned on the cache-miss path has an empty
    [financeiro] and the four financial metrics at zero, and every query
    request of the fetch is for one of the eight dataset entities, none of
    which is a financial one. *)
Theorem fetch_never_queries_financeiro (w : Mundo) (f : FiltroAnalise)
    (userId : Z) (isAdmin : bool) (s : Estado) :
  redisCacheService.get (cacheKeyOf f userId) (cache s) = None ->
  let run := buscarDadosAnalise w f userId isAdmin s in
  (forall ret, run.1 = Retorna ret ->
     financeiro (dados ret) = []
     /\ exists m, metricas ret = Some m
                  /\ totalFinanceiro m = 0 /\ valorTotalFinanceiro m = 0
                  /\ valorRecebido m = 0 /\ valorPendente m = 0)
  /\ exists evs, log run.2 = log s ++ evs /\ Forall consultaDeDataset evs.
Proof.
  intros Hmiss run.
  destruct (buscarDadosAnalise_post w f userId isAdmin s Hmiss)
    as ((evs & Hlog & Hall) & Hr & _).
  fold run in Hr, Hlog. split.
  - intros ret E. rewrite E in Hr.
    destruct Hr as (resultado & _ & (total & _ & ->) & _). simpl.
    split; [reflexivity|]. eexists. split; [reflexivity|]. auto.
  - exists evs. split; [exact Hlog|].
    eapply Forall_impl; [exact Hall|]. apply plano_entidades.
Qed.

Lemma fetch_never_queries_financeiro_witness :
  let run := buscarDadosAnalise Exemplos.mundoConsultaLenta
               Exemplos.filtroJaneiro 7 false Exemplos.estadoInicial in
  exists evs, log run.2 = evs /\ Forall consultaDeDataset evs
              /\ (21 <= conta ehConsulta evs)%nat.
Proof.
  intros run.
  destruct (fetch_never_queries_financeiro Exemplos.mundoConsultaLenta
              Exemplos.filtroJaneiro 7 false Exemplos.estadoInicial eq_refl)
    as (_ & evs & Hlog & Hall).
  exists evs. split; [exact Hlog|]. split; [exact Hall|].
  change (log Exemplos.estadoInicial ++ evs) with evs in Hlog.
  rewrite <- Hlog. vm_compute. lia.
Defined.

(* ===================================================================== *)
(** * obterToken under interleaved callers *)
(* ===================================================================== *)

Section SingleFlightFacts.

Import SingleFlight.

Lemma umaSo_inicial : umaSo inicial.
Proof. intros id p H. destruct id; discriminate H. Qed.

Lemma umaSo_none s :
  umaSo s -> tokenPromise s = None ->
  forall id p, tarefas s !! id = Some p -> pendente p = false.
Proof.
  intros Hinv Hnone id p Hp.
  destruct (pendente p) eqn:E; [|reflexivity].
  rewrite (Hinv id p Hp E) in Hnone. discriminate.
Qed.

(** An acquisition that leaves the unsettled ones, settles or stays. *)
Lemma umaSo_poe s id p0 p c tp :
  umaSo s -> tarefas s !! id = Some p0 -> pendente p0 = true ->
  (pendente p = true -> tp = tokenPromise s) ->
  umaSo (poe id p (comTokens c tp s)).
Proof.
  intros Hinv H0 Hp0 Htp j q Hq Hpend. simpl in *.
  pose proof (Hinv id p0 H0 Hp0) as Hid.
  destruct (decide (j = id)) as [->|Hne].
  - rewrite list_lookup_insert_eq in Hq
      by (apply lookup_lt_Some in H0; exact H0).
    injection Hq as <-. rewrite (Htp Hpend). exact Hid.
  - rewrite list_lookup_insert_ne in Hq by congruence.
    pose proof (Hinv j q Hq Hpend) as Hj. congruence.
Qed.

Lemma umaSo_passo l s s' :
  semTimer l = true -> umaSo s -> passo l s = Some s' -> umaSo s'.
Proof.
  intros Hl Hinv Hstep. destruct l as [|id|id ans|id]; simpl in *;
    try discriminate Hl.
  - unfold chama in Hstep.
    destruct (Js.truthy (cachedToken s)); [injection Hstep as <-; exact Hinv|].
    destruct (tokenPromise s) as [p|] eqn:Etp;
      injection Hstep as <-; intros j q Hq Hpend; simpl in *.
    + exact (Hinv j q Hq Hpend).
    + apply lookup_app_Some in Hq as [Hq|[Hlen Hq]].
      * rewrite (umaSo_none s Hinv Etp j q Hq) in Hpend. discriminate.
      * f_equal. apply list_lookup_singleton_Some in Hq as [Hq _]. lia.
  - destruct (tarefas s !! id) as [[rc| | | | |]|] eqn:E; try discriminate.
    injection Hstep as <-.
    intros j q Hq Hpend. simpl in *.
    apply (umaSo_poe s id (AguardaImport rc) (AguardaLogin rc)
             (cachedToken s) (tokenPromise s) Hinv E eq_refl (fun _ => eq_refl)
             j q Hq Hpend).
  - destruct (tarefas s !! id) as [[|rc| | | |]|] eqn:E; try discriminate.
    destruct (ObterToken.tokenDe ans) as [token|erro|]; [| |discriminate].
    + injection Hstep as <-.
      apply (umaSo_poe s id (AguardaLogin rc)); auto. discriminate.
    + destruct (ObterToken.retryable erro
                && (rc <? ObterToken.MAX_RETRIES)%nat);
        injection Hstep as <-.
      * intros j q Hq Hpend.
        apply (umaSo_poe s id (AguardaLogin rc) (AguardaTimer rc)
                 (cachedToken s) (tokenPromise s) Hinv E eq_refl
                 (fun _ => eq_refl) j q Hq Hpend).
      * apply (umaSo_poe s id (AguardaLogin rc)); auto. discriminate.
Qed.

Lemma umaSo_executa ls :
  forall s s', forallb semTimer ls = true -> umaSo s ->
               executa ls s = Some s' -> umaSo s'.
Proof.
  induction ls as [|l ls IH]; intros s s' Hls Hinv Hrun; simpl in *.
  - injection Hrun as <-. exact Hinv.
  - apply andb_true_iff in Hls as [Hl Hls].
    destruct (passo l s) as [s1|] eqn:E; [|discriminate].
    exact (IH s1 s' Hls (umaSo_passo l s s1 Hl Hinv E) Hrun).
Qed.

Lemma filter_at_most_one {A : Type} (P : A -> bool) (l : list A) :
  (forall i j x y, l !! i = Some x -> l !! j = Some y ->
                   P x = true -> P y = true -> i = j) ->
  (length (List.filter P l) <= 1)%nat.
Proof.
  induction l as [|a l IH]; intros H; simpl; [lia|].
  assert (IH' : (length (List.filter P l) <= 1)%nat).
  { apply IH. intros i j x y Hi Hj Hx Hy.
    pose proof (H (S i) (S j) x y Hi Hj Hx Hy). lia. }
  destruct (P a) eqn:Ea; [|exact IH'].
  simpl. destruct (List.filter P l) as [|b rest] eqn:Ef; [simpl; lia|].
  exfalso.
  assert (Hb : In b (List.filter P l)) by (rewrite Ef; left; reflexivity).
  apply List.filter_In in Hb as [Hb Pb].
  apply list_elem_of_In, list_elem_of_lookup in Hb as [j Hj].
  pose proof (H 0%nat (S j) a b eq_refl Hj Ea Pb). lia.
Qed.

(** As long as no backoff has elapsed, that is before an acquisition starts
    its first retry, all callers share one acquisition: at most one is
    unsettled at any time. *)
Lemma single_flight_until_a_retry ls s :
  forallb semTimer ls = true ->
  executa ls inicial = Some s ->
  (aquisicoesPendentes s <= 1)%nat.
Proof.
  intros Hls Hrun.
  pose proof (umaSo_executa ls inicial s Hls umaSo_inicial Hrun) as Hinv.
  apply filter_at_most_one.
  intros i j x y Hi Hj Hx Hy.
  pose proof (Hinv i x Hi Hx). pose proof (Hinv j y Hj Hy). congruence.
Qed.

End SingleFlightFacts.

(** Ten callers arriving together share one acquisition and one login. *)
Example ten_callers_one_login :
  SingleFlight.executa Exemplos.agendaDezChamadas SingleFlight.inicial
  = Some {| SingleFlight.cachedToken := JStr "T0";
            SingleFlight.tokenPromise := None;
            SingleFlight.tarefas := [SingleFlight.Resolvida (JStr "T0")];
            SingleFlight.logins := 1;
            SingleFlight.entregas :=
              List.repeat (SingleFlight.Promessa 0) 10 |}.
Proof. vm_compute. reflexivity. Qed.

(** C6 (the failing schedule): a first caller starts an acquisition whose
    login times out; when the backoff ends, the acquisition starts its retry
    and leaves [tokenPromise] null.  A second caller that arrives while the
    retry is waiting for its login answer finds neither a token nor a pending
    promise and starts an acquisition of its own: two login requests are in
    flight at once, and the two callers await different acquisitions. *)
Theorem two_logins_in_flight_during_retry :
  SingleFlight.executa Exemplos.agendaComRetry SingleFlight.inicial
  = Some {| SingleFlight.cachedToken := JNull;
            SingleFlight.tokenPromise := Some 2%nat;
            SingleFlight.tarefas :=
              [SingleFlight.Encadeada (SingleFlight.Promessa 1);
               SingleFlight.AguardaLogin 1; SingleFlight.AguardaLogin 0];
            SingleFlight.logins := 3;
            SingleFlight.entregas :=
              [SingleFlight.Promessa 0; SingleFlight.Promessa 2] |}
  /\ (SingleFlight.loginsEmVoo <$>
        SingleFlight.executa Exemplos.agendaComRetry SingleFlight.inicial)
     = Some 2%nat
  /\ (SingleFlight.aquisicoesPendentes <$>
        SingleFlight.executa Exemplos.agendaComRetry SingleFlight.inicial)
     = Some 2%nat.
Proof. repeat split; vm_compute; reflexivity. Qed.


(* ===================================================================== *)
(** * Further properties of the entity mapper *)
(* ===================================================================== *)

Section MapperShape.

Lemma sequence_inv {A : Type} (rs : list (Resultado A)) :
  forall l, Js.sequence rs = Retorna l ->
            Forall2 (fun r a => r = Retorna a) rs l.
Proof.
  induction rs as [|r rs IH]; simpl; intros l H.
  - injection H as <-. constructor.
  - destruct r as [a| |]; try discriminate H.
    destruct (Js.sequence rs) as [l'| |]; try discriminate H.
    injection H as <-. constructor; [reflexivity | apply IH; reflexivity].
Qed.

(** A call that returns on a collection with an entity has read the field
    descriptors and run the loop once for each entity. *)
Lemma mapearEntidades_inv entities l :
  mapearEntidades entities = Retorna l ->
  (Js.truthy entities && Js.truthy (Js.getOwn entities "entity") = false
   /\ l = [])
  \/ (Js.truthy entities && Js.truthy (Js.getOwn entities "entity") = true
      /\ Forall2
           (fun rawEntity r =>
              forFields rawEntity
                (List.map (fun f => Js.getOwn f "name") (camposDe entities))
                0 Js.objetoVazio = Retorna r)
           (entityArrayOf (Js.getOwn entities "entity")) l).
Proof.
  unfold mapearEntidades. rewrite <- negb_andb.
  destruct (Js.truthy entities && Js.truthy (Js.getOwn entities "entity"))
    eqn:H; simpl.
  2:{ intros Hl. injection Hl as <-. left. auto. }
  intros Hl. right. split; [reflexivity|].
  apply andb_true_iff in H as [He _].
  rewrite (getProp_ok _ _ (truthy_not_nullish _ He)) in Hl. simpl in Hl.
  destruct (Js.nullish (Js.getOwn entities "metadata")) eqn:Em.
  { destruct (getProp_nullish _ "fields" Em) as [e He']. rewrite He' in Hl.
    discriminate Hl. }
  rewrite (getProp_ok _ _ Em) in Hl. simpl in Hl.
  destruct (Js.nullish
              (Js.getOwn (Js.getOwn entities "metadata") "fields")) eqn:Ef.
  { destruct (getProp_nullish _ "field" Ef) as [e He']. rewrite He' in Hl.
    discriminate Hl. }
  rewrite (getProp_ok _ _ Ef) in Hl. simpl in Hl.
  unfold camposDe.
  destruct (Js.getOwn (Js.getOwn (Js.getOwn entities "metadata") "fields")
              "field") as [| | | | |fs|] eqn:E; simpl in Hl;
    try discriminate Hl.
  destruct (Js.sequence (List.map (fun f => Js.getProp f "name") fs))
    as [names| |] eqn:En; simpl in Hl; try discriminate Hl.
  assert (Hnames : names = List.map (fun f => Js.getOwn f "name") fs).
  { apply sequence_inv in En. clear -En.
    remember (List.map (fun f => Js.getProp f "name") fs) as rs eqn:Ers.
    revert fs Ers.
    induction En as [|r a rs l Hr _ IH]; intros [|f fs] Ers;
      simpl in Ers; try discriminate Ers; [reflexivity|].
    injection Ers as Er Ers. rewrite Er in Hr. simpl. f_equal.
    - unfold Js.getProp in Hr. destruct (Js.nullish f); congruence.
    - apply IH. exact Ers. }
  subst names. apply sequence_inv in Hl.
  clear -Hl.
  remember (List.map _ (entityArrayOf (Js.getOwn entities "entity"))) as rs
    eqn:Ers.
  revert Ers. generalize (entityArrayOf (Js.getOwn entities "entity")).
  induction Hl as [|r a rs l Hr _ IH]; intros [|x xs] Ers;
    simpl in Ers; try discriminate Ers; [constructor|].
  injection Ers as Er Ers. rewrite Er in Hr. constructor; [exact Hr|].
  apply IH. exact Ers.
Qed.






Lemma hasOwn_chaves k o : Js.hasOwn k o = true <-> k ∈ List.map fst o.
Proof.
  unfold Js.hasOwn.
  induction o as [|[k0 v0] o IH]; simpl.
  - split; [discriminate | intros H; inversion H].
  - destruct (String.eqb k k0) eqn:E.
    + apply String.eqb_eq in E. subst k0. split; [intros _; left | reflexivity].
    + apply String.eqb_neq in E. rewrite IH. split.
      * intros H. right. exact H.
      * intros H. apply elem_of_cons in H as [H|H]; [contradiction | exact H].
Qed.

Lemma chaves_replace k v o :
  List.map fst (Js.replace k v o) = List.map fst o.
Proof.
  induction o as [|[k0 v0] o IH]; simpl; [reflexivity|].
  destruct (String.eqb k k0); simpl; [reflexivity | f_equal; exact IH].
Qed.

Lemma chaves_inserirIndice i k v o :
  List.map fst (Js.inserirIndice i k v o) ≡ₚ k :: List.map fst o.
Proof.
  induction o as [|[k0 v0] o IH]; simpl; [reflexivity|].
  destruct (Js.indiceDe k0) as [j|]; [destruct (j <? i)%N|]; simpl;
    try reflexivity.
  rewrite IH. apply Permutation_swap.
Qed.

(** The keys after an own property is written: the same keys, or one more. *)
Lemma chaves_definir o k v :
  List.map fst (Js.definir o k v)
  ≡ₚ if Js.hasOwn k o then List.map fst o else k :: List.map fst o.
Proof.
  unfold Js.definir. destruct (Js.hasOwn k o).
  - rewrite chaves_replace. reflexivity.
  - destruct (Js.indiceDe k); [apply chaves_inserirIndice|].
    rewrite map_app. simpl. symmetry. apply Permutation_cons_append.
Qed.

(** An assignment keeps a record free of repeated keys, and a key it adds is
    the key assigned. *)
Lemma setProp_chaves (P : string -> Prop) r k v :
  P k -> NoDup (chaves r) -> Forall P (chaves r) ->
  NoDup (chaves (Js.setProp r k v)) /\ Forall P (chaves (Js.setProp r k v)).
Proof.
  intros Hk Hnd HP. unfold Js.setProp, chaves in *.
  destruct (String.eqb k "__proto__" && Js.alcancaSetter r).
  - destruct v; simpl; auto.
  - simpl. pose proof (chaves_definir (proprias r) k v) as Hp.
    rewrite Hp. destruct (Js.hasOwn k (proprias r)) eqn:Eh; [auto|].
    split.
    + apply NoDup_cons. split; [|exact Hnd].
      intros Hin. apply hasOwn_chaves in Hin. congruence.
    + apply Forall_cons. auto.
Qed.

(** The loop keeps a record free of repeated keys, and every key it adds is
    the text of one of the names. *)
Lemma forFields_chaves rawEntity (P : string -> Prop) names :
  forall i acc r,
    Forall (fun name => forall k, Js.toString name = Retorna k -> P k) names ->
    NoDup (chaves acc) -> Forall P (chaves acc) ->
    forFields rawEntity names i acc = Retorna r ->
    NoDup (chaves r) /\ Forall P (chaves r).
Proof.
  induction names as [|name rest IH]; intros i acc r Hn Hnd HP H.
  - simpl in H. injection H as <-. auto.
  - simpl in H. apply Forall_cons in Hn as [Hname Hrest].
    destruct (Js.getProp rawEntity (fieldKeyOf i)) as [slot| |];
      simpl in H; try discriminate H.
    destruct (Js.truthy slot); [|exact (IH _ _ _ Hrest Hnd HP H)].
    destruct (Js.getProp slot "$") as [value| |]; simpl in H;
      try discriminate H.
    destruct (Js.toString name) as [key| |] eqn:Ek; simpl in H;
      try discriminate H.
    destruct (setProp_chaves P acc key value (Hname key eq_refl) Hnd HP)
      as [Hnd' HP'].
    exact (IH _ _ _ Hrest Hnd' HP' H).
Qed.



End MapperShape.

(** X1 (analise-service.ts, [mapearEntidades]): whenever the mapper returns
    on a collection that has an entity, whatever the shape of the slots, it
    returns one record for each element when [entity] is an array, and
    exactly one record when [entity] is anything else: a single entity is
    taken as a list of one. *)
Theorem mapearEntidades_one_record_per_entity (entities : JsValue)
    (l : list Registro) :
  Js.truthy entities && Js.truthy (Js.getOwn entities "entity") = true ->
  mapearEntidades entities = Retorna l ->
  match Js.getOwn entities "entity" with
  | JArr rawEntities => length l = length rawEntities
  | _ => length l = 1%nat
  end.
Proof.
  intros Hpresent Hl.
  destruct (mapearEntidades_inv _ _ Hl) as [[Habs _]|[_ Hall]].
  - congruence.
  - apply Forall2_length in Hall.
    destruct (Js.getOwn entities "entity"); simpl in Hall; congruence.
Qed.

Lemma mapearEntidades_one_record_per_entity_witness :
  (exists l, mapearEntidades Exemplos.colecaoUnica = Retorna l
             /\ length l = 1%nat)
  /\ (exists l, mapearEntidades Exemplos.colecaoLeads = Retorna l
                /\ length l = 2%nat).
Proof.
  split; eexists; (split; [reflexivity|]).
  - apply (mapearEntidades_one_record_per_entity Exemplos.colecaoUnica);
      reflexivity.
  - apply (mapearEntidades_one_record_per_entity Exemplos.colecaoLeads);
      reflexivity.
Defined.

(** X2 (analise-service.ts, [mapearEntidades]): in every record the mapper
    returns, no property name occurs twice and every property name is the
    text of the [name] of one of the field descriptors of the metadata. *)
Theorem mapearEntidades_keys_are_field_names (entities : JsValue)
    (l : list Registro) (r : Registro) :
  mapearEntidades entities = Retorna l -> r ∈ l ->
  NoDup (chaves r)
  /\ forall k, k ∈ chaves r ->
       exists f, f ∈ camposDe entities
                 /\ Js.toString (Js.getOwn f "name") = Retorna k.
Proof.
  intros Hl Hr.
  destruct (mapearEntidades_inv _ _ Hl) as [[_ ->]|[_ Hall]].
  { inversion Hr. }
  apply list_elem_of_lookup in Hr as [j Hj].
  destruct (Forall2_lookup_r _ _ _ _ _ Hall Hj) as (rawEntity & _ & Hrun).
  pose (P := fun k : string =>
               exists f, f ∈ camposDe entities
                         /\ Js.toString (Js.getOwn f "name") = Retorna k).
  destruct (forFields_chaves rawEntity P
              (List.map (fun f => Js.getOwn f "name") (camposDe entities))
              0%nat Js.objetoVazio r) as (Hnd & HP);
    try exact Hrun.
  - apply Forall_forall. intros name Hname k Hk.
    apply list_elem_of_fmap in Hname as (f & -> & Hf). exists f. auto.
  - constructor.
  - constructor.
  - split; [exact Hnd|]. intros k Hk.
    rewrite Forall_forall in HP. exact (HP k Hk).
Qed.

Lemma mapearEntidades_keys_are_field_names_witness :
  NoDup (chaves (Js.objeto [("NOME", JStr "b")]))
  /\ forall k, k ∈ chaves (Js.objeto [("NOME", JStr "b")]) ->
       exists f, f ∈ camposDe Exemplos.colecaoNomesRepetidos
                 /\ Js.toString (Js.getOwn f "name") = Retorna k.
Proof.
  apply (mapearEntidades_keys_are_field_names
           Exemplos.colecaoNomesRepetidos
           [Js.objeto [("NOME", JStr "b")]]).
  - reflexivity.
  - left.
Defined.



(** A column named [__proto__] whose value is [null], then a second one: the
    first takes the prototype away, so the second finds no setter and gives
    the record an own property of that name. *)
Example mapearEntidades_own_proto :
  mapearEntidades
    (JObj [("metadata", Exemplos.metadataDe ["__proto__"; "__proto__"]);
           ("entity", JObj [("f0", Exemplos.slot JNull);
                            ("f1", Exemplos.slot (JStr "x"))])])
  = Retorna [{| proprias := [("__proto__", JStr "x")];
                prototipo := ProtoNull |}].
Proof. vm_compute. reflexivity. Qed.

(** A column named [__proto__] whose value is an object makes that object
    the prototype of the record, and reading [CODLEAD] of the record finds
    it there. *)
Example mapearEntidades_inherited_codlead :
  (leads <~ mapearEntidades
       (JObj [("metadata", Exemplos.metadataDe ["__proto__"]);
              ("entity",
               JObj [("f0", Exemplos.slot (JObj [("CODLEAD", JStr "99")]))])]) ;;
   codLeadsStrOf leads)
  = Retorna "99".
Proof. vm_compute. reflexivity. Qed.

(* ===================================================================== *)
(** * The two date formatters *)
(* ===================================================================== *)

Section DateFacts.

Lemma prefix_String a p c s :
  String.prefix (String a p) (String c s)
  = if Ascii.eqb a c then String.prefix p s else false.
Proof.
  simpl. destruct (Ascii.ascii_dec a c) as [->|N].
  - rewrite Ascii.eqb_refl. reflexivity.
  - apply Ascii.eqb_neq in N. rewrite N. reflexivity.
Qed.

Lemma prefix_vazio s : String.prefix "" s = true.
Proof. destruct s; reflexivity. Qed.

(** [includes] of one character. *)
Lemma contains_char c s : contains (String c "") s = temChar c s.
Proof.
  induction s as [|a s IH]; [reflexivity|].
  cbn [contains temChar]. rewrite prefix_String, prefix_vazio, IH.
  destruct (Ascii.eqb c a); reflexivity.
Qed.

Lemma split_sem_separador sep s :
  temChar sep s = false -> Js.split sep s = [s].
Proof.
  induction s as [|c s IH]; [reflexivity|].
  cbn [temChar Js.split]. intros H.
  apply orb_false_iff in H as [Hc Hs].
  rewrite Ascii.eqb_sym, Hc, (IH Hs). reflexivity.
Qed.

Lemma split_append sep a b :
  temChar sep a = false ->
  Js.split sep (a +:+ String sep b) = a :: Js.split sep b.
Proof.
  induction a as [|c a IH].
  - intros _. change ("" +:+ String sep b) with (String sep b).
    cbn [Js.split]. rewrite Ascii.eqb_refl. reflexivity.
  - cbn [temChar]. intros H. apply orb_false_iff in H as [Hc Ha].
    rewrite append_String. cbn [Js.split].
    rewrite Ascii.eqb_sym, Hc, (IH Ha). reflexivity.
Qed.

Lemma contains_no_meio sub a b : contains sub (a +:+ sub +:+ b) = true.
Proof.
  apply contains_append_r.
  assert (H : String.prefix sub (sub +:+ b) = true).
  { induction sub as [|c sub IH]; [destruct b; reflexivity|].
    rewrite append_String. simpl.
    destruct (Ascii.ascii_dec c c); [exact IH | contradiction]. }
  remember (sub +:+ b) as t eqn:Et. clear Et.
  destruct t; cbn [contains]; rewrite H; reflexivity.
Qed.

Lemma contains_truthy sub s :
  sub <> "" -> contains sub s = true -> Js.truthy (JStr s) = true.
Proof.
  intros Hsub H. destruct s; [|reflexivity].
  destruct sub; [contradiction | discriminate H].
Qed.

(** The table shows a text with a slash as it is. *)
Lemma formatarData_com_barra s :
  contains "/" s = true -> PedidosTable.formatarData s = s.
Proof.
  intros H. unfold PedidosTable.formatarData.
  rewrite (contains_truthy "/" s ltac:(discriminate) H), H. reflexivity.
Qed.

Lemma isDigit_nao_hifen c : isDigit c = true -> Ascii.eqb "-" c = false.
Proof.
  intros H. destruct (Ascii.eqb_spec "-" c) as [<-|]; [|reflexivity].
  vm_compute in H. discriminate H.
Qed.

Lemma isDigit_nao_barra c : isDigit c = true -> Ascii.eqb "/" c = false.
Proof.
  intros H. destruct (Ascii.eqb_spec "/" c) as [<-|]; [|reflexivity].
  vm_compute in H. discriminate H.
Qed.

End DateFacts.

Section DateParts.

(** Three parts joined by hyphens come back in reverse order, joined by
    slashes; a fourth part is dropped. *)
Lemma formatarDataParaSankhya_partes ano mes dia :
  temChar "-" ano = false -> temChar "-" mes = false ->
  temChar "-" dia = false ->
  formatarDataParaSankhya (ano +:+ "-" +:+ mes +:+ "-" +:+ dia)
  = dia +:+ "/" +:+ mes +:+ "/" +:+ ano
  /\ forall resto,
       formatarDataParaSankhya
         (ano +:+ "-" +:+ mes +:+ "-" +:+ dia +:+ "-" +:+ resto)
       = dia +:+ "/" +:+ mes +:+ "/" +:+ ano.
Proof.
  intros Ha Hm Hd. unfold formatarDataParaSankhya. split; [|intros resto].
  - change (ano +:+ "-" +:+ mes +:+ "-" +:+ dia)
      with (ano +:+ String "-" (mes +:+ String "-" dia)).
    rewrite (split_append "-" ano _ Ha), (split_append "-" mes _ Hm),
      (split_sem_separador "-" dia Hd).
    reflexivity.
  - change (ano +:+ "-" +:+ mes +:+ "-" +:+ dia +:+ "-" +:+ resto)
      with (ano +:+ String "-" (mes +:+ String "-" (dia +:+ String "-" resto))).
    rewrite (split_append "-" ano _ Ha), (split_append "-" mes _ Hm),
      (split_append "-" dia _ Hd).
    reflexivity.
Qed.

End DateParts.

(** X4 (analise-service.ts, [formatarDataParaSankhya]): a text of three
    parts joined by hyphens, [ano-mes-dia], the parts free of hyphens but
    otherwise arbitrary (empty, not numeric, of any length), becomes
    [dia/mes/ano]; anything from a third hyphen on is dropped. *)
Theorem formatarDataParaSankhya_swaps_the_parts (ano mes dia : string) :
  temChar "-" ano = false -> temChar "-" mes = false ->
  temChar "-" dia = false ->
  formatarDataParaSankhya (ano +:+ "-" +:+ mes +:+ "-" +:+ dia)
  = dia +:+ "/" +:+ mes +:+ "/" +:+ ano
  /\ forall resto,
       formatarDataParaSankhya
         (ano +:+ "-" +:+ mes +:+ "-" +:+ dia +:+ "-" +:+ resto)
       = dia +:+ "/" +:+ mes +:+ "/" +:+ ano.
Proof. apply formatarDataParaSankhya_partes. Qed.

Lemma formatarDataParaSankhya_swaps_the_parts_witness :
  formatarDataParaSankhya ("2024" +:+ "-" +:+ "1" +:+ "-" +:+ "")
  = "" +:+ "/" +:+ "1" +:+ "/" +:+ "2024"
  /\ forall resto,
       formatarDataParaSankhya
         ("2024" +:+ "-" +:+ "1" +:+ "-" +:+ "" +:+ "-" +:+ resto)
       = "" +:+ "/" +:+ "1" +:+ "/" +:+ "2024".
Proof.
  apply (formatarDataParaSankhya_swaps_the_parts "2024" "1" "");
    reflexivity.
Defined.

(** X5 (analise-service.ts, [formatarDataParaSankhya]): the formatter
    checks nothing and never throws: a text without a hyphen comes back as
    [undefined/undefined/] followed by the text, and a text of two parts
    [ano-mes] as [undefined/mes/ano]. *)
Theorem formatarDataParaSankhya_prints_undefined (a b : string) :
  temChar "-" a = false -> temChar "-" b = false ->
  formatarDataParaSankhya a = "undefined/undefined/" +:+ a
  /\ formatarDataParaSankhya (a +:+ "-" +:+ b)
     = "undefined/" +:+ b +:+ "/" +:+ a.
Proof.
  intros Ha Hb. unfold formatarDataParaSankhya. split.
  - rewrite (split_sem_separador "-" a Ha). reflexivity.
  - change (a +:+ "-" +:+ b) with (a +:+ String "-" b).
    rewrite (split_append "-" a _ Ha), (split_sem_separador "-" b Hb).
    reflexivity.
Qed.

Lemma formatarDataParaSankhya_prints_undefined_witness :
  formatarDataParaSankhya "31/01/2024" = "undefined/undefined/" +:+ "31/01/2024"
  /\ formatarDataParaSankhya ("31/01/2024" +:+ "-" +:+ "")
     = "undefined/" +:+ "" +:+ "/" +:+ "31/01/2024".
Proof.
  apply (formatarDataParaSankhya_prints_undefined "31/01/2024" "");
    reflexivity.
Defined.

(** X6 (part_000, [formatarData] of the orders table): whatever the text,
    what the table shows contains a slash, and formatting it again changes
    nothing; so does formatting what the service's formatter returned. *)
Theorem formatarData_is_idempotent (data : string) :
  contains "/" (PedidosTable.formatarData data) = true
  /\ PedidosTable.formatarData (PedidosTable.formatarData data)
     = PedidosTable.formatarData data
  /\ PedidosTable.formatarData (formatarDataParaSankhya data)
     = formatarDataParaSankhya data.
Proof.
  assert (H : contains "/" (PedidosTable.formatarData data) = true).
  { unfold PedidosTable.formatarData.
    destruct (Js.truthy (JStr data)); simpl; [|reflexivity].
    destruct (contains "/" data) eqn:E; [exact E|].
    apply contains_no_meio. }
  split; [exact H|]. split.
  - apply formatarData_com_barra. exact H.
  - apply formatarData_com_barra. unfold formatarDataParaSankhya.
    apply contains_no_meio.
Qed.

(** X7 (part_000 [formatarData] and analise-service.ts
    [formatarDataParaSankhya]): on a date [YYYY-MM-DD] the two formatters
    agree, and give [DD/MM/YYYY]: the last two characters, a slash,
    characters 5 and 6, a slash, the first four characters. *)
Theorem formatters_agree_on_iso_dates (data : string) :
  dataISO data = true ->
  formatarDataParaSankhya data
  = substring 8 2 data +:+ "/" +:+ substring 5 2 data +:+ "/"
    +:+ substring 0 4 data
  /\ PedidosTable.formatarData data = formatarDataParaSankhya data.
Proof.
  unfold dataISO. intros H.
  destruct data as [|y1 [|y2 [|y3 [|y4 [|h1 [|m1 [|m2 [|h2 [|d1 [|d2 [|x r]]]]]]]]]]];
    cbn [temForma] in H; try discriminate H;
    try (rewrite ?andb_false_r in H; discriminate H).
  repeat (apply andb_true_iff in H as [? H]).
  repeat match goal with
         | E : Ascii.eqb _ "-" = true |- _ => apply Ascii.eqb_eq in E; subst
         end.
  pose proof (formatarDataParaSankhya_partes
                (String y1 (String y2 (String y3 (String y4 ""))))
                (String m1 (String m2 ""))
                (String d1 (String d2 ""))) as Hf.
  cbn [temChar] in Hf.
  rewrite !isDigit_nao_hifen in Hf by assumption.
  destruct (Hf eq_refl eq_refl eq_refl) as [Hfmt _].
  split; [exact Hfmt|].
  unfold PedidosTable.formatarData. cbn [Js.truthy String.eqb negb].
  change (contains "/") with (contains (String "/" "")).
  rewrite contains_char. cbn [temChar].
  change (Ascii.eqb "/" "-") with false.
  rewrite !isDigit_nao_barra by assumption. reflexivity.
Qed.

Lemma formatters_agree_on_iso_dates_witness :
  formatarDataParaSankhya "2024-01-31"
  = substring 8 2 "2024-01-31" +:+ "/" +:+ substring 5 2 "2024-01-31" +:+ "/"
    +:+ substring 0 4 "2024-01-31"
  /\ PedidosTable.formatarData "2024-01-31"
     = formatarDataParaSankhya "2024-01-31".
Proof.
  apply (formatters_agree_on_iso_dates "2024-01-31"). reflexivity.
Defined.

(* ===================================================================== *)
(** * The code fences around the reply of the model *)
(* ===================================================================== *)

Section FenceFacts.

Lemma replaceAll_keep pat c rest :
  String.prefix pat (String c rest) = false ->
  AnaliseRoute.replaceAll pat 0 (String c rest)
  = String c (AnaliseRoute.replaceAll pat 0 rest).
Proof. intros H. cbn [AnaliseRoute.replaceAll]. rewrite H. reflexivity. Qed.

(** Where no fence starts, none starts after the replacement. *)
Lemma replaceAll_sem_cerca_no_inicio s :
  String.prefix "```" s = false ->
  String.prefix "```" (AnaliseRoute.replaceAll "```" 0 s) = false.
Proof.
  intros H.
  destruct s as [|c1 s1]; [reflexivity|].
  rewrite (replaceAll_keep _ _ _ H).
  rewrite prefix_String in H |- *.
  destruct (Ascii.eqb_spec "`" c1) as [<-|_]; [|reflexivity].
  destruct s1 as [|c2 s2]; [reflexivity|].
  rewrite prefix_String in H.
  assert (H1 : String.prefix "```" (String c2 s2) = false).
  { rewrite prefix_String.
    destruct (Ascii.eqb_spec "`" c2) as [<-|_]; [|reflexivity].
    destruct s2 as [|c3 s3]; [reflexivity|].
    rewrite prefix_String in H |- *.
    destruct (Ascii.eqb "`" c3); [|reflexivity].
    rewrite prefix_vazio in H. discriminate H. }
  rewrite (replaceAll_keep _ _ _ H1), prefix_String.
  destruct (Ascii.eqb_spec "`" c2) as [<-|_]; [|reflexivity].
  destruct s2 as [|c3 s3]; [reflexivity|].
  rewrite prefix_String in H.
  assert (H2 : String.prefix "```" (String c3 s3) = false).
  { rewrite prefix_String. destruct (Ascii.eqb "`" c3); [|reflexivity].
    rewrite prefix_vazio in H. discriminate H. }
  rewrite (replaceAll_keep _ _ _ H2), prefix_String.
  destruct (Ascii.eqb "`" c3); [|reflexivity].
  rewrite prefix_vazio in H. discriminate H.
Qed.

(** One pass of [replace(/```\n?/g, '')] leaves no fence, wherever the
    reading starts. *)
Lemma replaceAll_sem_cerca s :
  forall skip, contains "```" (AnaliseRoute.replaceAll "```" skip s) = false.
Proof.
  induction s as [|c rest IH]; intros skip; [reflexivity|].
  destruct skip as [|k]; [|exact (IH k)].
  destruct (String.prefix "```" (String c rest)) eqn:E.
  - cbn [AnaliseRoute.replaceAll]. rewrite E. apply IH.
  - pose proof (replaceAll_sem_cerca_no_inicio _ E) as Hp.
    rewrite (replaceAll_keep _ _ _ E) in Hp |- *.
    cbn [contains]. rewrite Hp, (IH 0%nat). reflexivity.
Qed.

Lemma contains_prefix sub s :
  contains sub s = false -> String.prefix sub s = false.
Proof.
  destruct s; cbn [contains]; intros H;
    apply orb_false_iff in H as [H _]; exact H.
Qed.

Lemma prefix_json_cerca s :
  String.prefix "```" s = false -> String.prefix "```json" s = false.
Proof.
  destruct s as [|c1 [|c2 [|c3 s]]]; try reflexivity;
    rewrite !prefix_String; try reflexivity;
    destruct (Ascii.eqb "`" c1); try reflexivity;
    destruct (Ascii.eqb "`" c2); try reflexivity.
  destruct (Ascii.eqb "`" c3); [|reflexivity].
  rewrite prefix_vazio. discriminate.
Qed.

(** A text that does not start with a fence is not touched. *)
Lemma limparCercas_sem_cerca_no_inicio s :
  String.prefix "```" s = false -> AnaliseRoute.limparCercas s = s.
Proof.
  intros H. unfold AnaliseRoute.limparCercas.
  rewrite (prefix_json_cerca _ H), H. reflexivity.
Qed.

End FenceFacts.

(** X8 (gemini/analise/route.ts, the cleaning of the reply before
    [JSON.parse]): the cleaned text contains a code fence exactly when the
    reply did not start with one and contains one further on: a reply that
    starts with a fence loses every fence, also one inside the JSON, and a
    reply with text before its first fence keeps them all.  Cleaning a
    cleaned text changes nothing. *)
Theorem limparCercas_removes_every_fence (jsonText : string) :
  contains "```" (AnaliseRoute.limparCercas jsonText)
  = negb (String.prefix "```" jsonText) && contains "```" jsonText
  /\ AnaliseRoute.limparCercas (AnaliseRoute.limparCercas jsonText)
     = AnaliseRoute.limparCercas jsonText.
Proof.
  destruct (String.prefix "```" jsonText) eqn:E.
  - assert (H : contains "```" (AnaliseRoute.limparCercas jsonText) = false).
    { unfold AnaliseRoute.limparCercas. rewrite E.
      destruct (String.prefix "```json" jsonText);
        apply replaceAll_sem_cerca. }
    split; [exact H|].
    apply limparCercas_sem_cerca_no_inicio, contains_prefix, H.
  - rewrite !(limparCercas_sem_cerca_no_inicio _ E). auto.
Qed.

(* ===================================================================== *)
(** * Further properties of the token manager and the request executor *)
(* ===================================================================== *)

Section TokenRoundTrip.

Variable w : Mundo.

Lemma tokenDe_truthy ans token :
  ObterToken.tokenDe ans = Retorna token -> Js.truthy token = true.
Proof.
  destruct ans as [e|data]; simpl; [discriminate|].
  unfold ObterToken.tokenOf, Js.getProp.
  destruct (Js.nullish data); simpl; [discriminate|].
  destruct (Js.truthy (Js.getOwn data "bearerToken")) eqn:Eb; simpl.
  - rewrite Eb. simpl. intros H. injection H as <-. exact Eb.
  - destruct (Js.truthy (Js.getOwn data "token")) eqn:Et; simpl;
      [|discriminate].
    intros H. injection H as <-. exact Et.
Qed.

(** With a token in the cache a call is answered from the cache. *)
Lemma obterToken_cached rc s :
  Js.truthy (cachedToken s) = true ->
  obterToken w rc s = (Retorna (cachedToken s), s).
Proof. intros H. unfold obterToken. simpl. rewrite H. reflexivity. Qed.

(** How a call ends, by what it returns. *)
Lemma obterToken_inv rc s r s' :
  obterToken w rc s = (r, s') ->
  match r with
  | Retorna token => Js.truthy token = true /\ cachedToken s' = token
  | Lanca e =>
      Js.truthy (cachedToken s) = false /\ cachedToken s' = JNull
      /\ nConsulta s' = nConsulta s
      /\ exists erro, e = ObterToken.falha erro
  | SemCombustivel => False
  end.
Proof.
  destruct (Js.truthy (cachedToken s)) eqn:Hc.
  - rewrite (obterToken_cached rc s Hc). intros H. injection H as <- <-.
    auto.
  - unfold obterToken.
    destruct (obterToken_rec_trace w (S (ObterToken.MAX_RETRIES - rc)) rc s
                Hc ltac:(lia))
      as (j & s1 & _ & _ & _ & _ & Hq & Hend).
    destruct (ObterToken.tokenDe (login_at w (nLogin s + j)))
      as [token|e|] eqn:E; [| |contradiction].
    + destruct Hend as [-> Ht]. intros H. injection H as <- <-.
      split; [exact (tokenDe_truthy _ _ E) | exact Ht].
    + destruct Hend as (-> & Ht & _). intros H. injection H as <- <-.
      eauto.
Qed.

Lemma conta_logins rc j :
  conta ehLogin (loginsComEspera rc j ++ [EvLogin]) = S j.
Proof.
  revert rc. induction j as [|j IH]; intros rc; [reflexivity|].
  rewrite loginsComEspera_S, <- app_assoc, conta_app, IH. reflexivity.
Qed.

Lemma tempoDeEspera_app evs evs' :
  tempoDeEspera (evs ++ evs') = tempoDeEspera evs + tempoDeEspera evs'.
Proof.
  induction evs as [|[| |ms] evs IH]; simpl; lia.
Qed.

Lemma tempoDeEspera_logins rc j :
  (j <= ObterToken.MAX_RETRIES - rc)%nat ->
  0 <= tempoDeEspera (loginsComEspera rc j ++ [EvLogin]) <= 12000.
Proof.
  unfold ObterToken.MAX_RETRIES. intros H.
  destruct j as [|j]; [vm_compute; split; discriminate|].
  destruct rc as [|[|[|rc]]]; [| | |lia];
    destruct j as [|[|[|j]]]; try lia;
    vm_compute; split; discriminate.
Qed.

Lemma tempoDeEspera_token evs :
  Forall eventoDeToken evs -> 0 <= tempoDeEspera evs.
Proof.
  induction 1 as [|[| |ms] evs Hev _ IH]; simpl in *;
    unfold ObterToken.RETRY_DELAY in *; lia.
Qed.

(** The cost of one call: login requests and backoff. *)
Lemma obterToken_custo rc s :
  exists evs,
    log (obterToken w rc s).2 = log s ++ evs
    /\ (conta ehLogin evs <= S (ObterToken.MAX_RETRIES - rc))%nat
    /\ conta ehConsulta evs = 0%nat
    /\ 0 <= tempoDeEspera evs <= 12000.
Proof.
  destruct (Js.truthy (cachedToken s)) eqn:Hc.
  - rewrite (obterToken_cached rc s Hc). exists [].
    simpl. rewrite app_nil_r. unfold conta. simpl.
    repeat split; try lia.
  - unfold obterToken.
    destruct (obterToken_rec_trace w
                (S (ObterToken.MAX_RETRIES - rc)) rc s
                Hc ltac:(lia))
      as (j & s1 & Hj & _ & (Hlog & _) & _ & _ & Hend).
    exists (loginsComEspera rc j ++ [EvLogin]).
    assert (Hs1 : (obterToken_rec w (S (ObterToken.MAX_RETRIES - rc))
                     rc s).2 = s1).
    { destruct (ObterToken.tokenDe (login_at w (nLogin s + j)));
        [destruct Hend as [-> _] | destruct Hend as (-> & _)
        | contradiction]; reflexivity. }
    rewrite Hs1. split; [exact Hlog|].
    split; [rewrite conta_logins; lia|].
    split; [apply conta_token_consulta, loginsComEspera_token|].
    apply tempoDeEspera_logins. exact Hj.
Qed.

End TokenRoundTrip.

(** X9 (analise-service.ts, [obterToken]): a token that a call returns is
    truthy and is the one left in [cachedToken]; from then on every call,
    whatever its retry count, returns that same token and does nothing else:
    no request, no pause, no change of state. *)
Theorem obterToken_serves_the_cached_token (w : Mundo) (retryCount : nat)
    (s s' : Estado) (token : JsValue) :
  obterToken w retryCount s = (Retorna token, s') ->
  Js.truthy token = true
  /\ cachedToken s' = token
  /\ forall retryCount', obterToken w retryCount' s' = (Retorna token, s').
Proof.
  intros H. destruct (obterToken_inv w _ _ _ _ H) as [Ht Hc].
  split; [exact Ht|]. split; [exact Hc|].
  intros rc'. rewrite <- Hc. apply obterToken_cached.
  rewrite Hc. exact Ht.
Qed.

Lemma obterToken_serves_the_cached_token_witness :
  Js.truthy (JStr "T0") = true
  /\ cachedToken (comToken (JStr "T0") (aposLogin Exemplos.estadoInicial))
     = JStr "T0"
  /\ forall retryCount',
       obterToken Exemplos.mundoConsultaLenta retryCount'
         (comToken (JStr "T0") (aposLogin Exemplos.estadoInicial))
       = (Retorna (JStr "T0"),
          comToken (JStr "T0") (aposLogin Exemplos.estadoInicial)).
Proof.
  apply (obterToken_serves_the_cached_token Exemplos.mundoConsultaLenta 0
           Exemplos.estadoInicial).
  vm_compute. reflexivity.
Defined.

(** X10 (analise-service.ts, [obterToken]): one call, whatever the identity
    provider answers and whatever the retry count it is entered with, sends
    at most [MAX_RETRIES - retryCount + 1] login requests (four from a first
    call), no query request, and spends at most twelve seconds in backoff
    pauses. *)
Theorem obterToken_cost_is_bounded (w : Mundo) (retryCount : nat)
    (s : Estado) :
  exists evs,
    log (obterToken w retryCount s).2 = log s ++ evs
    /\ (conta ehLogin evs <= S (ObterToken.MAX_RETRIES - retryCount))%nat
    /\ conta ehConsulta evs = 0%nat
    /\ 0 <= tempoDeEspera evs <= 12000.
Proof. apply obterToken_custo. Qed.

Section ExecutorFacts.

Variable w : Mundo.

(** An attempt whose token acquisition fails ends there. *)
Lemma attempt_sem_token url data s e s1 :
  obterToken w 0 s = (Lanca e, s1) ->
  attempt w url data s = (Lanca e, s1).
Proof. intros H. unfold attempt, bindM. rewrite H. reflexivity. Qed.

(** The cost of an attempt. *)
Lemma attempt_custo url data s :
  exists evs,
    log (attempt w url data s).2 = log s ++ evs
    /\ (conta ehLogin evs <= 4)%nat
    /\ 0 <= tempoDeEspera evs <= 12000.
Proof.
  destruct (obterToken_custo w 0 s) as (evs & Hlog & Hl & _ & Ht).
  unfold attempt, bindM.
  simpl in Hl.
  destruct (obterToken w 0 s) as [[token|e|] s1]; simpl in Hlog;
    try solve [exists evs; simpl; auto].
  unfold liftR.
  destruct (Js.toString token) as [text|e|];
    try solve [exists evs; simpl; auto].
  exists (evs ++ [EvConsulta url ("Bearer " +:+ text) data]).
  simpl. rewrite Hlog, <- app_assoc, conta_app, tempoDeEspera_app.
  unfold conta at 2. simpl. split; [reflexivity|]. lia.
Qed.

(** An attempt that returns has sent one query with the token of the cache
    and returns the answer to it. *)
Lemma attempt_inv url data s v s' :
  attempt w url data s = (Retorna v, s') ->
  exists text s1,
    Js.truthy (cachedToken s1) = true
    /\ Js.toString (cachedToken s1) = Retorna text
    /\ s' = aposConsulta url ("Bearer " +:+ text) data s1
    /\ consulta_at w (nConsulta s1) url ("Bearer " +:+ text) data = inr v
    /\ exists evs0, log s1 = log s ++ evs0.
Proof.
  unfold attempt, bindM.
  destruct (obterToken_custo w 0 s) as (evs0 & Hlog & _).
  destruct (obterToken w 0 s) as [[token|e|] s1] eqn:E; try discriminate.
  destruct (obterToken_inv w _ _ _ _ E) as [Ht Hc].
  unfold liftR.
  destruct (Js.toString token) as [text|e|] eqn:Et; try discriminate.
  unfold axiosRequest, ofAnswer.
  destruct (consulta_at w (nConsulta s1) url ("Bearer " +:+ text) data)
    as [e|v'] eqn:Ec; try discriminate.
  intros H. injection H as <- <-.
  exists text, s1. rewrite Hc. eauto 10.
Qed.

Lemma fazerRequisicaoAutenticada_rec_inv fuel url data :
  forall rc s v s',
    fazerRequisicaoAutenticada_rec w fuel url data rc s = (Retorna v, s') ->
    exists text s1,
      Js.truthy (cachedToken s1) = true
      /\ Js.toString (cachedToken s1) = Retorna text
      /\ s' = aposConsulta url ("Bearer " +:+ text) data s1
      /\ consulta_at w (nConsulta s1) url ("Bearer " +:+ text) data = inr v
      /\ exists evs0, log s1 = log s ++ evs0.
Proof.
  induction fuel as [|fuel IH]; intros rc s v s' H; [discriminate H|].
  rewrite fazerRequisicaoAutenticada_rec_step in H.
  destruct (attempt_custo url data s) as (evs1 & Hlog1 & _).
  assert (Hnext : forall sx ev,
             log sx = log s ++ evs1 ->
             fazerRequisicaoAutenticada_rec w fuel url data (rc + 1)
               (emit ev sx) = (Retorna v, s') ->
             exists text s1,
               Js.truthy (cachedToken s1) = true
               /\ Js.toString (cachedToken s1) = Retorna text
               /\ s' = aposConsulta url ("Bearer " +:+ text) data s1
               /\ consulta_at w (nConsulta s1) url ("Bearer " +:+ text) data
                  = inr v
               /\ exists evs0, log s1 = log s ++ evs0).
  { intros sx ev Hsx Hrun.
    destruct (IH _ _ _ _ Hrun) as (text & s2 & Ht & Hs & Hs' & Hv & evs2 & H2).
    exists text, s2. repeat (split; [assumption|]).
    exists ((evs1 ++ [ev]) ++ evs2). rewrite H2. simpl.
    rewrite Hsx, <- !app_assoc. reflexivity. }
  destruct (attempt w url data s) as [[v1|e|] s1] eqn:Ea;
    try discriminate H.
  - injection H as <- <-. exact (attempt_inv _ _ _ _ _ Ea).
  - simpl in Hlog1. destruct (Requisicao.authExpired e).
    + destruct (rc <? 1)%nat; [|discriminate H].
      exact (Hnext (comToken JNull s1) _ Hlog1 H).
    + destruct (Requisicao.transient e
                && (rc <? Requisicao.MAX_RETRIES)%nat);
        [|discriminate H].
      exact (Hnext s1 _ Hlog1 H).
Qed.

(** The cost of a call of the executor, by the budget and the retry count. *)
Lemma fazerRequisicaoAutenticada_rec_custo fuel url data :
  forall rc s,
    exists evs,
      log (fazerRequisicaoAutenticada_rec w fuel url data rc s).2
      = log s ++ evs
      /\ (conta ehLogin evs <= 4 * fuel)%nat
      /\ 0 <= tempoDeEspera evs
          <= 12000 * Z.of_nat fuel + pausasDoExecutor rc.
Proof.
  induction fuel as [|fuel IH]; intros rc s.
  { exists []. simpl. rewrite app_nil_r. unfold conta. simpl.
    split; [reflexivity|]. split; [lia|].
    unfold pausasDoExecutor. destruct rc as [|[|rc]]; lia. }
  rewrite fazerRequisicaoAutenticada_rec_step.
  destruct (attempt_custo url data s) as (evs1 & Hlog1 & Hl1 & Ht1).
  assert (Hp : 0 <= pausasDoExecutor rc).
  { unfold pausasDoExecutor. destruct rc as [|[|rc]]; lia. }
  assert (Hretry : forall ms sx,
             log sx = log s ++ evs1 ->
             (rc < Requisicao.MAX_RETRIES)%nat ->
             0 <= ms <= Requisicao.RETRY_DELAY * Z.of_nat (rc + 1) ->
             exists evs,
               log (fazerRequisicaoAutenticada_rec w fuel url data (rc + 1)
                      (emit (EvEspera ms) sx)).2 = log s ++ evs
               /\ (conta ehLogin evs <= 4 * S fuel)%nat
               /\ 0 <= tempoDeEspera evs
                   <= 12000 * Z.of_nat (S fuel) + pausasDoExecutor rc).
  { intros ms sx Hsx Hrc Hms.
    destruct (IH (rc + 1)%nat (emit (EvEspera ms) sx))
      as (evs2 & Hlog2 & Hl2 & Ht2).
    exists (evs1 ++ [EvEspera ms] ++ evs2).
    rewrite Hlog2. simpl. rewrite Hsx, <- !app_assoc.
    split; [reflexivity|].
    rewrite !conta_app, !tempoDeEspera_app. unfold conta in *. simpl.
    split; [lia|].
    unfold Requisicao.MAX_RETRIES, Requisicao.RETRY_DELAY in *.
    unfold pausasDoExecutor in *.
    destruct rc as [|[|rc]]; simpl in *; lia. }
  destruct (attempt w url data s) as [[v|e|] s1]; simpl in Hlog1;
    try (exists evs1; simpl; split; [exact Hlog1|]; split; lia).
  destruct (Requisicao.authExpired e).
  - destruct (rc <? 1)%nat eqn:Erc.
    + apply Nat.ltb_lt in Erc.
      apply Hretry; [exact Hlog1 | unfold Requisicao.MAX_RETRIES; lia|].
      unfold Requisicao.RETRY_DELAY. lia.
    + exists evs1. simpl. split; [exact Hlog1|]. split; lia.
  - destruct (Requisicao.transient e
              && (rc <? Requisicao.MAX_RETRIES)%nat) eqn:Et.
    + apply andb_true_iff in Et as [_ Et]. apply Nat.ltb_lt in Et.
      apply Hretry; [exact Hlog1 | exact Et|].
      unfold Requisicao.RETRY_DELAY. lia.
    + exists evs1. simpl. split; [exact Hlog1|]. split; lia.
Qed.

End ExecutorFacts.

(** X11 (analise-service.ts, [fazerRequisicaoAutenticada] on a failing
    [obterToken]): when the token cannot be acquired, the executor, whatever
    its retry count, sends no query and makes no retry of its own: it ends
    in the state the acquisition left (token cleared) and throws the
    acquisition's error as it is, a [Falha na autenticação Sankhya] error,
    also when the cause was a timeout. *)
Theorem executor_rethrows_login_failure (w : Mundo) (url : string)
    (data : Payload) (retryCount : nat) (s s1 : Estado) (e : Erro) :
  obterToken w 0 s = (Lanca e, s1) ->
  fazerRequisicaoAutenticada w url data retryCount s = (Lanca e, s1)
  /\ nConsulta s1 = nConsulta s
  /\ cachedToken s1 = JNull
  /\ exists erro, e = ObterToken.falha erro.
Proof.
  intros H.
  destruct (obterToken_inv w _ _ _ _ H) as (_ & Hc & Hq & erro & ->).
  split; [|eauto].
  unfold fazerRequisicaoAutenticada.
  rewrite fazerRequisicaoAutenticada_rec_step,
    (attempt_sem_token w url data _ _ _ H).
  reflexivity.
Qed.

Lemma executor_rethrows_login_failure_witness :
  exists e s1,
    fazerRequisicaoAutenticada Exemplos.mundoSemRede URL_CONSULTA_SERVICO
      funisPayload 0 Exemplos.estadoInicial = (Lanca e, s1)
    /\ nConsulta s1 = nConsulta Exemplos.estadoInicial
    /\ cachedToken s1 = JNull
    /\ exists erro, e = ObterToken.falha erro.
Proof.
  eexists _, _.
  apply (executor_rethrows_login_failure Exemplos.mundoSemRede
           URL_CONSULTA_SERVICO funisPayload 0 Exemplos.estadoInicial).
  vm_compute. reflexivity.
Defined.

(** X12 (analise-service.ts, [fazerRequisicaoAutenticada]): what a call
    returns is, unchanged, the answer to the last request it sent; that
    request is the last event of the run, a query for the given URL and
    payload whose [Authorization] header is [Bearer ] followed by the token
    that is in the cache when the call ends. *)
Theorem executor_returns_the_last_answer (w : Mundo) (url : string)
    (data : Payload) (retryCount : nat) (s s' : Estado) (v : JsValue) :
  fazerRequisicaoAutenticada w url data retryCount s = (Retorna v, s') ->
  exists text evs n,
    Js.truthy (cachedToken s') = true
    /\ Js.toString (cachedToken s') = Retorna text
    /\ log s' = evs ++ [EvConsulta url ("Bearer " +:+ text) data]
    /\ nConsulta s' = S n
    /\ consulta_at w n url ("Bearer " +:+ text) data = inr v.
Proof.
  intros H.
  destruct (fazerRequisicaoAutenticada_rec_inv w _ _ _ _ _ _ _ H)
    as (text & s1 & Ht & Hs & -> & Hv & _).
  exists text, (log s1), (nConsulta s1). simpl. auto.
Qed.

Lemma executor_returns_the_last_answer_witness :
  exists text evs n,
    Js.truthy (cachedToken
                 (aposConsulta URL_CONSULTA_SERVICO "Bearer T" funisPayload
                    Exemplos.estadoComToken)) = true
    /\ Js.toString (cachedToken
                      (aposConsulta URL_CONSULTA_SERVICO "Bearer T"
                         funisPayload Exemplos.estadoComToken))
       = Retorna text
    /\ log (aposConsulta URL_CONSULTA_SERVICO "Bearer T" funisPayload
              Exemplos.estadoComToken)
       = evs ++ [EvConsulta URL_CONSULTA_SERVICO ("Bearer " +:+ text)
                   funisPayload]
    /\ nConsulta (aposConsulta URL_CONSULTA_SERVICO "Bearer T" funisPayload
                    Exemplos.estadoComToken) = S n
    /\ consulta_at Casos.mundoSemDados n URL_CONSULTA_SERVICO
         ("Bearer " +:+ text) funisPayload = inr (JObj []).
Proof.
  apply (executor_returns_the_last_answer Casos.mundoSemDados
           URL_CONSULTA_SERVICO funisPayload 0 Exemplos.estadoComToken).
  reflexivity.
Defined.

(** X13 (analise-service.ts, [fazerRequisicaoAutenticada] with
    [obterToken]): one call of the executor, whatever the two servers
    answer, sends at most four login requests for each attempt it may still
    make and spends in pauses at most twelve seconds of login backoff for
    each such attempt plus the pauses between attempts; a call from a first
    attempt sends at most 12 login requests and pauses at most 39 seconds. *)
Theorem executor_cost_is_bounded (w : Mundo) (url : string)
    (data : Payload) (retryCount : nat) (s : Estado) :
  (exists evs,
     log (fazerRequisicaoAutenticada w url data retryCount s).2
     = log s ++ evs
     /\ (conta ehLogin evs
         <= 4 * S (Requisicao.MAX_RETRIES - retryCount))%nat
     /\ 0 <= tempoDeEspera evs
         <= 12000 * Z.of_nat (S (Requisicao.MAX_RETRIES - retryCount))
            + pausasDoExecutor retryCount)
  /\ (exists evs,
        log (fazerRequisicaoAutenticada w url data 0 s).2 = log s ++ evs
        /\ (conta ehLogin evs <= 12)%nat
        /\ 0 <= tempoDeEspera evs <= 39000).
Proof.
  split.
  - apply fazerRequisicaoAutenticada_rec_custo.
  - destruct (fazerRequisicaoAutenticada_rec_custo w
                (S (Requisicao.MAX_RETRIES - 0)) url data 0 s)
      as (evs & Hlog & Hl & Ht).
    exists evs. split; [exact Hlog|]. simpl in Hl, Ht. split; lia.
Qed.

(* ===================================================================== *)
(** * Further properties of the orchestrator *)
(* ===================================================================== *)

Section KeyFacts.

(** A character that is not a digit is none of the ten digits. *)
Lemma nao_digito c :
  isDigit c = false -> forall x, Ascii.eqb c (pretty_N_char x) = false.
Proof.
  intros Hc x.
  destruct (Ascii.eqb_spec c (pretty_N_char x)) as [E|_]; [|reflexivity].
  exfalso. subst c. unfold pretty_N_char in Hc.
  repeat case_match; discriminate Hc.
Qed.

Section SemCaractere.

Variable c : ascii.
Hypothesis Hdigito : isDigit c = false.

Lemma pretty_N_go_sem x :
  forall s, temChar c s = false -> temChar c (pretty_N_go x s) = false.
Proof.
  induction (N.lt_wf_0 x) as [x _ IH]. intros s Hs.
  destruct (N.eq_dec x 0%N) as [->|Hx].
  - rewrite pretty_N_go_0. exact Hs.
  - rewrite pretty_N_go_step by lia. apply IH.
    + apply N.div_lt; lia.
    + cbn [temChar]. rewrite (nao_digito c Hdigito), Hs. reflexivity.
Qed.

Lemma pretty_N_sem (x : N) : temChar c (pretty x) = false.
Proof.
  unfold pretty, pretty_N. destruct (decide (x = 0%N)).
  - cbn [temChar]. rewrite orb_false_r. exact (nao_digito c Hdigito 0%N).
  - apply pretty_N_go_sem. reflexivity.
Qed.

(** The decimal text of a natural number holds digits only. *)
Lemma pretty_Z_positivo_sem (z : Z) : 0 <= z -> temChar c (pretty z) = false.
Proof.
  destruct z as [|p|p]; intros Hz; [| |lia].
  - exact (pretty_N_sem 0%N).
  - exact (pretty_N_sem (N.pos p)).
Qed.

(** The decimal text of an integer holds digits and a sign only. *)
Lemma pretty_Z_sem (z : Z) :
  Ascii.eqb c "-" = false -> temChar c (pretty z) = false.
Proof.
  intros Hm. destruct z as [|p|p].
  - exact (pretty_N_sem 0%N).
  - exact (pretty_N_sem (N.pos p)).
  - change (pretty (Z.neg p)) with ("-" +:+ pretty (N.pos p)).
    rewrite temChar_append, pretty_N_sem. cbn [temChar].
    rewrite Hm. reflexivity.
Qed.

End SemCaractere.

Lemma append_inv_head p a b : p +:+ a = p +:+ b -> a = b.
Proof.
  induction p as [|c p IH]; [exact (fun H => H)|].
  rewrite !append_String. intros H. injection H as H. exact (IH H).
Qed.

(** Two texts cut at their first [c] are equal piece by piece. *)
Lemma append_sep_inj c a a' r r' :
  temChar c a = false -> temChar c a' = false ->
  a +:+ String c r = a' +:+ String c r' -> a = a' /\ r = r'.
Proof.
  revert a'. induction a as [|x a IH]; intros [|x' a'] Ha Ha' H.
  - injection H as ->. auto.
  - rewrite append_String in H. injection H as <- _.
    cbn [temChar] in Ha'. rewrite Ascii.eqb_refl in Ha'. discriminate Ha'.
  - rewrite append_String in H. injection H as -> _.
    cbn [temChar] in Ha. rewrite Ascii.eqb_refl in Ha. discriminate Ha.
  - rewrite !append_String in H. injection H as -> H.
    cbn [temChar] in Ha, Ha'.
    apply orb_false_iff in Ha as [_ Ha]. apply orb_false_iff in Ha' as [_ Ha'].
    destruct (IH a' Ha Ha' H) as [-> ->]. auto.
Qed.

Lemma length_append a b :
  String.length (a +:+ b) = (String.length a + String.length b)%nat.
Proof.
  induction a as [|c a IH]; [reflexivity|].
  rewrite append_String. simpl. rewrite IH. reflexivity.
Qed.

Lemma temChar_lista c l :
  temChar c (string_of_list_ascii l) = existsb (Ascii.eqb c) l.
Proof.
  induction l as [|a l IH]; simpl; [reflexivity | rewrite IH; reflexivity].
Qed.

Lemma temChar_existsb c s :
  temChar c s = existsb (Ascii.eqb c) (list_ascii_of_string s).
Proof.
  induction s as [|a s IH]; simpl; [reflexivity | rewrite IH; reflexivity].
Qed.

Lemma existsb_rev_falso {A} (f : A -> bool) l :
  existsb f l = false -> existsb f (List.rev l) = false.
Proof.
  induction l as [|a l IH]; simpl; [auto|]. intros H.
  apply orb_false_iff in H as [Ha Hl].
  rewrite existsb_app, (IH Hl). simpl. rewrite Ha. reflexivity.
Qed.

Lemma semZerosFinais_cons a l :
  Js.semZerosFinais (a :: l)
  = if Ascii.eqb a "0" then Js.semZerosFinais l else a :: l.
Proof. destruct a as [[] [] [] [] [] [] [] []]; reflexivity. Qed.

Lemma semZerosFinais_sem c l :
  existsb (Ascii.eqb c) l = false ->
  existsb (Ascii.eqb c) (Js.semZerosFinais l) = false.
Proof.
  induction l as [|a l IH]; intros H; [exact H|].
  rewrite semZerosFinais_cons. destruct (Ascii.eqb a "0"); [|exact H].
  simpl in H. apply orb_false_iff in H as [_ Hl]. exact (IH Hl).
Qed.

Lemma semZerosFinais_length l :
  (length (Js.semZerosFinais l) <= length l)%nat.
Proof.
  induction l as [|a l IH]; [reflexivity|].
  rewrite semZerosFinais_cons. destruct (Ascii.eqb a "0"); simpl; lia.
Qed.

(** What is taken off a text of digits is zeros. *)
Lemma semZerosFinais_zeros l :
  l = List.repeat "0"%char (length l - length (Js.semZerosFinais l))
      ++ Js.semZerosFinais l.
Proof.
  induction l as [|a l IH]; [reflexivity|].
  rewrite semZerosFinais_cons.
  destruct (Ascii.eqb_spec a "0") as [->|_].
  - pose proof (semZerosFinais_length l) as Hl.
    replace (length ("0"%char :: l) - length (Js.semZerosFinais l))%nat
      with (S (length l - length (Js.semZerosFinais l))) by (simpl; lia).
    simpl. f_equal. exact IH.
  - rewrite Nat.sub_diag. reflexivity.
Qed.

Lemma rev_repeat {A} (a : A) k : List.rev (List.repeat a k) = List.repeat a k.
Proof.
  induction k as [|k IH]; [reflexivity|].
  simpl. rewrite IH. symmetry. apply repeat_cons.
Qed.

(** The digits of a text are its significant digits and zeros. *)
Lemma significativos_zeros l :
  l = List.rev (Js.semZerosFinais (List.rev l))
      ++ List.repeat "0"%char
           (length l - length (List.rev (Js.semZerosFinais (List.rev l)))).
Proof.
  pose proof (semZerosFinais_zeros (List.rev l)) as H.
  apply (f_equal (@List.rev ascii)) in H.
  rewrite rev_involutive, rev_app_distr, rev_repeat in H.
  rewrite !length_rev in *. exact H.
Qed.

Lemma length_lista s :
  length (list_ascii_of_string s) = String.length s.
Proof. induction s as [|a s IH]; [reflexivity | simpl; rewrite IH; reflexivity]. Qed.

Lemma exponencial_um d e :
  Js.exponencial [d] e = String d (String "e" (String "+" (pretty e))).
Proof. reflexivity. Qed.

Lemma exponencial_cons d d' r e :
  Js.exponencial (d :: d' :: r) e
  = String d (String "." (string_of_list_ascii (d' :: r)
                            +:+ String "e" (String "+" (pretty e)))).
Proof. reflexivity. Qed.

Lemma exponencial_tem_e a s e :
  temChar "e" (Js.exponencial (a :: s) e) = true.
Proof.
  destruct s as [|d' r].
  - rewrite exponencial_um. cbn [temChar]. apply orb_true_r.
  - rewrite exponencial_cons. cbn [temChar]. rewrite temChar_append.
    cbn [temChar]. rewrite !orb_true_r. reflexivity.
Qed.

(** The exponent form tells the digits and the exponent apart. *)
Lemma exponencial_inj s1 s2 e1 e2 :
  s1 <> [] -> s2 <> [] ->
  existsb (Ascii.eqb "e") s1 = false -> existsb (Ascii.eqb "e") s2 = false ->
  Js.exponencial s1 e1 = Js.exponencial s2 e2 -> s1 = s2 /\ e1 = e2.
Proof.
  intros N1 N2 H1 H2.
  destruct s1 as [|d1 [|d1' r1]]; [contradiction| |];
    destruct s2 as [|d2 [|d2' r2]]; try contradiction;
    rewrite ?exponencial_um, ?exponencial_cons; intros H.
  - injection H as -> H. apply (inj pretty) in H. auto.
  - injection H as _ H. discriminate H.
  - injection H as _ H. discriminate H.
  - injection H as -> -> H.
    cbn [existsb] in H1, H2.
    apply orb_false_iff in H1 as [_ H1]. apply orb_false_iff in H2 as [_ H2].
    apply orb_false_iff in H1 as [_ H1]. apply orb_false_iff in H2 as [_ H2].
    apply append_sep_inj in H as [Hr He];
      [|rewrite temChar_lista; exact H1 | rewrite temChar_lista; exact H2].
    injection He as He. apply (inj pretty) in He.
    apply (f_equal list_ascii_of_string) in Hr.
    rewrite !list_ascii_of_string_of_list_ascii in Hr.
    rewrite Hr. auto.
Qed.

(** The significant digits of a text without [e] hold no [e]. *)
Lemma significativos_sem c ds :
  temChar c ds = false ->
  existsb (Ascii.eqb c)
    (List.rev (Js.semZerosFinais (List.rev (list_ascii_of_string ds))))
  = false.
Proof.
  intros H. apply existsb_rev_falso, semZerosFinais_sem, existsb_rev_falso.
  rewrite <- temChar_existsb. exact H.
Qed.

(** The notation is the digits as they are, or holds an [e]. *)
Lemma notacao_forma ds :
  Js.notacao ds = ds \/ temChar "e" (Js.notacao ds) = true.
Proof.
  unfold Js.notacao. cbv zeta.
  destruct (String.length ds <=? 21)%nat; [left; reflexivity|].
  destruct (List.rev _) as [|a s]; [left; reflexivity|].
  right. apply exponencial_tem_e.
Qed.

(** The notation tells the texts of digits apart. *)
Lemma notacao_inj ds1 ds2 :
  temChar "e" ds1 = false -> temChar "e" ds2 = false ->
  Js.notacao ds1 = Js.notacao ds2 -> ds1 = ds2.
Proof.
  intros H1 H2 H.
  destruct (notacao_forma ds1) as [F1|F1], (notacao_forma ds2) as [F2|F2].
  - congruence.
  - rewrite <- H, F1 in F2. congruence.
  - rewrite H, F2 in F1. congruence.
  - clear F1 F2. unfold Js.notacao in H. cbv zeta in H.
    pose proof (significativos_zeros (list_ascii_of_string ds1)) as Z1.
    pose proof (significativos_zeros (list_ascii_of_string ds2)) as Z2.
    pose proof (significativos_sem "e" ds1 H1) as E1.
    pose proof (significativos_sem "e" ds2 H2) as E2.
    rewrite length_lista in Z1, Z2.
    destruct (String.length ds1 <=? 21)%nat eqn:L1;
      destruct (String.length ds2 <=? 21)%nat eqn:L2.
    + exact H.
    + destruct (List.rev (Js.semZerosFinais (List.rev
                 (list_ascii_of_string ds2)))) as [|a s]; [exact H|].
      rewrite H, exponencial_tem_e in H1. discriminate H1.
    + destruct (List.rev (Js.semZerosFinais (List.rev
                 (list_ascii_of_string ds1)))) as [|a s]; [exact H|].
      rewrite <- H, exponencial_tem_e in H2. discriminate H2.
    + destruct (List.rev (Js.semZerosFinais (List.rev
                 (list_ascii_of_string ds1)))) as [|a1 s1];
        destruct (List.rev (Js.semZerosFinais (List.rev
                 (list_ascii_of_string ds2)))) as [|a2 s2].
      * exact H.
      * rewrite H, exponencial_tem_e in H1. discriminate H1.
      * rewrite <- H, exponencial_tem_e in H2. discriminate H2.
      * apply exponencial_inj in H as [Hs He];
          [|discriminate|discriminate|assumption|assumption].
        assert (Hn : String.length ds1 = String.length ds2) by lia.
        rewrite Hs, Hn, <- Z2 in Z1.
        apply (f_equal string_of_list_ascii) in Z1.
        rewrite !string_of_list_ascii_of_string in Z1. exact Z1.
Qed.

(** A character other than the digits and [.], [e], [+] that is not in the
    digits is not in their notation. *)
Lemma notacao_sem c ds :
  isDigit c = false -> Ascii.eqb c "." = false -> Ascii.eqb c "e" = false ->
  Ascii.eqb c "+" = false ->
  temChar c ds = false -> temChar c (Js.notacao ds) = false.
Proof.
  intros Hd Hp He Hm H. unfold Js.notacao. cbv zeta.
  pose proof (significativos_sem c ds H) as Hs.
  destruct (Nat.leb_spec (String.length ds) 21) as [_|Hn]; [exact H|].
  assert (Hexp : temChar c (pretty (Z.of_nat (String.length ds) - 1)) = false)
    by (apply pretty_Z_positivo_sem; [exact Hd | lia]).
  destruct (List.rev _) as [|d [|d' r]]; [exact H| |].
  - cbn [existsb] in Hs. apply orb_false_iff in Hs as [Hd0 _].
    rewrite exponencial_um. cbn [temChar]. rewrite Hd0, He, Hm, Hexp.
    reflexivity.
  - cbn [existsb] in Hs. apply orb_false_iff in Hs as [Hd0 Hr].
    rewrite exponencial_cons. cbn [temChar].
    rewrite Hd0, Hp, temChar_append, temChar_lista. cbn [existsb temChar].
    rewrite Hr, He, Hm, Hexp. reflexivity.
Qed.

Lemma numberOf_seguro m : m < 2 ^ 53 -> Js.numberOf m = Some m.
Proof.
  intros H. unfold Js.numberOf. cbv zeta.
  destruct (Z.ltb_spec (Z.log2 m) 53) as [_|Hl]; [reflexivity|].
  exfalso. destruct (Z.le_gt_cases m 0) as [Hm|Hm].
  - rewrite Z.log2_nonpos in Hl by exact Hm. lia.
  - apply Z.log2_le_pow2 in Hl; lia.
Qed.

(** A multiple of a power of two by 53 bits is a Number. *)
Lemma numberOf_exato a k :
  2 ^ 52 <= a < 2 ^ 53 -> 1 <= k ->
  Js.numberOf (a * 2 ^ k)
  = if Z.shiftl 1 1024 <=? a * 2 ^ k then None else Some (a * 2 ^ k).
Proof.
  intros Ha Hk. unfold Js.numberOf. cbv zeta.
  assert (Hp : 0 < 2 ^ k) by (apply Z.pow_pos_nonneg; lia).
  assert (Hl : Z.log2 (a * 2 ^ k) = k + 52).
  { rewrite Z.log2_mul_pow2 by lia. f_equal.
    apply Z.log2_unique; [lia|]. exact Ha. }
  rewrite Hl.
  destruct (Z.ltb_spec (k + 52) 53) as [Hlt|_]; [lia|].
  replace (k + 52 - 52) with k by lia.
  rewrite Z.shiftr_div_pow2, Z.div_mul by lia.
  rewrite !Z.shiftl_mul_pow2 by lia.
  replace (a * 2 ^ k - a * 2 ^ k) with 0 by lia.
  assert (Hh : 0 < 1 * 2 ^ (k - 1)).
  { pose proof (Z.pow_pos_nonneg 2 (k - 1)). lia. }
  destruct (Z.ltb_spec (1 * 2 ^ (k - 1)) 0) as [Hx|_]; [lia|].
  destruct (Z.ltb_spec 0 (1 * 2 ^ (k - 1))) as [_|Hx]; [|lia].
  reflexivity.
Qed.

(** Rounding an integer beyond 2^53 gives a Number beyond 2^53, which rounds
    to itself. *)
Lemma numberOf_grande m x :
  2 ^ 53 <= m -> Js.numberOf m = Some x ->
  2 ^ 53 <= x /\ Js.numberOf x = Some x.
Proof.
  intros Hm H. unfold Js.numberOf in H. cbv zeta in H.
  assert (He : 53 <= Z.log2 m) by (apply Z.log2_le_pow2; lia).
  destruct (Z.ltb_spec (Z.log2 m) 53) as [Hlt|_]; [lia|].
  set (sh := Z.log2 m - 52) in *.
  assert (Hsh : 1 <= sh) by (unfold sh; lia).
  assert (Hp : 0 < 2 ^ sh) by (apply Z.pow_pos_nonneg; lia).
  assert (Hq : 2 ^ 52 <= Z.shiftr m sh < 2 ^ 53).
  { rewrite Z.shiftr_div_pow2 by lia.
    destruct (Z.log2_spec m) as [Hlo Hhi]; [lia|].
    replace (Z.log2 m) with (52 + sh) in Hlo by (unfold sh; lia).
    replace (Z.succ (Z.log2 m)) with (53 + sh) in Hhi by (unfold sh; lia).
    rewrite Z.pow_add_r in Hlo, Hhi by lia. split.
    - apply Z.div_le_lower_bound; lia.
    - apply Z.div_lt_upper_bound; lia. }
  set (q := Z.shiftr m sh) in *.
  set (q' := if _ <? _ then q + 1 else _) in H.
  assert (Hq' : 2 ^ 52 <= q' <= 2 ^ 53).
  { unfold q'. repeat match goal with |- context [if ?b then _ else _] =>
                                       destruct b end; lia. }
  clearbody q'. rewrite (Z.shiftl_mul_pow2 q' sh) in H by lia.
  destruct (Z.leb_spec (Z.shiftl 1 1024) (q' * 2 ^ sh)) as [Hb|Hb];
    [discriminate H|].
  injection H as <-.
  assert (H2 : 2 <= 2 ^ sh).
  { change 2 with (2 ^ 1) at 1. apply Z.pow_le_mono_r; lia. }
  split.
  { change (2 ^ 53) with (2 ^ 52 * 2).
    apply Z.mul_le_mono_nonneg; lia. }
  destruct (Z.eq_dec q' (2 ^ 53)) as [E|E].
  - subst q'.
    replace (2 ^ 53 * 2 ^ sh) with (2 ^ 52 * 2 ^ (sh + 1)) in *
      by (rewrite Z.pow_add_r by lia; lia).
    rewrite numberOf_exato by lia.
    destruct (Z.leb_spec (Z.shiftl 1 1024) (2 ^ 52 * 2 ^ (sh + 1)));
      [lia | reflexivity].
  - rewrite numberOf_exato by lia.
    destruct (Z.leb_spec (Z.shiftl 1 1024) (q' * 2 ^ sh));
      [lia | reflexivity].
Qed.

Lemma ehNumero_numberOf v x :
  Js.ehNumero v x = true -> Js.numberOf v = Some x.
Proof.
  unfold Js.ehNumero. destruct (Js.numberOf v) as [y|]; [|discriminate].
  intros H. apply Z.eqb_eq in H. congruence.
Qed.

(** The shortest decimal of a Number rounds to it. *)
Lemma maisCurto_numero x fuel :
  Js.numberOf x = Some x ->
  forall p, Js.numberOf (Js.maisCurto x p fuel) = Some x.
Proof.
  intros Hx. induction fuel as [|fuel IH]; intros p; [exact Hx|].
  cbn [Js.maisCurto]. cbv zeta.
  destruct (Js.ehNumero (x / p * p) x) eqn:Elo;
    destruct (Js.ehNumero (x / p * p + p) x) eqn:Ehi; cbn [andb];
    repeat match goal with |- context [if ?b then _ else _] =>
                             destruct b end;
    auto using ehNumero_numberOf.
Qed.

Lemma numero_grande v x :
  2 ^ 53 <= x -> Js.numberOf v = Some x -> 2 ^ 53 <= v.
Proof.
  intros Hx Hv. destruct (Z.lt_ge_cases v (2 ^ 53)) as [Hlt|Hge]; [|exact Hge].
  rewrite numberOf_seguro in Hv by exact Hlt. injection Hv as ->. lia.
Qed.

Lemma isDigit_e : isDigit "e" = false.
Proof. reflexivity. Qed.

(** Number printing tells the Numbers beyond 2^53 apart. *)
Lemma textoDoNumero_inj x1 x2 :
  Js.numberOf x1 = Some x1 -> Js.numberOf x2 = Some x2 ->
  Js.textoDoNumero x1 = Js.textoDoNumero x2 -> x1 = x2.
Proof.
  intros H1 H2 H. unfold Js.textoDoNumero in H. cbv zeta in H.
  apply notacao_inj in H;
    try (apply pretty_Z_sem; reflexivity).
  apply (inj pretty) in H.
  pose proof (maisCurto_numero x1 (String.length (pretty x1)) H1
                (10 ^ (Z.of_nat (String.length (pretty x1)) - 1))) as V1.
  pose proof (maisCurto_numero x2 (String.length (pretty x2)) H2
                (10 ^ (Z.of_nat (String.length (pretty x2)) - 1))) as V2.
  rewrite H in V1. congruence.
Qed.

(** The text of a Number beyond 2^53 is the decimal text of an integer
    beyond 2^53, or holds an [e]. *)
Lemma textoDoNumero_forma x :
  2 ^ 53 <= x -> Js.numberOf x = Some x ->
  (exists v, 2 ^ 53 <= v /\ Js.textoDoNumero x = pretty v)
  \/ temChar "e" (Js.textoDoNumero x) = true.
Proof.
  intros Hx Hn. unfold Js.textoDoNumero. cbv zeta.
  destruct (notacao_forma
              (pretty (Js.maisCurto x
                         (10 ^ (Z.of_nat (String.length (pretty x)) - 1))
                         (String.length (pretty x))))) as [F|F];
    [left | right; exact F].
  eexists. split; [|exact F].
  apply (numero_grande _ x Hx). apply maisCurto_numero. exact Hn.
Qed.

(** A character other than the digits and [.], [e], [+] is not in the text
    of a Number beyond 2^53. *)
Lemma textoDoNumero_sem c x :
  isDigit c = false -> Ascii.eqb c "." = false -> Ascii.eqb c "e" = false ->
  Ascii.eqb c "+" = false ->
  2 ^ 53 <= x -> Js.numberOf x = Some x ->
  temChar c (Js.textoDoNumero x) = false.
Proof.
  intros Hd Hp He Hm Hx Hn. unfold Js.textoDoNumero. cbv zeta.
  apply notacao_sem; try assumption.
  apply pretty_Z_positivo_sem; [exact Hd|].
  pose proof (numero_grande _ x Hx
                (maisCurto_numero x (String.length (pretty x)) Hn
                   (10 ^ (Z.of_nat (String.length (pretty x)) - 1)))).
  lia.
Qed.

(** The text of a number has no colon. *)
Lemma numberToString_sem_dois_pontos n :
  temChar ":" (Js.numberToString n) = false.
Proof.
  unfold Js.numberToString.
  destruct (Z.ltb_spec (Z.abs n) (2 ^ 53)) as [_|Hn];
    [apply pretty_Z_sem; reflexivity|].
  rewrite temChar_append.
  destruct (Js.numberOf (Z.abs n)) as [x|] eqn:Ex.
  - destruct (numberOf_grande _ _ Hn Ex) as [Hx Hxx].
    rewrite (textoDoNumero_sem ":" x) by (assumption || reflexivity).
    destruct (n <? 0); reflexivity.
  - destruct (n <? 0); reflexivity.
Qed.

(** A safe integer prints in full. *)
Lemma numberToString_seguro n :
  Z.abs n < 2 ^ 53 -> Js.numberToString n = pretty n.
Proof.
  intros H. unfold Js.numberToString.
  destruct (Z.ltb_spec (Z.abs n) (2 ^ 53)); [reflexivity | lia].
Qed.

(** A safe integer is a Number of its own. *)
Lemma numeroDe_seguro n : Z.abs n < 2 ^ 53 -> numeroDe n = Finito n.
Proof.
  intros H. unfold numeroDe. rewrite numberOf_seguro by exact H.
  f_equal. destruct n; reflexivity.
Qed.

(** The text of an integer beyond 2^53 is not the text of a safe one. *)
Lemma numberToString_grande_seguro n1 n2 :
  Z.abs n1 < 2 ^ 53 -> 2 ^ 53 <= Z.abs n2 ->
  Js.numberToString n1 <> Js.numberToString n2.
Proof.
  intros H1 H2 H. rewrite (numberToString_seguro n1 H1) in H.
  unfold Js.numberToString in H.
  destruct (Z.ltb_spec (Z.abs n2) (2 ^ 53)) as [Hlt|_]; [lia|].
  destruct (Js.numberOf (Z.abs n2)) as [x|] eqn:Ex.
  - destruct (numberOf_grande _ _ H2 Ex) as [Hx Hxx].
    destruct (textoDoNumero_forma x Hx Hxx) as [(v & Hv & F)|F].
    + rewrite F in H.
      assert (Hn : n1 = if n2 <? 0 then - v else v).
      { apply (inj pretty). rewrite H.
        destruct (n2 <? 0); [|reflexivity].
        destruct v as [|p|p]; try lia. reflexivity. }
      destruct (n2 <? 0); lia.
    + assert (He : temChar "e" (pretty n1) = false)
        by (apply pretty_Z_sem; reflexivity).
      rewrite H, temChar_append, F, orb_true_r in He. discriminate He.
  - assert (He : temChar "I" (pretty n1) = false)
      by (apply pretty_Z_sem; reflexivity).
    rewrite H, temChar_append in He. cbn [temChar] in He.
    rewrite orb_true_r in He. discriminate He.
Qed.

(** What follows the sign in the text of an integer beyond 2^53 tells its
    Number, and holds no sign. *)
Lemma corpo_inj m1 m2 :
  2 ^ 53 <= m1 -> 2 ^ 53 <= m2 ->
  match Js.numberOf m1 with
  | Some x => Js.textoDoNumero x
  | None => "Infinity"
  end
  = match Js.numberOf m2 with
    | Some x => Js.textoDoNumero x
    | None => "Infinity"
    end ->
  Js.numberOf m1 = Js.numberOf m2.
Proof.
  intros H1 H2.
  destruct (Js.numberOf m1) as [x1|] eqn:E1;
    destruct (Js.numberOf m2) as [x2|] eqn:E2; intros H.
  - destruct (numberOf_grande _ _ H1 E1) as [_ Hx1].
    destruct (numberOf_grande _ _ H2 E2) as [_ Hx2].
    f_equal. exact (textoDoNumero_inj x1 x2 Hx1 Hx2 H).
  - destruct (numberOf_grande _ _ H1 E1) as [Hx Hxx].
    pose proof (textoDoNumero_sem "I" x1 eq_refl eq_refl eq_refl eq_refl
                  Hx Hxx) as Hi.
    rewrite H in Hi. discriminate Hi.
  - destruct (numberOf_grande _ _ H2 E2) as [Hx Hxx].
    pose proof (textoDoNumero_sem "I" x2 eq_refl eq_refl eq_refl eq_refl
                  Hx Hxx) as Hi.
    rewrite <- H in Hi. discriminate Hi.
  - reflexivity.
Qed.

Lemma corpo_sem_sinal m :
  2 ^ 53 <= m ->
  temChar "-" match Js.numberOf m with
              | Some x => Js.textoDoNumero x
              | None => "Infinity"
              end = false.
Proof.
  intros Hm. destruct (Js.numberOf m) as [x|] eqn:E; [|reflexivity].
  destruct (numberOf_grande _ _ Hm E) as [Hx Hxx].
  apply textoDoNumero_sem; assumption || reflexivity.
Qed.

(** Number printing tells the Numbers apart: two integers that print alike
    are one Number. *)
Lemma numberToString_inj n1 n2 :
  Js.numberToString n1 = Js.numberToString n2 -> numeroDe n1 = numeroDe n2.
Proof.
  intros H.
  destruct (Z.lt_ge_cases (Z.abs n1) (2 ^ 53)) as [H1|H1];
    destruct (Z.lt_ge_cases (Z.abs n2) (2 ^ 53)) as [H2|H2].
  - rewrite !numberToString_seguro in H by assumption.
    apply (inj pretty) in H. congruence.
  - destruct (numberToString_grande_seguro n1 n2 H1 H2 H).
  - destruct (numberToString_grande_seguro n2 n1 H2 H1 (eq_sym H)).
  - pose proof (corpo_sem_sinal _ H1) as S1.
    pose proof (corpo_sem_sinal _ H2) as S2.
    unfold Js.numberToString in H. unfold numeroDe. revert H.
    destruct (Z.ltb_spec (Z.abs n1) (2 ^ 53)) as [Hlt|_]; [lia|].
    destruct (Z.ltb_spec (Z.abs n2) (2 ^ 53)) as [Hlt|_]; [lia|].
    destruct (Z.ltb_spec n1 0) as [N1|N1];
      destruct (Z.ltb_spec n2 0) as [N2|N2]; intros H.
    + apply append_inv_head in H.
      rewrite (corpo_inj _ _ H1 H2 H).
      rewrite (Z.sgn_neg n1 N1), (Z.sgn_neg n2 N2). reflexivity.
    + exfalso. apply (f_equal (temChar "-")) in H.
      rewrite !temChar_append, S1, S2 in H. vm_compute in H. discriminate H.
    + exfalso. apply (f_equal (temChar "-")) in H.
      rewrite !temChar_append, S1, S2 in H. vm_compute in H. discriminate H.
    + apply append_inv_head in H.
      rewrite (corpo_inj _ _ H1 H2 H).
      rewrite (Z.sgn_pos n1), (Z.sgn_pos n2) by lia. reflexivity.
Qed.

End KeyFacts.

(** X14 (analise-service.ts, [buscarDadosAnalise], the cache key): for
    filters whose start date holds no colon (every [YYYY-MM-DD] date), the
    cache key tells the user and the two dates apart: equal keys mean the
    same filter and the same user id, as the Number that the id is; so one
    user's snapshot is never served to another user or for another period.
    An id that is a safe integer (below 2^53 in size) is a Number of its
    own, and shares its keys with no other integer. *)
Theorem cacheKeyOf_is_injective (f1 f2 : FiltroAnalise) (userId1 userId2 : Z) :
  temChar ":" (dataInicio f1) = false ->
  temChar ":" (dataInicio f2) = false ->
  cacheKeyOf f1 userId1 = cacheKeyOf f2 userId2 ->
  numeroDe userId1 = numeroDe userId2
  /\ f1 = f2
  /\ (Z.abs userId1 < 2 ^ 53 -> userId1 = userId2).
Proof.
  intros H1 H2 Hk. unfold cacheKeyOf in Hk.
  apply append_inv_head in Hk.
  change (Js.numberToString userId1
            +:+ String ":" (dataInicio f1 +:+ ":" +:+ dataFim f1)
          = Js.numberToString userId2
            +:+ String ":" (dataInicio f2 +:+ ":" +:+ dataFim f2)) in Hk.
  apply append_sep_inj in Hk as [Hu Hk];
    try apply numberToString_sem_dois_pontos.
  change (dataInicio f1 +:+ String ":" (dataFim f1)
          = dataInicio f2 +:+ String ":" (dataFim f2)) in Hk.
  apply append_sep_inj in Hk as [Hi Hf]; try assumption.
  split; [exact (numberToString_inj _ _ Hu)|].
  split; [destruct f1, f2; simpl in *; congruence|]. intros Hs1.
  destruct (Z.lt_ge_cases (Z.abs userId2) (2 ^ 53)) as [Hs2|Hs2].
  - rewrite !numberToString_seguro in Hu by assumption.
    exact (inj pretty _ _ Hu).
  - destruct (numberToString_grande_seguro _ _ Hs1 Hs2 Hu).
Qed.

Lemma cacheKeyOf_is_injective_witness :
  numeroDe 7 = numeroDe 7
  /\ Exemplos.filtroJaneiro = Exemplos.filtroJaneiro
  /\ (Z.abs 7 < 2 ^ 53 -> 7 = 7).
Proof.
  apply (cacheKeyOf_is_injective Exemplos.filtroJaneiro Exemplos.filtroJaneiro
           7 7); reflexivity.
Defined.

(** Two integers beyond 2^53 that are one and the same Number print alike,
    and so share their keys; from 10^21 on the text is in exponent form. *)
Example cacheKeyOf_of_one_number :
  cacheKeyOf Exemplos.filtroJaneiro 9007199254740992
  = cacheKeyOf Exemplos.filtroJaneiro 9007199254740993
  /\ numeroDe 9007199254740993 = Finito 9007199254740992
  /\ Js.numberToString 1000000000000000000000 = "1e+21".
Proof. vm_compute. repeat split; reflexivity. Qed.

(** X15 (analise-service.ts, [buscarDadosAnalise], the cache key): the key
    joins its parts with colons and escapes nothing, so a colon inside a
    date moves the border between the two dates: for every user and all
    texts [a], [b], [c], the filter from [a:b] to [c] and the filter from
    [a] to [b:c] have the same key, and differ. *)
Theorem cacheKeyOf_collides_on_colons (userId : Z) (a b c : string) :
  cacheKeyOf {| dataInicio := a +:+ ":" +:+ b; dataFim := c |} userId
  = cacheKeyOf {| dataInicio := a; dataFim := b +:+ ":" +:+ c |} userId
  /\ {| dataInicio := a +:+ ":" +:+ b; dataFim := c |}
     <> {| dataInicio := a; dataFim := b +:+ ":" +:+ c |}.
Proof.
  split.
  - unfold cacheKeyOf. simpl. rewrite !append_assoc. reflexivity.
  - intros H. injection H as H _.
    assert (Hl : String.length (a +:+ ":" +:+ b) = String.length a)
      by (rewrite H; reflexivity).
    rewrite !length_append in Hl. simpl in Hl. lia.
Qed.

Section FetchShape.

Variable w : Mundo.

(** One call of the executor for a dataset, as a segment of the log. *)
Lemma chamada_segmento data s :
  exists evs,
    log (fazerRequisicaoAutenticada w URL_CONSULTA_SERVICO data 0 s).2
    = log s ++ evs
    /\ segmentoDe (rootEntity data) evs.
Proof.
  pose proof (fazerRequisicaoAutenticada_post w URL_CONSULTA_SERVICO data s)
    as H.
  unfold wp in H. destruct H as (evs & (Hlog & _) & Hall & Hc & _).
  destruct (fazerRequisicaoAutenticada_rec_custo w
              (S (Requisicao.MAX_RETRIES - 0)) URL_CONSULTA_SERVICO data 0 s)
    as (evs' & Hlog' & Hl & Ht).
  fold (fazerRequisicaoAutenticada w URL_CONSULTA_SERVICO data 0) in Hlog'.
  assert (evs' = evs) as ->.
  { rewrite Hlog in Hlog'. exact (eq_sym (app_inv_head _ _ _ Hlog')). }
  exists evs. split; [exact Hlog|].
  split; [|split; [exact Hc|split; [simpl in Hl; lia|simpl in Ht; lia]]].
  eapply Forall_impl; [exact Hall|].
  intros [|url a p|ms]; simpl; auto. intros [-> ->]. auto.
Qed.

Lemma catchNull_segmento data s :
  exists v s' evs,
    catchNull (fazerRequisicaoAutenticada w URL_CONSULTA_SERVICO data 0) s
    = (Retorna v, s')
    /\ log s' = log s ++ evs
    /\ log (fazerRequisicaoAutenticada w URL_CONSULTA_SERVICO data 0 s).2
       = log s ++ evs
    /\ segmentoDe (rootEntity data) evs.
Proof.
  destruct (chamada_segmento data s) as (evs & Hlog & Hseg).
  pose proof (fazerRequisicaoAutenticada_post w URL_CONSULTA_SERVICO data s)
    as H.
  unfold wp in H. destruct H as (_ & _ & _ & _ & _ & Hr).
  unfold catchNull, tryCatch.
  destruct (fazerRequisicaoAutenticada w URL_CONSULTA_SERVICO data 0 s)
    as [[v|e|] s']; simpl in *; [| |contradiction].
  - exists v, s', evs. auto.
  - exists JNull, s', evs. auto.
Qed.

Lemma segmentoDe_nil root : segmentoDe root [].
Proof.
  unfold segmentoDe, conta. simpl. repeat split; auto; lia.
Qed.

(** The last step sends nothing, and what it returns holds the leads and
    the lead-products it was given. *)
Lemma guardarERetornar_forma f key l1 l8 l4 l3 l2 l5 l6 l7 s :
  log (guardarERetornar w f key l1 l8 l4 l3 l2 l5 l6 l7 s).2 = log s
  /\ forall ret,
       (guardarERetornar w f key l1 l8 l4 l3 l2 l5 l6 l7 s).1 = Retorna ret ->
       leads (dados ret) = l1 /\ produtosLeads (dados ret) = l8.
Proof.
  unfold guardarERetornar, bindM, nowISO, cacheSet, liftR, ret. simpl.
  destruct (somaVlrNota w l5); simpl; (split; [reflexivity|]);
    intros ret H; [injection H as <-; auto | discriminate H..].
Qed.

(** Every run of the cache-miss path leaves the eight segments. *)
Lemma buscarDaApi_segmentos f userId isAdmin key s :
  wp (buscarDaApi w f userId isAdmin key) s
     (posSegmentos w f userId isAdmin s).
Proof.
  unfold buscarDaApi. apply wp_tryCatch.
  eapply (wp_mono _ _ (posSegmentos w f userId isAdmin s));
    [|intros r s' H; destruct r; exact H].
  destruct (catchNull_segmento
              (leadsPayload
                 (criteriaLeads (formatarDataParaSankhya (dataInicio f))
                    (formatarDataParaSankhya (dataFim f)) userId isAdmin)) s)
    as (v1 & s1 & evs1 & R1 & L1 & P1 & G1).
  apply wp_bind. eapply wp_eq; [exact R1|]. cbv beta iota.
  destruct (catchNull_segmento
              (atividadesPayload (formatarDataParaSankhya (dataInicio f))
                 (formatarDataParaSankhya (dataFim f))) s1)
    as (v2 & s2 & evs2 & R2 & L2 & _ & G2).
  apply wp_bind. eapply wp_eq; [exact R2|]. cbv beta iota.
  destruct (catchNull_segmento funisPayload s2)
    as (v3 & s3 & evs3 & R3 & L3 & _ & G3).
  apply wp_bind. eapply wp_eq; [exact R3|]. cbv beta iota.
  destruct (catchNull_segmento estagiosPayload s3)
    as (v4 & s4 & evs4 & R4 & L4 & _ & G4).
  apply wp_bind. eapply wp_eq; [exact R4|]. cbv beta iota.
  destruct (catchNull_segmento
              (pedidosPayload (formatarDataParaSankhya (dataInicio f))
                 (formatarDataParaSankhya (dataFim f))) s4)
    as (v5 & s5 & evs5 & R5 & L5 & _ & G5).
  apply wp_bind. eapply wp_eq; [exact R5|]. cbv beta iota.
  destruct (catchNull_segmento produtosPayload s5)
    as (v6 & s6 & evs6 & R6 & L6 & _ & G6).
  apply wp_bind. eapply wp_eq; [exact R6|]. cbv beta iota.
  destruct (catchNull_segmento clientesPayload s6)
    as (v7 & s7 & evs7 & R7 & L7 & _ & G7).
  apply wp_bind. eapply wp_eq; [exact R7|]. cbv beta iota.
  clear R1 R2 R3 R4 R5 R6 R7.
  set (segs := [evs1; evs2; evs3; evs4; evs5; evs6; evs7]).
  assert (Hlog : log s7 = log s ++ concat segs).
  { rewrite L7, L6, L5, L4, L3, L2, L1. unfold segs. simpl.
    rewrite app_nil_r, <- !app_assoc. reflexivity. }
  assert (Hsegs : Forall2 segmentoDe (take 7 entidadesConsultadas) segs).
  { unfold segs. simpl in G1, G2, G3, G4, G5, G6, G7. simpl.
    repeat (constructor; [assumption|]). constructor. }
  assert (Hprim : exists evs rest,
             segs = evs :: rest
             /\ log (fazerRequisicaoAutenticada w URL_CONSULTA_SERVICO
                       (leadsPayloadDe f userId isAdmin) 0 s).2
                = log s ++ evs).
  { exists evs1, [evs2; evs3; evs4; evs5; evs6; evs7].
    split; [reflexivity | exact P1]. }
  clear L1 L2 L3 L4 L5 L6 L7 G1 G2 G3 G4 G5 G6 G7 P1.
  assert (Hbase : forall (r : Resultado Retorno) sx evs8,
             log sx = log s7 ++ evs8 ->
             segmentoDe "AD_ADLEADSPRODUTOS" evs8 ->
             match r with Retorna _ => False | _ => True end ->
             posSegmentos w f userId isAdmin s r sx).
  { intros r sx evs8 Hsx Hseg8 Hr. exists segs, evs8.
    rewrite Hsx, Hlog, <- app_assoc.
    split; [reflexivity|]. split; [exact Hsegs|]. split; [exact Hseg8|].
    split; [exact Hprim|].
    destruct r; [contradiction | exact I | exact I]. }
  assert (Hstop : forall r : Resultado Retorno,
             match r with Retorna _ => False | _ => True end ->
             posSegmentos w f userId isAdmin s r s7).
  { intros r Hr. apply (Hbase r s7 []); [|apply segmentoDe_nil|exact Hr].
    rewrite app_nil_r. reflexivity. }
  apply wp_bind, wp_liftR.
  destruct (mapearResposta v1) as [l1|e|]; [|apply Hstop; exact I..].
  apply wp_bind, wp_liftR.
  destruct (mapearResposta v2) as [l2|e|]; [|apply Hstop; exact I..].
  apply wp_bind, wp_liftR.
  destruct (mapearResposta v3) as [l3|e|]; [|apply Hstop; exact I..].
  apply wp_bind, wp_liftR.
  destruct (mapearResposta v4) as [l4|e|]; [|apply Hstop; exact I..].
  apply wp_bind, wp_liftR.
  destruct (mapearResposta v5) as [l5|e|]; [|apply Hstop; exact I..].
  apply wp_bind, wp_liftR.
  destruct (mapearResposta v6) as [l6|e|]; [|apply Hstop; exact I..].
  apply wp_bind, wp_liftR.
  destruct (mapearResposta v7) as [l7|e|]; [|apply Hstop; exact I..].
  clear Hstop.
  apply wp_bind. unfold buscarProdutosLeads.
  destruct l1 as [|l ls]; simpl.
  { apply wp_ret. unfold wp.
    destruct (guardarERetornar_forma f key [] [] l4 l3 l2 l5 l6 l7 s7)
      as [Hl Hret].
    destruct (guardarERetornar w f key [] [] l4 l3 l2 l5 l6 l7 s7)
      as [r sx].
    simpl in Hl, Hret. simpl.
    destruct r as [ret|e|];
      [|apply (Hbase _ sx []);
        [rewrite app_nil_r; exact Hl | apply segmentoDe_nil | exact I]..].
    exists segs, []. rewrite Hl, Hlog, app_nil_r.
    split; [reflexivity|]. split; [exact Hsegs|].
    split; [apply segmentoDe_nil|]. split; [exact Hprim|].
    destruct (Hret ret eq_refl) as [H1 H8]. rewrite H1, H8.
    split; [auto | intros H; contradiction]. }
  apply wp_bind, wp_liftR.
  destruct (codLeadsStrOf (l :: ls)) as [c|e|] eqn:Ec;
    [|apply (Hbase _ s7 []);
      [rewrite app_nil_r; reflexivity | apply segmentoDe_nil | exact I]..].
  destruct (chamada_segmento (produtosLeadsPayload c) s7)
    as (evs8 & L8 & G8).
  apply wp_bind.
  destruct (fazerRequisicaoAutenticada w URL_CONSULTA_SERVICO
              (produtosLeadsPayload c) 0 s7) as [[v8|e8|] s8] eqn:R8;
    simpl in L8;
    (eapply wp_eq; [exact R8|]); cbv beta iota;
    [|apply (Hbase _ s8 evs8 L8 G8); exact I..].
  apply wp_liftR.
  destruct (mapearResposta v8) as [l8|e|];
    [|apply (Hbase _ s8 evs8 L8 G8); exact I..].
  unfold wp.
  destruct (guardarERetornar_forma f key (l :: ls) l8 l4 l3 l2 l5 l6 l7 s8)
    as [Hl Hret].
  destruct (guardarERetornar w f key (l :: ls) l8 l4 l3 l2 l5 l6 l7 s8)
    as [r sx].
  simpl in Hl, Hret. simpl.
  destruct r as [ret|e|];
    [|apply (Hbase _ sx evs8);
      [rewrite Hl; exact L8 | exact G8 | exact I]..].
  exists segs, evs8. rewrite Hl, L8, Hlog, <- app_assoc.
  split; [reflexivity|]. split; [exact Hsegs|]. split; [exact G8|].
  split; [exact Hprim|].
  destruct (Hret ret eq_refl) as [H1 H8]. rewrite H1.
  split; [discriminate|]. intros _.
  destruct (fazerRequisicaoAutenticada_rec_inv w _ _ _ _ _ _ _ R8)
    as (text & sy & _ & _ & Hs8 & _ & evs0 & Hsy).
  exists c, text, evs0. split; [exact Ec|].
  rewrite Hs8 in L8. simpl in L8. rewrite Hsy, <- app_assoc in L8.
  exact (eq_sym (app_inv_head _ _ _ L8)).
Qed.

End FetchShape.

Section SegmentFacts.

Lemma segmentos_total roots segs :
  Forall2 segmentoDe roots segs ->
  (conta ehConsulta (concat segs) <= 3 * length roots)%nat
  /\ (conta ehLogin (concat segs) <= 12 * length roots)%nat
  /\ 0 <= tempoDeEspera (concat segs) <= 39000 * Z.of_nat (length roots).
Proof.
  induction 1 as [|root seg roots segs (_ & Hc & Hl & Ht) _ IH].
  - unfold conta. simpl. lia.
  - cbn [concat length]. rewrite !conta_app, tempoDeEspera_app. lia.
Qed.



End SegmentFacts.


Section FetchSegments.

Variable w : Mundo.

(** The log of a fetch, hit or miss, in eight segments. *)
Lemma buscarDadosAnalise_segmentos f userId isAdmin s :
  exists segs,
    log (buscarDadosAnalise w f userId isAdmin s).2 = log s ++ concat segs
    /\ Forall2 segmentoDe entidadesConsultadas segs
    /\ (conta ehConsulta (concat segs) <= 24)%nat
    /\ (conta ehLogin (concat segs) <= 96)%nat
    /\ 0 <= tempoDeEspera (concat segs) <= 312000.
Proof.
  assert (H : exists segs,
             log (buscarDadosAnalise w f userId isAdmin s).2
             = log s ++ concat segs
             /\ Forall2 segmentoDe entidadesConsultadas segs).
  { destruct (redisCacheService.get (cacheKeyOf f userId) (cache s))
      as [c|] eqn:E.
    - rewrite (buscarDadosAnalise_hit w _ _ _ _ _ E).
      exists (List.repeat [] 8). simpl. rewrite app_nil_r.
      split; [reflexivity|].
      repeat (constructor; [apply segmentoDe_nil|]). constructor.
    - rewrite (buscarDadosAnalise_miss w _ _ _ _ E).
      destruct (buscarDaApi_segmentos w f userId isAdmin
                  (cacheKeyOf f userId) s)
        as (segs & evs8 & Hlog & Hsegs & Hseg8 & _).
      exists (segs ++ [evs8]).
      rewrite concat_app. simpl. rewrite app_nil_r.
      split; [exact Hlog|].
      change entidadesConsultadas
        with (take 7 entidadesConsultadas ++ ["AD_ADLEADSPRODUTOS"]).
      apply Forall2_app; [exact Hsegs|].
      constructor; [exact Hseg8 | constructor]. }
  destruct H as (segs & Hlog & Hsegs). exists segs.
  split; [exact Hlog|]. split; [exact Hsegs|].
  pose proof (segmentos_total _ _ Hsegs) as Ht. simpl in Ht. lia.
Qed.

End FetchSegments.

(** X17 (analise-service.ts, [buscarDadosAnalise]): the log of a fetch, hit
    or miss, splits into eight segments, one for each dataset entity in the
    fixed order leads, activities, funnels, stages, orders, products,
    customers, lead-products: every query request of a segment is for its
    entity, so the queries go out one entity after the other, never
    interleaved.  A fetch sends at most 24 query requests and 96 login
    requests and spends at most 312 seconds in pauses. *)
Theorem fetch_queries_follow_the_plan (w : Mundo) (f : FiltroAnalise)
    (userId : Z) (isAdmin : bool) (s : Estado) :
  exists segs,
    log (buscarDadosAnalise w f userId isAdmin s).2 = log s ++ concat segs
    /\ Forall2 segmentoDe entidadesConsultadas segs
    /\ (conta ehConsulta (concat segs) <= 24)%nat
    /\ (conta ehLogin (concat segs) <= 96)%nat
    /\ 0 <= tempoDeEspera (concat segs) <= 312000.
Proof. apply buscarDadosAnalise_segmentos. Qed.



Section CacheInvariant.

Variable w : Mundo.

Lemma set_sem_financeiro key d ttl c :
  cacheSemFinanceiro c -> financeiro d = [] ->
  cacheSemFinanceiro (redisCacheService.set key d ttl c).
Proof.
  intros Hinv Hfin key' d' ttl' Hk. unfold redisCacheService.set in Hk.
  destruct (decide (key' = key)) as [->|Hne].
  - rewrite lookup_insert_eq in Hk. injection Hk as <- _. exact Hfin.
  - rewrite lookup_insert_ne in Hk by congruence. exact (Hinv _ _ _ Hk).
Qed.

(** A fetch keeps the cache free of financial records and returns none. *)
Lemma buscarDadosAnalise_sem_financeiro f userId isAdmin s :
  cacheSemFinanceiro (cache s) ->
  cacheSemFinanceiro (cache (buscarDadosAnalise w f userId isAdmin s).2)
  /\ (buscarDadosAnalise w f userId isAdmin s).1 <> SemCombustivel
  /\ forall ret, (buscarDadosAnalise w f userId isAdmin s).1 = Retorna ret ->
                 financeiro (dados ret) = [].
Proof.
  intros Hinv.
  destruct (redisCacheService.get (cacheKeyOf f userId) (cache s))
    as [c|] eqn:E.
  - rewrite (buscarDadosAnalise_hit w _ _ _ _ _ E). simpl.
    split; [exact Hinv|]. split; [discriminate|].
    intros ret H. injection H as <-. simpl.
    unfold redisCacheService.get in E.
    destruct (cache s !! cacheKeyOf f userId) as [[d ttl]|] eqn:El;
      [|discriminate E].
    injection E as <-. exact (Hinv _ _ _ El).
  - destruct (buscarDadosAnalise_post w f userId isAdmin s E)
      as (_ & Hr & _).
    destruct (buscarDadosAnalise w f userId isAdmin s) as [[ret|e|] s'];
      simpl in *; [| |contradiction].
    + destruct Hr as (resultado & -> & (total & _ & ->) & Hfin & _). split.
      * exact (set_sem_financeiro _ _ _ _ Hinv Hfin).
      * split; [discriminate|]. intros ret H. injection H as <-. reflexivity.
    + destruct Hr as [(i & _ & _ & ->)
                     |[(lLeads & _ & _ & -> & _)
                      |(resultado & _ & _ & -> & Hfin & _)]];
        (split; [|split; discriminate]);
        [exact Hinv | exact Hinv | exact (set_sem_financeiro _ _ _ _ Hinv Hfin)].
Qed.

End CacheInvariant.

(** X19 (analise-service.ts, [buscarDadosAnalise] and the cache): that no
    cached snapshot holds financial records is an invariant of the service:
    a fetch keeps it, and under it every snapshot a fetch returns, from the
    servers or from the cache, has an empty [financeiro]. *)
Theorem fetch_never_returns_financeiro (w : Mundo) (f : FiltroAnalise)
    (userId : Z) (isAdmin : bool) (s : Estado) :
  cacheSemFinanceiro (cache s) ->
  let run := buscarDadosAnalise w f userId isAdmin s in
  cacheSemFinanceiro (cache run.2)
  /\ forall ret, run.1 = Retorna ret -> financeiro (dados ret) = [].
Proof.
  intros Hinv run.
  destruct (buscarDadosAnalise_sem_financeiro w f userId isAdmin s Hinv)
    as (H1 & _ & H2).
  split; assumption.
Qed.

Lemma fetch_never_returns_financeiro_witness :
  let run := buscarDadosAnalise Exemplos.mundoSemRede Exemplos.filtroJaneiro
               7 false Exemplos.estadoInicial in
  cacheSemFinanceiro (cache run.2)
  /\ forall ret, run.1 = Retorna ret -> financeiro (dados ret) = [].
Proof.
  apply (fetch_never_returns_financeiro Exemplos.mundoSemRede
           Exemplos.filtroJaneiro 7 false Exemplos.estadoInicial).
  intros key d ttl H. simpl in H. rewrite lookup_empty in H. discriminate H.
Defined.

(* ===================================================================== *)
(** * The summary for the chat and the user of a request *)
(* ===================================================================== *)

Section ChatFacts.

Variable w : Mundo.
Variable menosDias : Z -> string -> string.

(** Choosing the filter reads the clock at most and never fails. *)
Lemma filtroPadrao_run s :
  exists fd s0,
    filtroPadrao w menosDias s = (Retorna fd, s0)
    /\ cache s0 = cache s /\ log s0 = log s.
Proof.
  unfold filtroPadrao, bindM, nowISO, ret. simpl. eauto.
Qed.

(** A fetch returns or throws. *)
Lemma buscarDadosAnalise_returns_or_throws f userId isAdmin s :
  (buscarDadosAnalise w f userId isAdmin s).1 <> SemCombustivel.
Proof.
  destruct (redisCacheService.get (cacheKeyOf f userId) (cache s))
    as [c|] eqn:E.
  - rewrite (buscarDadosAnalise_hit w _ _ _ _ _ E). discriminate.
  - destruct (buscarDadosAnalise_post w f userId isAdmin s E)
      as (_ & Hr & _).
    destruct (buscarDadosAnalise w f userId isAdmin s) as [[ret|e|] s'];
      simpl in *; [discriminate | discriminate | contradiction].
Qed.

(** The object of the [try] block, when its three totals return. *)
Lemma resumoDe_forma d userName fu r :
  resumoDe w d userName fu = Retorna r ->
  Chat.userName r = userName
  /\ Chat.totalLeads r = length (Chat.leads r)
  /\ Chat.totalAtividades r = length (Chat.atividades r)
  /\ Chat.totalPedidos r = length (Chat.pedidos r)
  /\ Chat.totalProdutos r = length (Chat.produtos r)
  /\ Chat.totalClientes r = length (Chat.clientes r)
  /\ Chat.totalFinanceiro r = length (Chat.financeiro r)
  /\ Chat.financeiro r = financeiro d
  /\ (financeiro d = [] ->
      Chat.valorTotalFinanceiro r = PrimFloat.zero
      /\ Chat.valorRecebido r = PrimFloat.zero
      /\ Chat.valorPendente r = PrimFloat.zero).
Proof.
  unfold resumoDe. intros H.
  destruct (somaCampo w "VLRNOTA" (pedidos d)) as [a| |];
    simpl in H; try discriminate H.
  destruct (somaCampo w "VLRDESDOB" (financeiro d)) as [b| |] eqn:Eb;
    simpl in H; try discriminate H.
  destruct (somaCampo w "VLRBAIXA" (financeiro d)) as [c| |] eqn:Ec;
    simpl in H; try discriminate H.
  injection H as <-. simpl. repeat (split; [reflexivity|]).
  intros Hf. rewrite Hf in Eb, Ec.
  injection Eb as <-. injection Ec as <-. repeat split; reflexivity.
Qed.

Lemma resumoDe_returns_or_throws d userName fu :
  resumoDe w d userName fu <> SemCombustivel.
Proof.
  unfold resumoDe, somaCampo.
  pose proof (reduceSoma_returns_or_throws w "VLRNOTA" (pedidos d)
                PrimFloat.zero) as H1.
  pose proof (reduceSoma_returns_or_throws w "VLRDESDOB" (financeiro d)
                PrimFloat.zero) as H2.
  pose proof (reduceSoma_returns_or_throws w "VLRBAIXA" (financeiro d)
                PrimFloat.zero) as H3.
  destruct (reduceSoma w "VLRNOTA" _ _); simpl; [|discriminate|contradiction].
  destruct (reduceSoma w "VLRDESDOB" _ _); simpl;
    [|discriminate|contradiction].
  destruct (reduceSoma w "VLRBAIXA" _ _); simpl;
    [discriminate|discriminate|contradiction].
Qed.

(** The summary function always returns: the fallback object when the fetch
    or one of the totals threw, the summary of the fetched snapshot
    otherwise.  The fetch runs with the filter [fu] from the state [s0],
    which differs from [s] by the readings of the clock at most. *)
Lemma analisarDadosDoSistema_run userId userName isAdmin filtroFrontend s :
  exists fu s0,
    cache s0 = cache s /\ log s0 = log s
    /\ analisarDadosDoSistema w menosDias userId userName isAdmin
         filtroFrontend s
       = match buscarDadosAnalise w fu userId isAdmin s0 with
         | (Retorna ret, s') =>
             (Retorna match resumoDe w (dados ret) userName fu with
                      | Retorna resumo => resumo
                      | _ => resumoVazio userName
                      end, s')
         | (_, s') => (Retorna (resumoVazio userName), s')
         end.
Proof.
  assert (Hrun : forall fu s0,
             tryCatch
               (filtroUsado <- ret fu ;;
                dadosCompletos <- buscarDadosAnalise w filtroUsado userId
                                    isAdmin ;;
                liftR (resumoDe w (dados dadosCompletos) userName
                         filtroUsado))
               (fun _ => ret (resumoVazio userName)) s0
             = match buscarDadosAnalise w fu userId isAdmin s0 with
               | (Retorna ret, s') =>
                   (Retorna match resumoDe w (dados ret) userName fu with
                            | Retorna resumo => resumo
                            | _ => resumoVazio userName
                            end, s')
               | (_, s') => (Retorna (resumoVazio userName), s')
               end).
  { intros fu s0. unfold tryCatch, bindM, ret, liftR. simpl.
    pose proof (buscarDadosAnalise_returns_or_throws fu userId isAdmin s0)
      as Hne.
    destruct (buscarDadosAnalise w fu userId isAdmin s0) as [[ret|e|] s'];
      simpl in *; [| reflexivity | contradiction].
    pose proof (resumoDe_returns_or_throws (dados ret) userName fu) as Hr.
    destruct (resumoDe w (dados ret) userName fu);
      [reflexivity | reflexivity | contradiction]. }
  destruct (filtroPadrao_run s) as (fd & sd & Hfd & Hcd & Hld).
  assert (Hpad : exists fu s0,
             cache s0 = cache s /\ log s0 = log s
             /\ tryCatch
                  (filtroUsado <- filtroPadrao w menosDias ;;
                   dadosCompletos <- buscarDadosAnalise w filtroUsado userId
                                       isAdmin ;;
                   liftR (resumoDe w (dados dadosCompletos) userName
                            filtroUsado))
                  (fun _ => ret (resumoVazio userName)) s
                = match buscarDadosAnalise w fu userId isAdmin s0 with
                  | (Retorna ret, s') =>
                      (Retorna match resumoDe w (dados ret) userName fu with
                               | Retorna resumo => resumo
                               | _ => resumoVazio userName
                               end, s')
                  | (_, s') => (Retorna (resumoVazio userName), s')
                  end).
  { exists fd, sd. split; [exact Hcd|]. split; [exact Hld|].
    rewrite <- Hrun. unfold tryCatch, bindM at 1 3. rewrite Hfd.
    reflexivity. }
  unfold analisarDadosDoSistema.
  destruct filtroFrontend as [ff|]; [|exact Hpad].
  destruct (Js.truthy (JStr (dataInicio ff)) && Js.truthy (JStr (dataFim ff)));
    [|exact Hpad].
  exists ff, s. split; [reflexivity|]. split; [reflexivity|].
  apply Hrun.
Qed.

End ChatFacts.

(** X20 (gemini/chat/route.ts, [analisarDadosDoSistema]): the summary
    function never throws, whatever the servers answer and whatever filter
    the caller sends: it always returns an object that carries the user name
    it was given and whose six counters are the lengths of the lists it
    returns.  Its requests are those of one fetch: eight segments in the
    order of the plan, at most 24 query requests. *)
Theorem analisarDadosDoSistema_always_returns (w : Mundo)
    (menosDias : Z -> string -> string) (userId : Z) (userName : string)
    (isAdmin : bool) (filtroFrontend : option FiltroAnalise) (s : Estado) :
  exists resumo s',
    analisarDadosDoSistema w menosDias userId userName isAdmin
      filtroFrontend s = (Retorna resumo, s')
    /\ Chat.userName resumo = userName
    /\ Chat.totalLeads resumo = length (Chat.leads resumo)
    /\ Chat.totalAtividades resumo = length (Chat.atividades resumo)
    /\ Chat.totalPedidos resumo = length (Chat.pedidos resumo)
    /\ Chat.totalProdutos resumo = length (Chat.produtos resumo)
    /\ Chat.totalClientes resumo = length (Chat.clientes resumo)
    /\ Chat.totalFinanceiro resumo = length (Chat.financeiro resumo)
    /\ exists segs,
         log s' = log s ++ concat segs
         /\ Forall2 segmentoDe entidadesConsultadas segs
         /\ (conta ehConsulta (concat segs) <= 24)%nat.
Proof.
  destruct (analisarDadosDoSistema_run w menosDias userId userName isAdmin
              filtroFrontend s) as (fu & s0 & _ & Hl & ->).
  destruct (buscarDadosAnalise_segmentos w fu userId isAdmin s0)
    as (segs & Hlog & Hsegs & Hc & _).
  rewrite Hl in Hlog.
  destruct (buscarDadosAnalise w fu userId isAdmin s0) as [[ret|e|] s'];
    simpl in Hlog; eexists _, s'; (split; [reflexivity|]);
    try (simpl; repeat (split; [reflexivity|]); exists segs; solve [auto]).
  pose proof (resumoDe_forma w (dados ret) userName fu) as Hf.
  destruct (resumoDe w (dados ret) userName fu) as [resumo|e|].
  - destruct (Hf resumo eq_refl) as (H1 & H2 & H3 & H4 & H5 & H6 & H7 & _).
    repeat (split; [assumption|]). exists segs. auto.
  - simpl. repeat (split; [reflexivity|]). exists segs. auto.
  - simpl. repeat (split; [reflexivity|]). exists segs. auto.
Qed.

(** X21 (gemini/chat/route.ts, [analisarDadosDoSistema], with
    [buscarDadosAnalise]): as long as no cached snapshot holds financial
    records, which the summary function keeps true, the financial part of
    every summary is empty: no financial record, a count of zero, and zero
    for the total, the received and the pending amounts. *)
Theorem chat_summary_has_no_financeiro (w : Mundo)
    (menosDias : Z -> string -> string) (userId : Z) (userName : string)
    (isAdmin : bool) (filtroFrontend : option FiltroAnalise) (s : Estado) :
  cacheSemFinanceiro (cache s) ->
  let run := analisarDadosDoSistema w menosDias userId userName isAdmin
               filtroFrontend s in
  cacheSemFinanceiro (cache run.2)
  /\ forall resumo, run.1 = Retorna resumo ->
       Chat.financeiro resumo = []
       /\ Chat.totalFinanceiro resumo = 0%nat
       /\ Chat.valorTotalFinanceiro resumo = PrimFloat.zero
       /\ Chat.valorRecebido resumo = PrimFloat.zero
       /\ Chat.valorPendente resumo = PrimFloat.zero.
Proof.
  intros Hinv run. unfold run.
  destruct (analisarDadosDoSistema_run w menosDias userId userName isAdmin
              filtroFrontend s) as (fu & s0 & Hc & _ & ->).
  rewrite <- Hc in Hinv.
  destruct (buscarDadosAnalise_sem_financeiro w fu userId isAdmin s0 Hinv)
    as (Hinv' & _ & Hfin).
  destruct (buscarDadosAnalise w fu userId isAdmin s0) as [[ret|e|] s'];
    simpl in *; (split; [exact Hinv'|]); intros resumo H;
    injection H as <-; try (repeat split; reflexivity).
  pose proof (resumoDe_forma w (dados ret) userName fu) as Hf.
  destruct (resumoDe w (dados ret) userName fu) as [resumo|e|];
    try (repeat split; reflexivity).
  destruct (Hf resumo eq_refl)
    as (_ & _ & _ & _ & _ & _ & H7 & H8 & H9).
  rewrite (Hfin ret eq_refl) in H8, H9.
  rewrite H7, H8. destruct (H9 eq_refl) as (Ha & Hb & Hd).
  repeat split; assumption || reflexivity.
Qed.

Lemma chat_summary_has_no_financeiro_witness :
  let run := analisarDadosDoSistema Exemplos.mundoSemRede (fun _ iso => iso)
               7 "Ana" false None Exemplos.estadoInicial in
  cacheSemFinanceiro (cache run.2)
  /\ forall resumo, run.1 = Retorna resumo ->
       Chat.financeiro resumo = []
       /\ Chat.totalFinanceiro resumo = 0%nat
       /\ Chat.valorTotalFinanceiro resumo = PrimFloat.zero
       /\ Chat.valorRecebido resumo = PrimFloat.zero
       /\ Chat.valorPendente resumo = PrimFloat.zero.
Proof.
  apply (chat_summary_has_no_financeiro Exemplos.mundoSemRede
           (fun _ iso => iso) 7 "Ana" false None Exemplos.estadoInicial).
  intros key d ttl H. simpl in H. rewrite lookup_empty in H. discriminate H.
Defined.

(** X22 (gemini/analise/route.ts and gemini/chat/route.ts, the user of a
    request): the two routes read the same user id from the cookie, and no
    cookie makes its user an administrator in both: the analysis route asks
    for the role [ADMIN], the chat route for the role [admin]. *)
Theorem no_cookie_is_admin_in_both_routes
    (userCookie : option (Resultado JsValue)) :
  (AnaliseRoute.identificar userCookie).2
  && (Chat.identificar userCookie).2 = false
  /\ (AnaliseRoute.identificar userCookie).1
     = (Chat.identificar userCookie).1.1.
Proof.
  unfold AnaliseRoute.identificar, Chat.identificar.
  destruct userCookie as [[user|e|]|]; simpl; auto.
  destruct (Js.nullish user) eqn:En; simpl; auto.
  split; [|reflexivity].
  destruct (Js.getOwn user "role") as [| | | |role| |]; simpl; auto.
  destruct (String.eqb_spec role "ADMIN") as [->|_]; reflexivity.
Qed.

(* ===================================================================== *)
(** * Further properties of obterToken under interleaved callers *)
(* ===================================================================== *)

Section SingleFlightMore.

Import SingleFlight.

Lemma executa_app ls1 ls2 s :
  executa (ls1 ++ ls2) s
  = match executa ls1 s with
    | Some s1 => executa ls2 s1
    | None => None
    end.
Proof.
  revert s. induction ls1 as [|l ls1 IH]; intros s; simpl; [reflexivity|].
  destruct (passo l s); [apply IH | reflexivity].
Qed.

Lemma filter_length_le {A : Type} (P Q : A -> bool) (l : list A) :
  (forall x, P x = true -> Q x = true) ->
  (length (List.filter P l) <= length (List.filter Q l))%nat.
Proof.
  intros H. induction l as [|a l IH]; simpl; [lia|].
  destruct (P a) eqn:Ea.
  - rewrite (H a Ea). simpl. lia.
  - destruct (Q a); simpl; lia.
Qed.

(** Callers that arrive while an acquisition is pending all get its
    promise, and change nothing else. *)
Lemma chamadas_pendentes n :
  forall c tp ts lg es id,
    Js.truthy c = false -> tp = Some id ->
    executa (List.repeat Chama n)
      {| cachedToken := c; tokenPromise := tp; tarefas := ts;
         logins := lg; entregas := es |}
    = Some {| cachedToken := c; tokenPromise := tp; tarefas := ts;
              logins := lg;
              entregas := es ++ List.repeat (Promessa id) n |}.
Proof.
  induction n as [|n IH]; intros c tp ts lg es id Hc ->; simpl.
  - rewrite app_nil_r. reflexivity.
  - unfold chama. simpl. rewrite Hc. simpl.
    rewrite (IH c (Some id) ts lg _ id Hc eq_refl), <- app_assoc.
    reflexivity.
Qed.

(** Callers that arrive once the token is cached get it at once. *)
Lemma chamadas_com_token n :
  forall c tp ts lg es,
    Js.truthy c = true ->
    executa (List.repeat Chama n)
      {| cachedToken := c; tokenPromise := tp; tarefas := ts;
         logins := lg; entregas := es |}
    = Some {| cachedToken := c; tokenPromise := tp; tarefas := ts;
              logins := lg;
              entregas := es ++ List.repeat (Imediato c) n |}.
Proof.
  induction n as [|n IH]; intros c tp ts lg es Hc; simpl.
  - rewrite app_nil_r. reflexivity.
  - unfold chama. simpl. rewrite Hc. simpl.
    rewrite (IH c tp ts lg _ Hc), <- app_assoc. reflexivity.
Qed.

End SingleFlightMore.

(** X23 (analise-service.ts, [obterToken] under interleaved callers): in
    every schedule in which no backoff has ended, that is before an
    acquisition starts a retry, at most one acquisition is unsettled and at
    most one login request is in flight, however many callers arrive and
    however the logins are answered. *)
Theorem one_login_in_flight_until_a_retry (ls : list SingleFlight.Rotulo)
    (s : SingleFlight.Sistema) :
  forallb SingleFlight.semTimer ls = true ->
  SingleFlight.executa ls SingleFlight.inicial = Some s ->
  (SingleFlight.aquisicoesPendentes s <= 1)%nat
  /\ (SingleFlight.loginsEmVoo s <= 1)%nat.
Proof.
  intros Hls Hrun.
  pose proof (single_flight_until_a_retry ls s Hls Hrun) as H.
  split; [exact H|].
  unfold SingleFlight.loginsEmVoo.
  unfold SingleFlight.aquisicoesPendentes in H.
  pose proof (filter_length_le SingleFlight.emVoo SingleFlight.pendente
                (SingleFlight.tarefas s)) as Hle.
  assert (Himp : forall p, SingleFlight.emVoo p = true ->
                           SingleFlight.pendente p = true).
  { intros [| | | | |]; simpl; auto. }
  specialize (Hle Himp). lia.
Qed.

Lemma one_login_in_flight_until_a_retry_witness :
  (SingleFlight.aquisicoesPendentes
     {| SingleFlight.cachedToken := JStr "T0";
        SingleFlight.tokenPromise := None;
        SingleFlight.tarefas := [SingleFlight.Resolvida (JStr "T0")];
        SingleFlight.logins := 1;
        SingleFlight.entregas :=
          List.repeat (SingleFlight.Promessa 0) 10 |} <= 1)%nat
  /\ (SingleFlight.loginsEmVoo
        {| SingleFlight.cachedToken := JStr "T0";
           SingleFlight.tokenPromise := None;
           SingleFlight.tarefas := [SingleFlight.Resolvida (JStr "T0")];
           SingleFlight.logins := 1;
           SingleFlight.entregas :=
             List.repeat (SingleFlight.Promessa 0) 10 |} <= 1)%nat.
Proof.
  apply (one_login_in_flight_until_a_retry Exemplos.agendaDezChamadas).
  - reflexivity.
  - vm_compute. reflexivity.
Defined.

(** X24 (analise-service.ts, [obterToken] under interleaved callers): any
    number of callers that arrive before the first login is answered share
    one acquisition and one login request; when that login gives a token,
    the token is cached, the promise is cleared, and every later caller gets
    the cached token at once, without a request. *)
Theorem callers_share_one_login (n m : nat) (ans : Erro + JsValue)
    (token : JsValue) :
  ObterToken.tokenDe ans = Retorna token ->
  SingleFlight.executa
    (List.repeat SingleFlight.Chama (S n)
     ++ [SingleFlight.ImportPronto 0; SingleFlight.LoginResponde 0 ans]
     ++ List.repeat SingleFlight.Chama m)
    SingleFlight.inicial
  = Some {| SingleFlight.cachedToken := token;
            SingleFlight.tokenPromise := None;
            SingleFlight.tarefas := [SingleFlight.Resolvida token];
            SingleFlight.logins := 1;
            SingleFlight.entregas :=
              List.repeat (SingleFlight.Promessa 0) (S n)
              ++ List.repeat (SingleFlight.Imediato token) m |}.
Proof.
  intros Htoken.
  rewrite executa_app.
  change (List.repeat SingleFlight.Chama (S n))
    with (SingleFlight.Chama :: List.repeat SingleFlight.Chama n).
  cbn [SingleFlight.executa]. unfold SingleFlight.passo at 1.
  unfold SingleFlight.chama, SingleFlight.inicial. simpl.
  rewrite (chamadas_pendentes n JNull (Some 0%nat) _ _ _ 0%nat eq_refl eq_refl).
  simpl. rewrite Htoken. simpl.
  unfold SingleFlight.poe, SingleFlight.comTokens. simpl.
  rewrite (chamadas_com_token m token None _ _ _ (tokenDe_truthy _ _ Htoken)).
  reflexivity.
Qed.

Lemma callers_share_one_login_witness :
  SingleFlight.executa
    (List.repeat SingleFlight.Chama (S 9)
     ++ [SingleFlight.ImportPronto 0;
         SingleFlight.LoginResponde 0 (Exemplos.loginOk 0)]
     ++ List.repeat SingleFlight.Chama 2)
    SingleFlight.inicial
  = Some {| SingleFlight.cachedToken := JStr "T0";
            SingleFlight.tokenPromise := None;
            SingleFlight.tarefas := [SingleFlight.Resolvida (JStr "T0")];
            SingleFlight.logins := 1;
            SingleFlight.entregas :=
              List.repeat (SingleFlight.Promessa 0) (S 9)
              ++ List.repeat (SingleFlight.Imediato (JStr "T0")) 2 |}.
Proof.
  apply (callers_share_one_login 9 2 (Exemplos.loginOk 0) (JStr "T0")).
  vm_compute. reflexivity.
Defined.

(* ===================================================================== *)
(** * The order total and the filter of the summary *)
(* ===================================================================== *)

(** X25 (analise-service.ts [buscarDadosAnalise], with gemini/chat/route.ts
    [analisarDadosDoSistema]): the fetch stores its snapshot before it
    computes the total of the orders.  When a fetch on a cache miss throws,
    either nothing is stored under its key and the cache is as it was, or
    the snapshot is stored and what was thrown is what the total over its
    orders throws.  In the second case the next fetch with the same
    arguments finds the snapshot: it sends nothing and returns it, where the
    first one threw; and the summary of the chat for the same user and
    filter, which computes the same total over the cached orders, is its
    empty fallback object. *)
Theorem total_failure_leaves_the_snapshot_cached (w : Mundo)
    (menosDias : Z -> string -> string) (f : FiltroAnalise) (userId : Z)
    (userName : string) (isAdmin : bool) (s : Estado) (e : Erro) :
  redisCacheService.get (cacheKeyOf f userId) (cache s) = None ->
  let run := buscarDadosAnalise w f userId isAdmin s in
  run.1 = Lanca e ->
  match redisCacheService.get (cacheKeyOf f userId) (cache run.2) with
  | None => cache run.2 = cache s
  | Some resultado =>
      somaVlrNota w (pedidos resultado) = Lanca e
      /\ buscarDadosAnalise w f userId isAdmin run.2
         = (Retorna {| dados := resultado; metricas := None |}, run.2)
      /\ (Js.truthy (JStr (dataInicio f)) && Js.truthy (JStr (dataFim f))
          = true ->
          analisarDadosDoSistema w menosDias userId userName isAdmin
            (Some f) run.2
          = (Retorna (resumoVazio userName), run.2))
  end.
Proof.
  intros Hmiss run He. unfold run in *.
  destruct (buscarDadosAnalise_post w f userId isAdmin s Hmiss)
    as (_ & Hr & _).
  destruct (buscarDadosAnalise w f userId isAdmin s) as [r s'].
  cbn [fst snd] in *. subst r.
  destruct Hr as [(i & _ & _ & Hc)
                 |[(lLeads & _ & _ & Hc & _)
                  |(resultado & _ & Ht & Hc & _)]].
  - rewrite Hc, Hmiss. reflexivity.
  - rewrite Hc, Hmiss. reflexivity.
  - assert (Hget : redisCacheService.get (cacheKeyOf f userId) (cache s')
                   = Some resultado).
    { unfold redisCacheService.get. rewrite Hc.
      unfold redisCacheService.set. rewrite lookup_insert_eq. reflexivity. }
    rewrite Hget. split; [exact Ht|].
    split; [apply buscarDadosAnalise_hit; exact Hget|].
    intros Hf. unfold analisarDadosDoSistema. rewrite Hf.
    unfold tryCatch, bindM, ret.
    rewrite (buscarDadosAnalise_hit w _ _ _ _ _ Hget).
    unfold liftR, resumoDe, somaCampo. simpl.
    change (reduceSoma w "VLRNOTA" (pedidos resultado) PrimFloat.zero)
      with (somaVlrNota w (pedidos resultado)).
    rewrite Ht. reflexivity.
Qed.

Lemma total_failure_leaves_the_snapshot_cached_witness :
  let run := buscarDadosAnalise Casos.mundoTotalLanca Exemplos.filtroJaneiro
               7 false Exemplos.estadoInicial in
  exists e resultado,
    run.1 = Lanca e
    /\ redisCacheService.get "analise:7:2024-01-01:2024-01-31" (cache run.2)
       = Some resultado
    /\ length (pedidos resultado) = 1%nat
    /\ buscarDadosAnalise Casos.mundoTotalLanca Exemplos.filtroJaneiro 7
         false run.2
       = (Retorna {| dados := resultado; metricas := None |}, run.2)
    /\ analisarDadosDoSistema Casos.mundoTotalLanca (fun _ iso => iso) 7
         "Ana" false (Some Exemplos.filtroJaneiro) run.2
       = (Retorna (resumoVazio "Ana"), run.2).
Proof.
  intros run.
  assert (He : exists e, run.1 = Lanca e)
    by (eexists; vm_compute; reflexivity).
  destruct He as [e He].
  pose proof (total_failure_leaves_the_snapshot_cached Casos.mundoTotalLanca
                (fun _ iso => iso) Exemplos.filtroJaneiro 7 "Ana" false
                Exemplos.estadoInicial e eq_refl He) as H.
  assert (Hg : exists resultado,
             redisCacheService.get "analise:7:2024-01-01:2024-01-31"
               (cache run.2) = Some resultado
             /\ length (pedidos resultado) = 1%nat)
    by (eexists; split; vm_compute; reflexivity).
  destruct Hg as (resultado & Hg & Hlen).
  change (cacheKeyOf Exemplos.filtroJaneiro 7)
    with "analise:7:2024-01-01:2024-01-31" in H.
  fold run in H. rewrite Hg in H. destruct H as (_ & Hnext & Hchat).
  exists e, resultado.
  split; [exact He|]. split; [exact Hg|]. split; [exact Hlen|].
  split; [exact Hnext|]. apply Hchat. reflexivity.
Defined.

(** X26 (gemini/chat/route.ts, [analisarDadosDoSistema], the filter): a
    filter of the caller in which one of the two dates is empty is dropped
    as a whole: the summary is the one for the default period of the last 90
    days, as if no filter had been sent, and the date that was sent is not
    used. *)
Theorem partial_filter_is_ignored (w : Mundo)
    (menosDias : Z -> string -> string) (userId : Z) (userName : string)
    (isAdmin : bool) (filtroFrontend : FiltroAnalise) (s : Estado) :
  dataInicio filtroFrontend = "" \/ dataFim filtroFrontend = "" ->
  analisarDadosDoSistema w menosDias userId userName isAdmin
    (Some filtroFrontend) s
  = analisarDadosDoSistema w menosDias userId userName isAdmin None s.
Proof.
  intros H. unfold analisarDadosDoSistema.
  replace (Js.truthy (JStr (dataInicio filtroFrontend))
           && Js.truthy (JStr (dataFim filtroFrontend))) with false;
    [reflexivity|].
  destruct H as [-> | ->]; simpl; [reflexivity|].
  rewrite andb_false_r. reflexivity.
Qed.

Lemma partial_filter_is_ignored_witness :
  analisarDadosDoSistema Exemplos.mundoSemRede (fun _ iso => iso) 7 "Ana"
    false (Some {| dataInicio := "2024-01-01"; dataFim := "" |})
    Exemplos.estadoInicial
  = analisarDadosDoSistema Exemplos.mundoSemRede (fun _ iso => iso) 7 "Ana"
      false None Exemplos.estadoInicial.
Proof.
  apply (partial_filter_is_ignored Exemplos.mundoSemRede (fun _ iso => iso)
           7 "Ana" false {| dataInicio := "2024-01-01"; dataFim := "" |}
           Exemplos.estadoInicial).
  right. reflexivity.
Defined.

(* ===================================================================== *)
(** * The criteria of the leads query *)
(* ===================================================================== *)

(** C9: for every [userId] and every filter whose two dates have the form
    YYYY-MM-DD, the criteria of the leads payload that a fetch builds contain
    the clause [CODUSUARIO = userId], the id printed as a number prints,
    exactly when [isAdmin] is false, and with [isAdmin] true they do not
    mention [CODUSUARIO] at all.  That payload is the one the fetch sends:
    every leads query in the log of a fetch carries it; on a cache miss the
    log of the fetch begins with the log of the call of the executor for
    that payload; and whenever that call returns an answer, its last event
    is the query request for the payload, and the answer is what the server
    gave to that request. *)
Theorem leads_criteria_name_user_unless_admin (w : Mundo) (f : FiltroAnalise)
    (userId : Z) (isAdmin : bool) (s : Estado) :
  dataISO (dataInicio f) = true ->
  dataISO (dataFim f) = true ->
  let p := leadsPayloadDe f userId isAdmin in
  let run := buscarDadosAnalise w f userId isAdmin s in
  contains ("CODUSUARIO = " +:+ Js.numberToString userId) (criteria p)
  = negb isAdmin
  /\ (isAdmin = true -> contains "CODUSUARIO" (criteria p) = false)
  /\ (exists evs,
        log run.2 = log s ++ evs /\ Forall (consultaDeLeadsEh p) evs)
  /\ (redisCacheService.get (cacheKeyOf f userId) (cache s) = None ->
      exists evsLeads rest,
        log (fazerRequisicaoAutenticada w URL_CONSULTA_SERVICO p 0 s).2
        = log s ++ evsLeads
        /\ log run.2 = log s ++ evsLeads ++ rest
        /\ forall res,
             (fazerRequisicaoAutenticada w URL_CONSULTA_SERVICO p 0 s).1
             = Retorna res ->
             exists text evs0 n,
               evsLeads = evs0 ++ [EvConsulta URL_CONSULTA_SERVICO
                                     ("Bearer " +:+ text) p]
               /\ consulta_at w n URL_CONSULTA_SERVICO ("Bearer " +:+ text) p
                  = inr res).
Proof.
  intros Hi Hf p run.
  destruct (criteriaLeads_codusuario
              (formatarDataParaSankhya (dataInicio f))
              (formatarDataParaSankhya (dataFim f)) userId isAdmin)
    as [H1 H2];
    try (apply formatarData_semU, dataISO_semU; assumption).
  split; [exact H1|]. split; [exact H2|]. split.
  { destruct (buscarDadosAnalise_events w f userId isAdmin s)
      as (evs & Hlog & Hall).
    exists evs. split; [exact Hlog|].
    eapply Forall_impl; [exact Hall|]. apply plano_leads. }
  intros Hmiss. unfold run.
  rewrite (buscarDadosAnalise_miss w _ _ _ _ Hmiss).
  destruct (buscarDaApi_segmentos w f userId isAdmin (cacheKeyOf f userId) s)
    as (segs & evs8 & Hlog & _ & _ & (evs1 & rest & -> & Hleads) & _).
  exists evs1, (concat rest ++ evs8).
  split; [exact Hleads|].
  split; [rewrite Hlog; simpl; rewrite <- app_assoc; reflexivity|].
  intros res Hres. fold p in Hleads.
  destruct (fazerRequisicaoAutenticada w URL_CONSULTA_SERVICO p 0 s)
    as [r sx] eqn:E.
  cbn [fst snd] in Hres, Hleads. subst r.
  destruct (fazerRequisicaoAutenticada_rec_inv w _ _ _ _ _ _ _ E)
    as (text & s1 & _ & _ & Hsx & Hv & evs0 & Hs1).
  exists text, evs0, (nConsulta s1). split; [|exact Hv].
  rewrite Hsx in Hleads. simpl in Hleads.
  rewrite Hs1, <- app_assoc in Hleads.
  exact (eq_sym (app_inv_head _ _ _ Hleads)).
Qed.

Lemma leads_criteria_name_user_unless_admin_witness :
  let p := leadsPayloadDe Exemplos.filtroJaneiro 7 false in
  let run := buscarDadosAnalise Casos.mundoSemDados Exemplos.filtroJaneiro 7
               false Exemplos.estadoInicial in
  criteria p
  = "DATA_CRIACAO BETWEEN '01/01/2024' AND '31/01/2024' AND ATIVO = 'S' AND CODUSUARIO = 7"
  /\ contains "CODUSUARIO = 7" (criteria p) = true
  /\ contains "CODUSUARIO"
       (criteria (leadsPayloadDe Exemplos.filtroJaneiro 7 true)) = false
  /\ exists rest,
       log run.2
       = [EvLogin; EvConsulta URL_CONSULTA_SERVICO "Bearer T0" p] ++ rest.
Proof.
  intros p run.
  pose proof (leads_criteria_name_user_unless_admin Casos.mundoSemDados
                Exemplos.filtroJaneiro 7 false Exemplos.estadoInicial
                eq_refl eq_refl) as H.
  pose proof (leads_criteria_name_user_unless_admin Casos.mundoSemDados
                Exemplos.filtroJaneiro 7 true Exemplos.estadoInicial
                eq_refl eq_refl) as H'.
  cbv zeta in H, H'.
  destruct H as (Hc & _ & _ & Hlink). destruct H' as (_ & Hno & _).
  split; [reflexivity|]. split; [exact Hc|]. split; [exact (Hno eq_refl)|].
  destruct (Hlink eq_refl) as (evsLeads & rest & Hleads & Hrun & _).
  exists rest.
  assert (Hev : log (fazerRequisicaoAutenticada Casos.mundoSemDados
                       URL_CONSULTA_SERVICO p 0 Exemplos.estadoInicial).2
                = [EvLogin; EvConsulta URL_CONSULTA_SERVICO "Bearer T0" p])
    by (vm_compute; reflexivity).
  fold p in Hleads. rewrite Hev in Hleads.
  change (log Exemplos.estadoInicial) with (@nil Evento) in Hleads, Hrun.
  rewrite app_nil_l in Hleads, Hrun. rewrite Hleads. exact Hrun.
Defined.

(** C9 (counterexample): the dates are spliced into the criteria as they
    are.  A filter whose start date is the text [CODUSUARIO = 7] puts the
    clause into the criteria built for an administrator, which the claim
    says omit it. *)
Lemma criteria_of_a_forged_date :
  criteria (leadsPayloadDe Exemplos.filtroForjado 7 true)
  = "DATA_CRIACAO BETWEEN 'undefined/undefined/CODUSUARIO = 7' AND '31/01/2024' AND ATIVO = 'S'"
  /\ contains ("CODUSUARIO = " +:+ Js.numberToString 7)
       (criteria (leadsPayloadDe Exemplos.filtroForjado 7 true))
     = true.
Proof. split; reflexivity. Qed.
